(** * debtoapg: the .deb to .apg conversion pipeline

    A shallow embedding of [src/main.py] (class [DebToApgConverter] and
    [main]) and the properties of its pipeline:
    validation, extraction, restructuring, metadata and checksum
    synthesis, packaging, cleanup and exit codes.

    The file system is modelled as a tree of regular files and
    directories; symbolic links and special files are outside the model.
    Exceptions are values of [exn] threaded through a state-and-error
    monad; the external collaborators ([dpkg-deb], the clock, the
    temporary-name generator, the text decoder, the JSON and tar/xz
    encoders) are fields of an environment record. *)

From Stdlib Require Import NArith ZArith Ascii String List.
From stdpp Require Import base option list gmap strings.

Local Open Scope string_scope.
Set Warnings "-register-all".

(** ** SHA-256 ([hashlib.sha256(...).hexdigest()]) *)

Module Sha256.
Local Open Scope N_scope.

(** The first sixty-four primes. *)
Definition is_prime (n : N) : bool :=
  (1 <? n)
  && forallb (fun d => negb (n mod d =? 0)) (map N.of_nat (seq 2 (N.to_nat n - 2))).

Definition primes : list N :=
  Eval vm_compute in List.filter is_prime (map N.of_nat (seq 2 310)).

(** Integer cube root, one bit at a time from bit [bits - 1] down. *)
Fixpoint icbrt (bits : nat) (n r : N) : N :=
  match bits with
  | O => r
  | S b =>
      let r' := r + 2 ^ N.of_nat b in
      icbrt b n (if r' * r' * r' <=? n then r' else r)
  end.

(** Round constants: the first 32 bits of the fractional parts of the
    cube roots of the primes. *)
Definition K : list N :=
  Eval vm_compute in map (fun p => icbrt 36 (p * 2 ^ 96) 0 mod 2 ^ 32) primes.

(** Initial hash value: the first 32 bits of the fractional parts of
    the square roots of the first eight primes. *)
Definition H0 : list N :=
  Eval vm_compute in map (fun p => N.sqrt (p * 2 ^ 64) mod 2 ^ 32) (firstn 8 primes).

(** 32-bit words are kept in [N], reduced modulo [2^32] after every
    operation that can overflow. *)
Definition w32 (x : N) : N := x mod 2 ^ 32.
Definition add32 (a b : N) : N := w32 (a + b).
Definition rotr (n x : N) : N := N.lor (N.shiftr x n) (w32 (N.shiftl x (32 - n))).
Definition not32 (x : N) : N := N.lxor x 0xffffffff.
Definition xor3 (a b c : N) : N := N.lxor (N.lxor a b) c.

Definition Ch (x y z : N) : N := N.lxor (N.land x y) (N.land (not32 x) z).
Definition Maj (x y z : N) : N := xor3 (N.land x y) (N.land x z) (N.land y z).
Definition bsig0 (x : N) : N := xor3 (rotr 2 x) (rotr 13 x) (rotr 22 x).
Definition bsig1 (x : N) : N := xor3 (rotr 6 x) (rotr 11 x) (rotr 25 x).
Definition ssig0 (x : N) : N := xor3 (rotr 7 x) (rotr 18 x) (N.shiftr x 3).
Definition ssig1 (x : N) : N := xor3 (rotr 17 x) (rotr 19 x) (N.shiftr x 10).

(** Big-endian encoding of [x] on [n] bytes. *)
Fixpoint be_bytes (n : nat) (x : N) : list N :=
  match n with
  | O => []
  | S n' => N.shiftr x (8 * N.of_nat n') mod 256 :: be_bytes n' x
  end.

Definition be_word (bs : list N) : N :=
  fold_left (fun acc b => acc * 256 + b) bs 0.

(** Message padding: a [0x80] byte, zeros up to 56 modulo 64, then the
    bit length on 8 bytes. *)
Definition pad (msg : list N) : list N :=
  let len := List.length msg in
  let zeros := ((119 - len mod 64) mod 64)%nat in
  msg ++ [0x80] ++ repeat 0 zeros ++ be_bytes 8 (8 * N.of_nat len).

Fixpoint chunks {A} (size count : nat) (l : list A) : list (list A) :=
  match count with
  | O => []
  | S c => firstn size l :: chunks size c (skipn size l)
  end.

Definition at_ (w : list N) (i : nat) : N := nth i w 0.

(** Message schedule: sixteen block words extended to sixty-four. *)
Fixpoint extend (n : nat) (w : list N) : list N :=
  match n with
  | O => w
  | S n' =>
      let i := List.length w in
      let x := add32 (add32 (ssig1 (at_ w (i - 2))) (at_ w (i - 7)))
                     (add32 (ssig0 (at_ w (i - 15))) (at_ w (i - 16))) in
      extend n' (w ++ [x])
  end.

Definition schedule (block : list N) : list N :=
  extend 48 (map be_word (chunks 4 16 block)).

Definition round (s : list N) (kw : N * N) : list N :=
  let a := at_ s 0 in let b := at_ s 1 in let c := at_ s 2 in
  let d := at_ s 3 in let e := at_ s 4 in let f := at_ s 5 in
  let g := at_ s 6 in let h := at_ s 7 in
  let t1 := add32 (add32 (add32 h (bsig1 e)) (add32 (Ch e f g) (fst kw))) (snd kw) in
  let t2 := add32 (bsig0 a) (Maj a b c) in
  [add32 t1 t2; a; b; c; add32 d t1; e; f; g].

Definition compress (h : list N) (block : list N) : list N :=
  let s := fold_left round (combine K (schedule block)) h in
  map (fun p => add32 (fst p) (snd p)) (combine h s).

Definition digest_words (msg : list N) : list N :=
  let p := pad msg in
  fold_left compress (chunks 64 (List.length p / 64) p) H0.

Definition hex_digit (d : N) : ascii :=
  if d <? 10 then ascii_of_N (48 + d) else ascii_of_N (87 + d).

Fixpoint hex_word (n : nat) (x : N) : list ascii :=
  match n with
  | O => []
  | S n' => hex_digit (N.shiftr x (4 * N.of_nat n') mod 16) :: hex_word n' x
  end.

Definition hexdigest (data : string) : string :=
  string_of_list_ascii
    (flat_map (hex_word 8) (digest_words (map N_of_ascii (list_ascii_of_string data)))).

End Sha256.

(** ** Files, directories and paths *)

(** A path inside a directory tree is the list of its components;
    [os.path.join(p, name)] appends one component. *)
Abbreviation path := (list string).

Definition path_join (p : path) (name : string) : path := p ++ [name].

Inductive node : Type :=
| File (bytes : string)
| Dir (entries : list (string * node)).

Abbreviation listing := (list (string * node)).

Definition is_dir (n : node) : bool :=
  match n with Dir _ => true | File _ => false end.

Definition names (es : listing) : list string := map fst es.

(** The entry called [name] in a directory. *)
Fixpoint entry (name : string) (es : listing) : option node :=
  match es with
  | [] => None
  | (k, n) :: es' => if String.eqb k name then Some n else entry name es'
  end.

(** Bind [name] to [new] in a directory: in place when the name is
    taken, as a new entry otherwise. *)
Fixpoint set_entry (name : string) (new : node) (es : listing) : listing :=
  match es with
  | [] => [(name, new)]
  | (k, n) :: es' =>
      if String.eqb k name then (k, new) :: es' else (k, n) :: set_entry name new es'
  end.

Definition del_entry (name : string) (es : listing) : listing :=
  List.filter (fun kn => negb (String.eqb (fst kn) name)) es.

(** The node at path [p] below [n]. *)
Fixpoint get (p : path) (n : node) : option node :=
  match p with
  | [] => Some n
  | name :: p' =>
      match n with
      | Dir es => match entry name es with Some c => get p' c | None => None end
      | File _ => None
      end
  end.

(** Place [new] at path [p]; the parent directory must exist. *)
Fixpoint put (p : path) (new : node) (n : node) : option node :=
  match p with
  | [] => Some new
  | name :: p' =>
      match n with
      | Dir es =>
          match p' with
          | [] => Some (Dir (set_entry name new es))
          | _ :: _ =>
              match entry name es with
              | Some c =>
                  match put p' new c with
                  | Some c' => Some (Dir (set_entry name c' es))
                  | None => None
                  end
              | None => None
              end
          end
      | File _ => None
      end
  end.

(** Unlink the entry at path [p] (with everything below it). *)
Fixpoint remove (p : path) (n : node) : option node :=
  match p with
  | [] => None
  | name :: p' =>
      match n with
      | Dir es =>
          match p' with
          | [] => match entry name es with
                  | Some _ => Some (Dir (del_entry name es))
                  | None => None
                  end
          | _ :: _ =>
              match entry name es with
              | Some c =>
                  match remove p' c with
                  | Some c' => Some (Dir (set_entry name c' es))
                  | None => None
                  end
              | None => None
              end
          end
      | File _ => None
      end
  end.

(** A chain of fresh nested directories [a/b/c]. *)
Fixpoint fresh_dirs (p : path) : node :=
  match p with
  | [] => Dir []
  | name :: p' => Dir [(name, fresh_dirs p')]
  end.

(** [posixpath.relpath] on component lists: drop the common prefix,
    climb out of what is left of [start]. *)
Fixpoint relpath_list (p start : path) : path :=
  match p, start with
  | a :: p', b :: start' =>
      if String.eqb a b then relpath_list p' start'
      else repeat ".." (List.length start) ++ p
  | _, _ => repeat ".." (List.length start) ++ p
  end.

Definition relpath (p start : path) : string :=
  match relpath_list p start with
  | [] => "."
  | r => String.concat "/" r
  end.

(** [os.path.join] on the strings used as archive member names. *)
Definition startswith_slash (s : string) : bool :=
  match s with String c _ => Ascii.eqb c "/"%char | EmptyString => false end.

Fixpoint endswith (s suffix : string) : bool :=
  String.eqb s suffix ||
  match s with
  | EmptyString => false
  | String _ s' => endswith s' suffix
  end.

Definition os_path_join (a b : string) : string :=
  if startswith_slash b then b
  else if String.eqb a "" || endswith a "/" then a ++ b
  else a ++ "/" ++ b.

(** [os.walk(top)], top-down: one triple (directory, sub-directory
    names, other names) per directory reached. *)
Definition dirnames (es : listing) : list string :=
  names (List.filter (fun kn => is_dir (snd kn)) es).

Definition filenames (es : listing) : list string :=
  names (List.filter (fun kn => negb (is_dir (snd kn))) es).

Fixpoint os_walk (n : node) (top : path) : list (path * list string * list string) :=
  match n with
  | File _ => []
  | Dir es =>
      (top, dirnames es, filenames es) ::
      flat_map (fun kn => if is_dir (snd kn) then os_walk (snd kn) (path_join top (fst kn)) else [])
               es
  end.

(** [sorted(os.listdir(...))]: insertion sort on names. *)
Fixpoint insert_by_name {A} (x : string * A) (l : list (string * A)) : list (string * A) :=
  match l with
  | [] => [x]
  | y :: l' => if String.leb (fst x) (fst y) then x :: y :: l' else y :: insert_by_name x l'
  end.

Definition sort_by_name {A} (l : list (string * A)) : list (string * A) :=
  fold_right insert_by_name [] l.

(** Members of a tar archive. *)
Inductive member_body : Type :=
| MDir
| MFile (bytes : string).

Abbreviation member := (string * member_body)%type.

(** [TarFile.add(name, arcname)], recursive: the entry itself, then the
    children of a directory in sorted name order, each under
    [os.path.join(arcname, child)]. *)
Fixpoint tar_add (n : node) (arcname : string) : list member :=
  match n with
  | File b => [(arcname, MFile b)]
  | Dir es =>
      (arcname, MDir) ::
      flat_map (fun kf => snd kf (os_path_join arcname (fst kf)))
               (sort_by_name (map (fun kn => (fst kn, tar_add (snd kn))) es))
  end.

(** ** Exceptions, terminal output, program state *)

Inductive exn : Type :=
| ValueError (msg : string)
| RuntimeError (msg : string)
| TypeError
| FileExistsError
| FileNotFoundError
| IsADirectoryError
| NotADirectoryError
| PermissionError
| ShutilError
| UnicodeDecodeError
| CalledProcessError (stderr : string)
| KeyboardInterrupt.

(** [except Exception] catches everything but [KeyboardInterrupt]. *)
Definition is_Exception (e : exn) : bool :=
  match e with KeyboardInterrupt => false | _ => true end.

Inductive result (A : Type) : Type :=
| Ok (a : A)
| Raise (e : exn).
Arguments Ok {A} a.
Arguments Raise {A} e.

(** Values handed back by the methods whose result is not a record. *)
Inductive pyvalue : Type :=
| PyNone
| PyBool (b : bool)
| PyInt (n : N).

Inductive level : Type := info | success | warning | error | process.

Inductive message : Type :=
| Msg (text : string)
| MsgFailed (e : exn)
| MsgCreated (output_file : string) (size_bytes : N).

(** What the program prints, one constructor per [print] of the source;
    colours and exact layout are not modelled. *)
Inductive output : Type :=
| Banner (version : string)
| VersionInfo (version : string)
| Usage
| Line (text : string)
| Progress (step total : nat) (text : string)
| Log (lv : level) (m : message)
| ErrorLine (e : exn)
| Cancelled.

(** The fields of a [DebToApgConverter] object. *)
Record converter : Type := Converter {
  verbose : bool;
  temp_dir : option string;
  version : string;
  total_steps : nat;
  current_step : nat
}.

(** [DebToApgConverter.__init__] *)
Definition DebToApgConverter (verbose : bool) : converter :=
  {| verbose := verbose; temp_dir := None; version := "1.0.0";
     total_steps := 4; current_step := 0 |}.

(** The disk: the directories made by [tempfile.mkdtemp], keyed by
    their path, and the files at caller-chosen paths. *)
Record disk : Type := Disk {
  tmpdirs : gmap string node;
  outfiles : gmap string string
}.

Record state : Type := State {
  self : converter;
  fs : disk;
  tty : list output
}.

(** A location on disk: a temporary directory and a path below it. *)
Abbreviation location := (string * path)%type.

Definition join (l : location) (name : string) : location :=
  (fst l, path_join (snd l) name).

Definition lookup_loc (d : disk) (l : location) : option node :=
  match tmpdirs d !! fst l with
  | Some root => get (snd l) root
  | None => None
  end.

(** Points of the pipeline at which a user interrupt can be delivered. *)
Inductive point : Type :=
| InValidate | InMkdtemp | InUnpack | InRestructure | InRecords | InPack | InReport.

Global Instance point_eq_dec : EqDecision point.
Proof. solve_decision. Defined.

Record CompletedProcess : Type := Completed {
  returncode : Z;
  stderr : string
}.

(** Everything the program obtains from outside itself. *)
Record env : Type := Env {
  (** [os.path.exists] on a caller-supplied path *)
  path_exists : string -> bool;
  (** [dpkg-deb --info f], [dpkg-deb --contents f] *)
  dpkg_deb_info : string -> CompletedProcess;
  dpkg_deb_contents : string -> CompletedProcess;
  (** [dpkg-deb -R f dest]: what it leaves in [dest], and how it exits *)
  dpkg_deb_R : string -> listing * CompletedProcess;
  (** the random names [mkdtemp] tries, in order *)
  tmp_names : list string;
  (** [datetime.utcnow().isoformat()] *)
  utcnow_isoformat : string;
  (** text-mode [read()] of a file with these bytes; [None] when the
      bytes do not decode *)
  read_text : string -> option string;
  (** [json.dump(d, f, indent=2)] *)
  json_dump : gmap string string -> string;
  (** the exception, if any, raised on opening this path for writing *)
  open_for_writing : string -> option exn;
  (** the bytes of the xz-compressed tar stream holding these members *)
  tar_xz : list member -> string;
  (** where a [KeyboardInterrupt] arrives, if anywhere *)
  interrupt : option point
}.

(** ** The state-and-exception monad *)

Definition M (A : Type) : Type := state -> result A * state.

Global Instance M_ret : MRet M := fun A (a : A) st => (Ok a, st).

Global Instance M_bind : MBind M := fun A B (k : A -> M B) (m : M A) st =>
  match m st with
  | (Ok a, st') => k a st'
  | (Raise e, st') => (Raise e, st')
  end.

Definition raise {A} (e : exn) : M A := fun st => (Raise e, st).

(** [try: body  except ...: handler]; [handler e = None] when no
    clause matches [e]. *)
Definition try_except {A} (body : M A) (handler : exn -> option (M A)) : M A :=
  fun st =>
    match body st with
    | (Ok a, st') => (Ok a, st')
    | (Raise e, st') =>
        match handler e with
        | Some h => h st'
        | None => (Raise e, st')
        end
    end.

(** [try: body  finally: final] *)
Definition try_finally {A B} (body : M A) (final : M B) : M A :=
  fun st =>
    match body st with
    | (r, st') =>
        match final st' with
        | (Ok _, st'') => (r, st'')
        | (Raise e, st'') => (Raise e, st'')
        end
    end.

(** [for x in xs: body] threading an accumulator. *)
Fixpoint foldM {A B} (body : B -> A -> M B) (acc : B) (xs : list A) : M B :=
  match xs with
  | [] => mret acc
  | x :: xs' => acc' ← body acc x; foldM body acc' xs'
  end.

Definition for_each {A} (xs : list A) (body : A -> M unit) : M unit :=
  foldM (fun _ x => body x) tt xs.

Definition print (o : output) : M unit :=
  fun st => (Ok tt, {| self := self st; fs := fs st; tty := tty st ++ [o] |}).

Definition get_self : M converter := fun st => (Ok (self st), st).

Definition set_self (c : converter) : M unit :=
  fun st => (Ok tt, {| self := c; fs := fs st; tty := tty st |}).

Definition get_fs : M disk := fun st => (Ok (fs st), st).

Definition set_fs (d : disk) : M unit :=
  fun st => (Ok tt, {| self := self st; fs := d; tty := tty st |}).

(** ** The program *)

Section Program.

Variable E : env.

(** Delivery of a user interrupt at point [p]. *)
Definition poll (p : point) : M unit :=
  if decide (interrupt E = Some p) then raise KeyboardInterrupt else mret tt.

(** *** File-system primitives *)

Definition os_path_exists (l : location) : M bool :=
  d ← get_fs;
  mret (match lookup_loc d l with Some _ => true | None => false end).

(** Apply [f] to the tree rooted at the temporary directory [t]. *)
Definition update_tree (t : string) (f : node -> result node) : M unit :=
  d ← get_fs;
  match tmpdirs d !! t with
  | None => raise FileNotFoundError
  | Some root =>
      match f root with
      | Ok root' => set_fs {| tmpdirs := <[t := root']> (tmpdirs d); outfiles := outfiles d |}
      | Raise e => raise e
      end
  end.

(** [os.makedirs(p)] below [n]: missing directories on the way are
    created, the last component must not exist yet. *)
Fixpoint mkdirs (p : path) (n : node) : result node :=
  match p with
  | [] => Raise FileExistsError
  | name :: p' =>
      match n with
      | File _ => Raise NotADirectoryError
      | Dir es =>
          match entry name es with
          | Some c =>
              match mkdirs p' c with
              | Ok c' => Ok (Dir (set_entry name c' es))
              | Raise e => Raise e
              end
          | None => Ok (Dir (set_entry name (fresh_dirs p') es))
          end
      end
  end.

Definition os_makedirs (l : location) : M unit :=
  d ← get_fs;
  match tmpdirs d !! fst l with
  | None =>
      set_fs {| tmpdirs := <[fst l := fresh_dirs (snd l)]> (tmpdirs d);
                outfiles := outfiles d |}
  | Some _ => update_tree (fst l) (mkdirs (snd l))
  end.

Definition os_listdir (l : location) : M (list string) :=
  d ← get_fs;
  match lookup_loc d l with
  | Some (Dir es) => mret (names es)
  | Some (File _) => raise NotADirectoryError
  | None => raise FileNotFoundError
  end.

Definition rename (src dst : path) (n : node) : result node :=
  match get src n with
  | None => Raise FileNotFoundError
  | Some x =>
      match remove src n with
      | None => Raise FileNotFoundError
      | Some n' =>
          match put dst x n' with
          | Some n'' => Ok n''
          | None => Raise FileNotFoundError
          end
      end
  end.

(** [shutil.move(src, dst)] inside one temporary directory: into [dst]
    when [dst] is a directory, onto [dst] otherwise. *)
Definition move_in_tree (src dst : path) (root : node) : result node :=
  match get dst root with
  | Some (Dir _) =>
      let real_dst := path_join dst (List.last src "") in
      match get real_dst root with
      | Some _ => Raise ShutilError
      | None => rename src real_dst root
      end
  | _ => rename src dst root
  end.

Definition shutil_move (src dst : location) : M unit :=
  update_tree (fst src) (move_in_tree (snd src) (snd dst)).

(** [open(l, 'w')] followed by writing [bytes]. *)
Definition write_in_tree (p : path) (bytes : string) (root : node) : result node :=
  match get p root with
  | Some (Dir _) => Raise IsADirectoryError
  | _ =>
      match put p (File bytes) root with
      | Some root' => Ok root'
      | None => Raise FileNotFoundError
      end
  end.

Definition write_file (l : location) (bytes : string) : M unit :=
  update_tree (fst l) (write_in_tree (snd l) bytes).

(** [open(l, 'rb').read()] *)
Definition read_bytes (l : location) : M string :=
  d ← get_fs;
  match lookup_loc d l with
  | Some (File b) => mret b
  | Some (Dir _) => raise IsADirectoryError
  | None => raise FileNotFoundError
  end.

(** [open(l, 'r').read()] *)
Definition read_file_text (l : location) : M string :=
  b ← read_bytes l;
  match read_text E b with
  | Some text => mret text
  | None => raise UnicodeDecodeError
  end.

Definition walk (l : location) : M (list (path * list string * list string)) :=
  d ← get_fs;
  mret (match lookup_loc d l with
        | Some n => os_walk n (snd l)
        | None => []
        end).

Definition shutil_rmtree (t : string) : M unit :=
  d ← get_fs;
  match tmpdirs d !! t with
  | Some _ => set_fs {| tmpdirs := delete t (tmpdirs d); outfiles := outfiles d |}
  | None => raise FileNotFoundError
  end.

(** [tempfile.mkdtemp()]: the first candidate name that is free. *)
Definition tmp_path (name : string) : string := "/tmp/tmp" ++ name.

Definition mkdtemp : M string :=
  d ← get_fs;
  match List.find (fun name => bool_decide (tmpdirs d !! tmp_path name = None)) (tmp_names E) with
  | Some name =>
      set_fs {| tmpdirs := <[tmp_path name := Dir []]> (tmpdirs d); outfiles := outfiles d |};;
      mret (tmp_path name)
  | None => raise FileExistsError
  end.

Definition os_path_getsize (f : string) : M N :=
  d ← get_fs;
  match outfiles d !! f with
  | Some bytes => mret (N.of_nat (String.length bytes))
  | None => raise FileNotFoundError
  end.

(** [subprocess.run(..., check=True, capture_output=True)] on the outcome
    of the child process. *)
Definition subprocess_run (cp : CompletedProcess) : M unit :=
  if Z.eqb (returncode cp) 0 then mret tt else raise (CalledProcessError (stderr cp)).

(** [dpkg-deb -R input_file t]: the tool fills [t], then exits. *)
Definition dpkg_deb_extract (input_file t : string) : M unit :=
  update_tree t (fun _ => Ok (Dir (fst (dpkg_deb_R E input_file))));;
  subprocess_run (snd (dpkg_deb_R E input_file)).

(** *** Methods of [DebToApgConverter] *)

Definition print_version : M unit :=
  c ← get_self; print (VersionInfo (version c)).

Definition print_banner : M unit :=
  c ← get_self; print (Banner (version c)).

Definition update_progress (text : string) : M unit :=
  c ← get_self;
  let step := S (current_step c) in
  set_self {| verbose := verbose c; temp_dir := temp_dir c; version := version c;
              total_steps := total_steps c; current_step := step |};;
  print (Progress step (total_steps c) text).

Definition shown (lv : level) : bool :=
  match lv with error | success | warning => true | _ => false end.

Definition log (m : message) (lv : level) : M unit :=
  c ← get_self;
  if verbose c || shown lv then print (Log lv m) else mret tt.

Definition cleanup : M pyvalue :=
  c ← get_self;
  match temp_dir c with
  | Some t =>
      if negb (String.eqb t "") then
        ex ← os_path_exists (t, []);
        if (ex : bool) then shutil_rmtree t;; mret PyNone else mret PyNone
      else mret PyNone
  | None => mret PyNone
  end.

Definition validate_deb (input_file : string) : M pyvalue :=
  if negb (path_exists E input_file) then raise (ValueError "Input file does not exist")
  else if negb (endswith input_file ".deb") then
    raise (ValueError "Input file must be a .deb package")
  else
    try_except
      (poll InValidate;;
       subprocess_run (dpkg_deb_info E input_file);;
       subprocess_run (dpkg_deb_contents E input_file);;
       log (Msg "Package validation successful") success;;
       mret (PyBool true))
      (fun e =>
         match e with
         | CalledProcessError err =>
             Some (raise (ValueError ("Invalid or corrupted .deb package: " ++ err)))
         | _ => None
         end).

Definition extract_deb (input_file : string) : M pyvalue :=
  log (Msg ("Extracting " ++ input_file ++ "...")) process;;
  update_progress "Extracting DEB package";;
  poll InMkdtemp;;
  t ← mkdtemp;
  c ← get_self;
  set_self {| verbose := verbose c; temp_dir := Some t; version := version c;
              total_steps := total_steps c; current_step := current_step c |};;
  try_except
    (poll InUnpack;;
     dpkg_deb_extract input_file t;;
     mret PyNone)
    (fun e =>
       match e with
       | CalledProcessError err =>
           Some (cleanup;; raise (RuntimeError ("Failed to extract .deb: " ++ err)))
       | _ => None
       end).

(** [os.path.join(self.temp_dir, name)] *)
Definition temp_dir_join (name : string) : M location :=
  c ← get_self;
  match temp_dir c with
  | Some t => mret (t, [name])
  | None => raise TypeError
  end.

Definition control_files : list string :=
  ["control"; "preinst"; "postinst"; "prerm"; "postrm"; "triggers"; "conffiles"].

(** The body of the loop over [control_files]. *)
Definition read_control (debian_dir : location) (metadata : gmap string string)
    (file : string) : M (gmap string string) :=
  let file_path := join debian_dir file in
  ex ← os_path_exists file_path;
  if (ex : bool) then
    text ← read_file_text file_path;
    mret (<[file := text]> metadata)
  else mret metadata.

Definition generate_metadata : M (gmap string string) :=
  update_progress "Generating metadata";;
  debian_dir ← temp_dir_join "DEBIAN";
  c ← get_self;
  let metadata : gmap string string :=
    <["author" := "AnmiTaliDev"]>
    (<["converter" := "debtoapg"]>
    (<["converter_version" := version c]>
    (<["created" := utcnow_isoformat E]> ∅))) in
  foldM (read_control debian_dir) metadata control_files.

(** The body of the inner loop: one file of the directory [root]. *)
Definition checksum_file (directory : location) (root : path)
    (checksums : gmap string string) (file : string) : M (gmap string string) :=
  let file_path := path_join root file in
  let rel_path := relpath file_path (snd directory) in
  bytes ← read_bytes (fst directory, file_path);
  mret (<[rel_path := Sha256.hexdigest bytes]> checksums).

(** The body of the outer loop: one triple of the walk. *)
Definition checksum_dir (directory : location) (checksums : gmap string string)
    (triple : path * list string * list string) : M (gmap string string) :=
  let root := fst (fst triple) in
  let files := snd triple in
  foldM (checksum_file directory root) checksums files.

Definition calculate_checksums (directory : location) : M (gmap string string) :=
  update_progress "Calculating checksums";;
  triples ← walk directory;
  foldM (checksum_dir directory) ∅ triples.

(** The body of the loop over [os.listdir(data_source)]. *)
Definition move_item (data_source data_dest : location) (item : string) : M unit :=
  if negb (String.eqb item "DEBIAN") && negb (String.eqb item "apg") then
    shutil_move (join data_source item) (join data_dest item)
  else mret tt.

(** Lines 127-138 of [create_apg]: the new layout and the moves. *)
Definition restructure : M location :=
  log (Msg "Creating APG structure...") process;;
  poll InRestructure;;
  apg_root ← temp_dir_join "apg";
  os_makedirs apg_root;;
  os_makedirs (join apg_root "data");;
  let data_source : location := (fst apg_root, []) in
  let data_dest := join apg_root "data" in
  items ← os_listdir data_source;
  for_each items (move_item data_source data_dest);;
  mret apg_root.

(** Lines 140-144: the two record files. *)
Definition write_records (apg_root : location) : M unit :=
  poll InRecords;;
  write_file (join apg_root "metadata.json") "";;
  metadata ← generate_metadata;
  write_file (join apg_root "metadata.json") (json_dump E metadata);;
  write_file (join apg_root "checksums.json") "";;
  checksums ← calculate_checksums (join apg_root "data");
  write_file (join apg_root "checksums.json") (json_dump E checksums).

(** Lines 146-148: the archive. *)
Definition pack (apg_root : location) (output_file : string) : M unit :=
  update_progress "Creating APG archive";;
  poll InPack;;
  match open_for_writing E output_file with
  | Some e => raise e
  | None =>
      d ← get_fs;
      match lookup_loc d apg_root with
      | Some n =>
          set_fs {| tmpdirs := tmpdirs d;
                    outfiles := <[output_file := tar_xz E (tar_add n "")]> (outfiles d) |}
      | None =>
          set_fs {| tmpdirs := tmpdirs d;
                    outfiles := <[output_file := tar_xz E []]> (outfiles d) |};;
          raise FileNotFoundError
      end
  end.

Definition create_apg (output_file : string) : M pyvalue :=
  apg_root ← restructure;
  write_records apg_root;;
  pack apg_root output_file;;
  mret PyNone.

Definition convert (input_file output_file : string) : M pyvalue :=
  print_banner;;
  try_finally
    (try_except
       (print (Line "Starting conversion process:");;
        validate_deb input_file;;
        extract_deb input_file;;
        create_apg output_file;;
        poll InReport;;
        size ← os_path_getsize output_file;
        log (MsgCreated output_file size) success;;
        mret PyNone)
       (fun e =>
          if is_Exception e then Some (log (MsgFailed e) error;; raise e) else None))
    cleanup.

End Program.

(** *** [main] *)

Record arguments : Type := Args {
  arg_input : option string;
  arg_output : option string;
  arg_verbose : bool;
  arg_version : bool
}.

(** Truth value of an optional string argument. *)
Definition given (a : option string) : bool :=
  match a with
  | Some s => negb (String.eqb s "")
  | None => false
  end.

(** A converter right after [__init__], on a given disk. *)
Definition started (verbose : bool) (d : disk) : state :=
  {| self := DebToApgConverter verbose; fs := d; tty := [] |}.

(** [main()]: the exit status and the state the process leaves. *)
Definition main (E : env) (args : arguments) (d : disk) : Z * state :=
  let st := started (arg_verbose args) d in
  if arg_version args then
    (0%Z, snd (print_version st))
  else if negb (given (arg_input args)) || negb (given (arg_output args)) then
    (1%Z, snd (print Usage st))
  else
    match convert E (default "" (arg_input args)) (default "" (arg_output args)) st with
    | (Ok _, st') => (0%Z, st')
    | (Raise KeyboardInterrupt, st') => (130%Z, snd ((print (Line "");; print Cancelled) st'))
    | (Raise e, st') => (1%Z, snd (print (ErrorLine e) st'))
    end.

(** ** Well-formed directory trees *)

(** A directory entry name is not empty and holds no slash; the names
    of one directory are pairwise distinct. *)
Definition slash_free (s : string) : bool :=
  forallb (fun c => negb (Ascii.eqb c "/"%char)) (list_ascii_of_string s).

Definition valid_name (s : string) : bool :=
  negb (String.eqb s "") && slash_free s.

Fixpoint well_formed (n : node) : bool :=
  match n with
  | File _ => true
  | Dir es =>
      bool_decide (NoDup (names es)) && forallb valid_name (names es)
      && forallb (fun kn => well_formed (snd kn)) es
  end.

(** The layout restructuring gives to an extracted tree [es]: the
    control directory stays where it is, everything else sits under
    [apg/data]. *)
Definition is_control (kn : string * node) : bool := String.eqb (fst kn) "DEBIAN".

Definition control_part (es : listing) : listing := List.filter is_control es.

Definition payload_part (es : listing) : listing :=
  List.filter (fun kn => negb (is_control kn)) es.

Definition restructured (es : listing) : node :=
  Dir (control_part es ++ [("apg", Dir [("data", Dir (payload_part es))])]).

(** What the archive stores for a node. *)
Definition body (n : node) : member_body :=
  match n with
  | File b => MFile b
  | Dir _ => MDir
  end.

(** ** Hoare triples over the monad *)

Definition hoare {A} (P : state -> Prop) (m : M A) (Q : result A -> state -> Prop) : Prop :=
  forall st, P st -> Q (fst (m st)) (snd (m st)).

(** The post-condition of a step that is followed by [k]: a normal
    result establishes [R], an exception already establishes [Q]. *)
Definition then_ {A B} (R : A -> state -> Prop) (Q : result B -> state -> Prop)
  : result A -> state -> Prop :=
  fun r st => match r with Ok a => R a st | Raise e => Q (Raise e) st end.

(** ** Footprints *)

(** A computation is [quiet] when it leaves [self.temp_dir] and the
    temporary directories alone, and [local] to [t] when the only
    temporary directory it may touch is [t]. *)
Definition quiet {A} (m : M A) : Prop :=
  forall st,
    temp_dir (self (snd (m st))) = temp_dir (self st)
    /\ tmpdirs (fs (snd (m st))) = tmpdirs (fs st).

Definition local {A} (t : string) (m : M A) : Prop :=
  forall st,
    temp_dir (self (snd (m st))) = temp_dir (self st)
    /\ forall k, k <> t -> tmpdirs (fs (snd (m st))) !! k = tmpdirs (fs st) !! k.

(** The states of a Job started on the temporary directories [d0]:
    no staging directory yet, or one that the converter remembers
    and that is the only difference with [d0]. *)
Definition no_temp (d0 : gmap string node) (st : state) : Prop :=
  temp_dir (self st) = None /\ tmpdirs (fs st) = d0.

Definition own_temp (d0 : gmap string node) (t : string) (st : state) : Prop :=
  t <> "" /\ d0 !! t = None /\ temp_dir (self st) = Some t
  /\ forall k, k <> t -> tmpdirs (fs st) !! k = d0 !! k.

Definition job_inv (d0 : gmap string node) (st : state) : Prop :=
  no_temp d0 st \/ exists t, own_temp d0 t st.

(** ** What the two records must say *)

(** [md] is the metadata record of a control directory [debian]
    ([None] when there is none), stamped by a converter of version [ver]. *)
Definition metadata_of (E : env) (ver : string) (debian : option node)
    (md : gmap string string) : Prop :=
  md !! "created" = Some (utcnow_isoformat E)
  /\ md !! "converter" = Some "debtoapg"
  /\ md !! "converter_version" = Some ver
  /\ md !! "author" = Some "AnmiTaliDev"
  /\ forall name, name ∈ control_files ->
       let source := match debian with Some d => get [name] d | None => None end in
       (is_Some (md !! name) <-> is_Some source)
       /\ (forall text, md !! name = Some text ->
             exists b, source = Some (File b) /\ read_text E b = Some text).

(** [sums] is the checksum map of the directory [data]. *)
Definition checksums_of (data : listing) (sums : gmap string string) : Prop :=
  forall k v,
    sums !! k = Some v <->
    exists p b, get p (Dir data) = Some (File b)
                /\ k = String.concat "/" p /\ v = Sha256.hexdigest b.

(** The archive root after packaging. *)
Definition apg_tree (E : env) (data : listing) (md sums : gmap string string) : node :=
  Dir [("data", Dir data);
       ("metadata.json", File (json_dump E md));
       ("checksums.json", File (json_dump E sums))].

(** ** A sample package and a sample environment *)

(** One control file and one payload file, [usr/bin/x]. *)
Definition sample_package : listing :=
  [("DEBIAN", Dir [("control", File "Package: x")]);
   ("usr", Dir [("bin", Dir [("x", File "abc")])])].

(** The same package with a payload entry called [apg]. *)
Definition package_with_apg : listing :=
  sample_package ++ [("apg", File "payload")].

(** Stand-ins for the encoders: one [key=value] line per field, and
    the member names separated by semicolons. *)
Definition lines_of (d : gmap string string) : string :=
  String.concat (String "010"%char "")
                (map (fun kv => fst kv ++ "=" ++ snd kv) (map_to_list d)).

Definition names_of (members : list member) : string :=
  String.concat ";" (map fst members).

(** An environment in which [x.deb] is a valid package holding
    [sample_package], [bad.deb] fails the information query,
    [truncated.deb] fails the contents query, and [broken.deb] fails to
    unpack. *)
Definition sample_env (signal : option point) : env :=
  {| path_exists := fun f =>
       String.eqb f "x.deb" || String.eqb f "bad.deb" || String.eqb f "truncated.deb"
       || String.eqb f "broken.deb" || String.eqb f "notes.txt";
     dpkg_deb_info := fun f =>
       if String.eqb f "bad.deb" then Completed 2 "dpkg-deb: error: not a Debian format archive"
       else Completed 0 "";
     dpkg_deb_contents := fun f =>
       if String.eqb f "truncated.deb" then Completed 2 "dpkg-deb: error: unexpected end of file"
       else Completed 0 "";
     dpkg_deb_R := fun f =>
       if String.eqb f "broken.deb"
       then ([("usr", Dir [])], Completed 2 "dpkg-deb: error: unexpected end of file")
       else (sample_package, Completed 0 "");
     tmp_names := ["a"; "b"];
     utcnow_isoformat := "2025-01-06T15:56:29";
     read_text := Some;
     json_dump := lines_of;
     open_for_writing := fun _ => None;
     tar_xz := names_of;
     interrupt := signal |}.

Definition empty_disk : disk := {| tmpdirs := ∅; outfiles := ∅ |}.

(** A converter that has extracted [es] into [/tmp/tmpa]. *)
Definition extracted (es : listing) : state :=
  {| self := {| verbose := false; temp_dir := Some "/tmp/tmpa"; version := "1.0.0";
                total_steps := 4; current_step := 1 |};
     fs := {| tmpdirs := {[ "/tmp/tmpa" := Dir es ]}; outfiles := ∅ |};
     tty := [] |}.

(** [sample_package] as the restructuring step leaves it. *)
Definition sample_restructured : listing :=
  control_part sample_package
  ++ [("apg", Dir [("data", Dir (payload_part sample_package))])].

(** ** Vocabulary of the checksum loops *)

(** A checksum map is [good] for a relation [Sound] and a set of keys
    [Covered] when all its bindings are sound and every covered key is
    bound. *)
Definition good (Sound : string -> string -> Prop) (Covered : string -> Prop)
    (m : gmap string string) : Prop :=
  (forall k v, m !! k = Some v -> Sound k v) /\ (forall k, Covered k -> is_Some (m !! k)).

(** The key under which the loop stores [file] of the directory [root]. *)
Definition key_of (directory : location) (root : path) (file : string) : string :=
  relpath (path_join root file) (snd directory).

(** [file] of [root] can be opened, and its digest is a sound binding. *)
Definition readable (directory : location) (Sound : string -> string -> Prop)
    (st : state) (root : path) (file : string) : Prop :=
  exists b, lookup_loc (fs st) (fst directory, path_join root file) = Some (File b)
            /\ Sound (key_of directory root file) (Sha256.hexdigest b).

(** Same invariant before, after, and on an exception. *)
Definition keeps {A} (I : state -> Prop) (m : M A) : Prop := hoare I m (fun _ => I).

(** ** What a run may change *)

(** The lines that are printed whether or not [-v] was given. *)
Definition loud (o : output) : bool :=
  match o with
  | Log info _ | Log process _ => false
  | _ => true
  end.

(** A progress line shows a step in [(lo, hi]] out of [total]. *)
Definition progress_within (lo hi total : nat) (o : output) : Prop :=
  match o with
  | Progress step total' _ => lo < step /\ step <= hi /\ total' = total
  | _ => True
  end.

(** [st'] is a state a run writing to [out] can reach from [st]: the
    fixed fields of the converter are the same, the progress counter
    has not gone back, no file at a caller-chosen path other than [out]
    has changed, and the terminal has only gained lines: all of them
    loud when the converter is not verbose, and the progress lines
    among them numbered between the old counter and the new one. *)
Definition evolves (out : string) (st st' : state) : Prop :=
  verbose (self st') = verbose (self st)
  /\ version (self st') = version (self st)
  /\ total_steps (self st') = total_steps (self st)
  /\ current_step (self st) <= current_step (self st')
  /\ (forall f, f <> out -> outfiles (fs st') !! f = outfiles (fs st) !! f)
  /\ exists l, tty st' = (tty st ++ l)%list
               /\ (verbose (self st) = false -> Forall (fun o => loud o = true) l)
               /\ Forall (progress_within (current_step (self st))
                            (current_step (self st')) (total_steps (self st))) l.

(** [m] evolves the state and advances the progress counter by at most
    [n], by exactly [n] when it returns. *)
Definition ticks {A} (out : string) (n : nat) (m : M A) : Prop :=
  forall st,
    evolves out st (snd (m st))
    /\ current_step (self (snd (m st))) <= current_step (self st) + n
    /\ (forall a, fst (m st) = Ok a ->
                  current_step (self (snd (m st))) = current_step (self st) + n).

(** [m] changes neither the converter, nor the terminal, nor the files
    at caller-chosen paths. *)
Definition silent {A} (m : M A) : Prop :=
  forall st,
    self (snd (m st)) = self st /\ tty (snd (m st)) = tty st
    /\ outfiles (fs (snd (m st))) = outfiles (fs st).

(** [m] never returns normally. *)
Definition raises {A} (m : M A) : Prop :=
  forall st, exists e, fst (m st) = Raise e.

(** ** Digests as text *)

(** The characters of a lowercase hexadecimal string. *)
Definition is_hex (c : ascii) : bool :=
  existsb (Ascii.eqb c) (list_ascii_of_string "0123456789abcdef").

(** * Proofs *)

Local Open Scope list_scope.

(** ** Directory entries *)

Lemma node_nested_ind (P : node -> Prop) :
  (forall b, P (File b)) ->
  (forall es, Forall (fun kn => P (snd kn)) es -> P (Dir es)) ->
  forall n, P n.
Proof.
  intros HF HD. fix IH 1. intros [b|es]; [apply HF|].
  apply HD. induction es as [|[k c] es IHes]; constructor; [apply IH | apply IHes].
Qed.

Lemma entry_elem_of name es n : entry name es = Some n -> (name, n) ∈ es.
Proof.
  induction es as [|[k c] es IH]; simpl; [done|].
  destruct (String.eqb_spec k name) as [->|Hne].
  - intros [= ->]. left.
  - intros H. right. auto.
Qed.

Lemma entry_None name es : entry name es = None <-> name ∉ names es.
Proof.
  induction es as [|[k c] es IH]; simpl.
  - split; [intros _; apply not_elem_of_nil | done].
  - destruct (String.eqb_spec k name) as [->|Hne].
    + split; [done|]. intros H. exfalso. apply H. left.
    + rewrite IH, not_elem_of_cons. split; [auto | intros [_ H]; exact H].
Qed.

Lemma entry_NoDup name es n :
  NoDup (names es) -> (name, n) ∈ es -> entry name es = Some n.
Proof.
  induction es as [|[k c] es IH]; simpl; intros Hnd Hin.
  - by apply elem_of_nil in Hin.
  - apply NoDup_cons in Hnd as [Hk Hnd].
    apply elem_of_cons in Hin as [[= <- <-]|Hin].
    + by rewrite String.eqb_refl.
    + destruct (String.eqb_spec k name) as [->|Hne]; [|by apply IH].
      exfalso. apply Hk. apply (list_elem_of_fmap_2 fst) in Hin. exact Hin.
Qed.

Lemma entry_is_Some name es : is_Some (entry name es) <-> name ∈ names es.
Proof.
  destruct (entry name es) eqn:H.
  - split; [intros _|eauto]. apply entry_elem_of in H.
    apply (list_elem_of_fmap_2 fst) in H. exact H.
  - apply entry_None in H. split; [by intros [? ?]|done].
Qed.

Lemma get_app (p q : path) n :
  get (p ++ q) n = match get p n with Some c => get q c | None => None end.
Proof.
  revert n. induction p as [|k p IH]; intros n; simpl; [done|].
  destruct n as [b|es]; [done|]. destruct (entry k es); [apply IH|done].
Qed.

Lemma get_File_inv p b n : get p (File b) = Some n -> p = [] /\ n = File b.
Proof. destruct p; simpl; [intros [= <-]; done | done]. Qed.

(** ** Well-formedness *)

Lemma well_formed_Dir es :
  well_formed (Dir es) = true <->
  NoDup (names es) /\ Forall (fun k => valid_name k = true) (names es)
  /\ Forall (fun kn => well_formed (snd kn) = true) es.
Proof.
  simpl. rewrite !andb_true_iff, bool_decide_eq_true, !forallb_forall.
  rewrite !Forall_forall. split.
  - intros [[Hn Hv] Hw]. repeat split; [done| |].
    + intros x Hx. apply Hv. by apply list_elem_of_In.
    + intros x Hx. apply Hw. by apply list_elem_of_In.
  - intros (Hn & Hv & Hw). repeat split; [done| |].
    + intros x Hx. apply Hv. by apply list_elem_of_In.
    + intros x Hx. apply Hw. by apply list_elem_of_In.
Qed.

Lemma well_formed_entry name es c :
  well_formed (Dir es) = true -> entry name es = Some c ->
  well_formed c = true /\ valid_name name = true.
Proof.
  intros (Hnd & Hv & Hw)%well_formed_Dir Hc. apply entry_elem_of in Hc.
  split.
  - rewrite Forall_forall in Hw. apply (Hw _ Hc).
  - rewrite Forall_forall in Hv. apply Hv.
    apply (list_elem_of_fmap_2 fst) in Hc. exact Hc.
Qed.

Lemma well_formed_get p : forall n c,
  well_formed n = true -> get p n = Some c ->
  well_formed c = true /\ Forall (fun k => valid_name k = true) p.
Proof.
  induction p as [|k p IH]; intros n c Hwf; simpl.
  - intros [= <-]. auto.
  - destruct n as [b|es]; [done|]. destruct (entry k es) as [x|] eqn:Hx; [|done].
    intros Hc. destruct (well_formed_entry _ _ _ Hwf Hx) as [Hwx Hk].
    destruct (IH _ _ Hwx Hc). auto.
Qed.

(** ** Joining components with a slash is injective on valid names *)

Lemma append_String c (s t : string) : (String c s ++ t)%string = String c (s ++ t)%string.
Proof. reflexivity. Qed.

Lemma slash_free_String c s :
  slash_free (String c s) = negb (Ascii.eqb c "/"%char) && slash_free s.
Proof. reflexivity. Qed.

Lemma slash_split (x y r r' : string) :
  slash_free x = true -> slash_free y = true ->
  (x ++ String "/"%char r)%string = (y ++ String "/"%char r')%string -> x = y /\ r = r'.
Proof.
  revert y. induction x as [|c x IH]; intros [|c' y] Hx Hy; cbn.
  - intros [= ->]. done.
  - rewrite append_String. intros [= <- _].
    rewrite slash_free_String in Hy. done.
  - rewrite append_String. intros [= -> _].
    rewrite slash_free_String in Hx. done.
  - rewrite !append_String. intros [= -> H].
    rewrite slash_free_String in Hx, Hy.
    apply andb_true_iff in Hx as [_ Hx]. apply andb_true_iff in Hy as [_ Hy].
    destruct (IH _ Hx Hy H) as [-> ->]. done.
Qed.

Lemma slash_free_no_slash (x y r : string) :
  slash_free x = true -> x = (y ++ String "/"%char r)%string -> False.
Proof.
  revert x. induction y as [|c y IH]; intros x Hx ->.
  - cbn in Hx. done.
  - rewrite append_String, slash_free_String in Hx.
    apply andb_true_iff in Hx as [_ Hx]. by eapply IH.
Qed.

Lemma concat_cons2 (x y : string) (l : list string) :
  String.concat "/" (x :: y :: l) = (x ++ String "/"%char (String.concat "/" (y :: l)))%string.
Proof. reflexivity. Qed.

Lemma valid_name_inv k : valid_name k = true -> k <> "" /\ slash_free k = true.
Proof.
  unfold valid_name. intros [H1 H2]%andb_true_iff. split; [|done].
  intros ->. done.
Qed.

Lemma concat_slash_nonempty k (p : path) :
  valid_name k = true -> String.concat "/" (k :: p) <> "".
Proof.
  intros [Hk _]%valid_name_inv. destruct p as [|y p].
  - done.
  - rewrite concat_cons2. destruct k; [done|]. rewrite append_String. done.
Qed.

Lemma concat_slash_inj (p q : path) :
  Forall (fun k => valid_name k = true) p ->
  Forall (fun k => valid_name k = true) q ->
  String.concat "/" p = String.concat "/" q -> p = q.
Proof.
  revert q. induction p as [|x p IH]; intros [|y q] Hp Hq Heq.
  - done.
  - symmetry in Heq. apply concat_slash_nonempty in Heq; [done|].
    by apply Forall_cons in Hq as [? _].
  - apply concat_slash_nonempty in Heq; [done|].
    by apply Forall_cons in Hp as [? _].
  - apply Forall_cons in Hp as [[_ Hx]%valid_name_inv Hp].
    apply Forall_cons in Hq as [[_ Hy]%valid_name_inv Hq].
    destruct p as [|x' p], q as [|y' q].
    + simpl in Heq. by subst.
    + rewrite concat_cons2 in Heq. change (String.concat "/" [x]) with x in Heq.
      exfalso. exact (slash_free_no_slash _ _ _ Hx Heq).
    + rewrite concat_cons2 in Heq. change (String.concat "/" [y]) with y in Heq.
      symmetry in Heq. exfalso. exact (slash_free_no_slash _ _ _ Hy Heq).
    + rewrite !concat_cons2 in Heq.
      destruct (slash_split _ _ _ _ Hx Hy Heq) as [-> Hr].
      f_equal. by apply IH.
Qed.

(** ** [relpath] below its own start *)

Lemma relpath_list_app (start q : path) : relpath_list (start ++ q) start = q.
Proof.
  induction start as [|a start IH]; simpl.
  - by destruct q.
  - by rewrite String.eqb_refl.
Qed.

Lemma relpath_below (start q : path) :
  q <> [] -> relpath (start ++ q) start = String.concat "/" q.
Proof.
  intros Hq. unfold relpath. rewrite relpath_list_app. by destruct q.
Qed.

(** ** [os.walk] reaches exactly the directories of the tree *)

Lemma elem_of_filenames f es :
  f ∈ filenames es <-> exists b, (f, File b) ∈ es.
Proof.
  unfold filenames, names. rewrite list_elem_of_fmap. split.
  - intros ([k n] & -> & Hin). apply list_elem_of_In, filter_In in Hin as [Hin Hd].
    destruct n as [b|]; [|done]. exists b. by apply list_elem_of_In.
  - intros [b Hin]. exists (f, File b). split; [done|].
    apply list_elem_of_In, filter_In. split; [by apply list_elem_of_In|done].
Qed.

Lemma os_walk_sound n : forall top root ds fs,
  well_formed n = true -> (root, ds, fs) ∈ os_walk n top ->
  exists r es, root = top ++ r /\ get r n = Some (Dir es)
               /\ ds = dirnames es /\ fs = filenames es.
Proof.
  induction n as [b|es IH] using node_nested_ind; intros top root ds fs Hwf; simpl.
  - intros H. by apply elem_of_nil in H.
  - intros [[= -> -> ->]|Hin]%elem_of_cons.
    + exists [], es. by rewrite app_nil_r.
    + apply list_elem_of_In, in_flat_map in Hin as ([k c] & Hkc & Hin).
      apply list_elem_of_In in Hkc. simpl in Hin.
      destruct (is_dir c) eqn:Hd; [|done]. apply list_elem_of_In in Hin.
      pose proof Hwf as (Hnd & _ & Hw)%well_formed_Dir.
      rewrite Forall_forall in IH, Hw.
      destruct (IH _ Hkc (path_join top k) root ds fs (Hw _ Hkc) Hin)
        as (r & es' & -> & Hget & -> & ->).
      exists (k :: r), es'. repeat split.
      * unfold path_join. by rewrite <- app_assoc.
      * simpl. by rewrite (entry_NoDup _ _ _ Hnd Hkc).
Qed.

Lemma os_walk_complete (r : path) : forall n (top : path) es,
  is_dir n = true -> get r n = Some (Dir es) ->
  (top ++ r, dirnames es, filenames es) ∈ os_walk n top.
Proof.
  induction r as [|k r IH]; intros n top es Hd; simpl.
  - intros [= ->]. simpl. rewrite app_nil_r. left.
  - destruct n as [b|es0]; [done|].
    destruct (entry k es0) as [c|] eqn:Hc; [|done]. intros Hget.
    assert (is_dir c = true) as Hdc.
    { destruct c as [b|]; [|done]. by apply get_File_inv in Hget as [_ ?]. }
    simpl. right. apply list_elem_of_In, in_flat_map. exists (k, c). split.
    + by apply list_elem_of_In, entry_elem_of.
    + simpl. rewrite Hdc. apply list_elem_of_In.
      replace (top ++ k :: r) with (path_join top k ++ r).
      * by apply IH.
      * unfold path_join. by rewrite <- app_assoc.
Qed.

(** ** Running monadic code *)

Lemma bind_eval {A B} (m : M A) (k : A -> M B) st :
  (m ≫= k) st =
  match m st with
  | (Ok a, st') => k a st'
  | (Raise e, st') => (Raise e, st')
  end.
Proof. reflexivity. Qed.

Lemma bind_Ok {A B} (m : M A) (k : A -> M B) st a st' :
  m st = (Ok a, st') -> (m ≫= k) st = k a st'.
Proof. intros H. rewrite bind_eval, H. reflexivity. Qed.

Lemma bind_Raise {A B} (m : M A) (k : A -> M B) st e st' :
  m st = (Raise e, st') -> (m ≫= k) st = (Raise e, st').
Proof. intros H. rewrite bind_eval, H. reflexivity. Qed.

Lemma update_progress_eval text st :
  update_progress text st =
  (Ok tt, {| self := {| verbose := verbose (self st); temp_dir := temp_dir (self st);
                        version := version (self st);
                        total_steps := total_steps (self st);
                        current_step := S (current_step (self st)) |};
             fs := fs st;
             tty := tty st ++ [Progress (S (current_step (self st))) (total_steps (self st)) text] |}).
Proof. reflexivity. Qed.

Lemma read_bytes_File l b st :
  lookup_loc (fs st) l = Some (File b) -> read_bytes l st = (Ok b, st).
Proof. intros H. unfold read_bytes. rewrite bind_eval. simpl. rewrite H. reflexivity. Qed.

(** ** The checksum loops *)

Section ChecksumLoops.

Variable directory : location.
Variable Sound : string -> string -> Prop.

Lemma good_insert Covered m k v :
  good Sound Covered m -> Sound k v -> good Sound (fun k' => Covered k' \/ k' = k) (<[k := v]> m).
Proof.
  intros [Hs Hc] Hkv. split.
  - intros k' v'. rewrite lookup_insert. case_decide; [intros [= <-]; by subst | apply Hs].
  - intros k' [H| ->].
    + rewrite lookup_insert. case_decide; [eauto | by apply Hc].
    + rewrite lookup_insert_eq. eauto.
Qed.

Lemma good_weaken (C C' : string -> Prop) m :
  good Sound C m -> (forall k, C' k -> C k) -> good Sound C' m.
Proof. intros [Hs Hc] H. split; [done|]. intros k Hk. apply Hc, H, Hk. Qed.

Lemma checksum_files_eval root files : forall st m Covered,
  (forall f, f ∈ files -> readable directory Sound st root f) ->
  good Sound Covered m ->
  exists m', foldM (checksum_file directory root) m files st = (Ok m', st)
    /\ good Sound (fun k => Covered k \/ exists f, f ∈ files /\ k = key_of directory root f) m'.
Proof.
  induction files as [|f files IH]; intros st m Covered Hr Hg.
  - exists m. split; [done|]. eapply good_weaken; [exact Hg|].
    intros k [H|(f & Hf & _)]; [done | by apply elem_of_nil in Hf].
  - destruct (Hr f) as (b & Hb & Hsound); [left|].
    pose proof (good_insert _ _ _ _ Hg Hsound) as Hg'.
    destruct (IH st _ _ (fun f' Hf' => Hr f' (list_elem_of_further _ _ _ Hf')) Hg')
      as (m' & Hm' & Hgm').
    exists m'. split.
    + simpl. erewrite bind_Ok; [exact Hm'|].
      unfold checksum_file. erewrite bind_Ok; [|by apply read_bytes_File]. reflexivity.
    + eapply good_weaken; [exact Hgm'|]. intros k [H|(f' & Hf' & ->)].
      * by left; left.
      * apply elem_of_cons in Hf' as [->|Hf']; [by left; right|]. right. eauto.
Qed.

Lemma checksum_dirs_eval triples : forall st m Covered,
  (forall root ds files f, (root, ds, files) ∈ triples -> f ∈ files -> readable directory Sound st root f) ->
  good Sound Covered m ->
  exists m', foldM (checksum_dir directory) m triples st = (Ok m', st)
    /\ good Sound (fun k => Covered k \/
                      exists root ds files f,
                        (root, ds, files) ∈ triples /\ f ∈ files /\ k = key_of directory root f) m'.
Proof.
  induction triples as [|[[root ds] files] triples IH]; intros st m Covered Hr Hg.
  - exists m. split; [done|]. eapply good_weaken; [exact Hg|].
    intros k [H|(? & ? & ? & ? & Hf & _)]; [done | by apply elem_of_nil in Hf].
  - destruct (checksum_files_eval root files st m Covered) as (m1 & Hm1 & Hg1); [|done|].
    { intros f Hf. eapply Hr; [left|done]. }
    destruct (IH st m1 _ (fun r d fl f H => Hr r d fl f (list_elem_of_further _ _ _ H)) Hg1)
      as (m' & Hm' & Hgm').
    exists m'. split.
    + simpl. erewrite bind_Ok; [exact Hm'|]. exact Hm1.
    + eapply good_weaken; [exact Hgm'|].
      intros k [H|(r & d & fl & f & Hin & Hf & ->)].
      * by left; left.
      * apply elem_of_cons in Hin as [[= -> -> ->]|Hin].
        -- left; right. eauto.
        -- right. exists r, d, fl, f. done.
Qed.

End ChecksumLoops.

(** ** Regular files of a directory tree *)

Lemma get_snoc (r : path) f n x :
  get (r ++ [f]) n = Some x <->
  exists es, get r n = Some (Dir es) /\ entry f es = Some x.
Proof.
  rewrite get_app. destruct (get r n) as [[b|es]|]; simpl.
  - split; [done | by intros (? & [=] & _)].
  - destruct (entry f es) as [c|] eqn:Hc.
    + split; [intros [= <-]; eauto | by intros (? & [= <-] & [= <-]%(eq_trans (eq_sym Hc)))].
    + split; [done | intros (? & [= <-] & H); congruence].
  - split; [done | by intros (? & [=] & _)].
Qed.

Lemma file_paths_inj data (p q : path) b b' :
  well_formed (Dir data) = true ->
  get p (Dir data) = Some (File b) -> get q (Dir data) = Some (File b') ->
  String.concat "/" p = String.concat "/" q -> p = q.
Proof.
  intros Hwf Hp Hq. apply concat_slash_inj.
  - by destruct (well_formed_get _ _ _ Hwf Hp).
  - by destruct (well_formed_get _ _ _ Hwf Hq).
Qed.

Lemma walk_eval l n st :
  lookup_loc (fs st) l = Some n -> walk l st = (Ok (os_walk n (snd l)), st).
Proof. intros H. unfold walk. rewrite bind_eval. simpl. by rewrite H. Qed.

(** ** The checksum map *)

Lemma calculate_checksums_spec (t : string) (dir : path) root data st :
  tmpdirs (fs st) !! t = Some root ->
  get dir root = Some (Dir data) ->
  well_formed (Dir data) = true ->
  exists m st',
    calculate_checksums (t, dir) st = (Ok m, st') /\ fs st' = fs st
    /\ temp_dir (self st') = temp_dir (self st) /\ checksums_of data m.
Proof.
  intros Ht Hdir Hwf.
  set (Sound := fun k v => exists p b, get p (Dir data) = Some (File b)
                    /\ k = String.concat "/" p /\ v = Sha256.hexdigest b).
  set (st1 := snd (update_progress "Calculating checksums" st)).
  assert (lookup_loc (fs st1) (t, dir) = Some (Dir data)) as Hl.
  { unfold lookup_loc. simpl. by rewrite Ht. }
  destruct (checksum_dirs_eval (t, dir) Sound (os_walk (Dir data) dir) st1 ∅ (fun _ => False))
    as (m & Hm & Hsound & Hcov).
  { intros r ds files f Hin Hf.
    destruct (os_walk_sound _ _ _ _ _ Hwf Hin) as (r' & es & -> & Hr' & -> & ->).
    apply elem_of_filenames in Hf as [b Hb].
    destruct (well_formed_get _ _ _ Hwf Hr') as [Hwes _].
    apply well_formed_Dir in Hwes as (Hnd & _ & _).
    pose proof (entry_NoDup _ _ _ Hnd Hb) as He.
    assert (get (r' ++ [f]) (Dir data) = Some (File b)) as Hg.
    { apply get_snoc. eauto. }
    exists b. split.
    - unfold lookup_loc, path_join. simpl. rewrite Ht, <- app_assoc, get_app, Hdir. exact Hg.
    - exists (r' ++ [f]), b. split; [done|]. split; [|done].
      unfold key_of, path_join. simpl. rewrite <- app_assoc. apply relpath_below.
      by destruct r'. }
  { split; [intros k v; by rewrite lookup_empty | done]. }
  exists m, st1. split; [|split; [done|split; [done|]]]. 2: unfold checksums_of.
  { unfold calculate_checksums. erewrite bind_Ok; [|apply update_progress_eval].
    erewrite bind_Ok; [|by apply walk_eval]. exact Hm. }
  intros k v. split; [apply Hsound|].
    intros (p & b & Hp & -> & ->).
    induction p as [|f r _] using rev_ind; [done|].
    apply get_snoc in Hp as (es & Hr & Hf).
    destruct (Hcov (String.concat "/" (r ++ [f]))) as [v' Hv'].
    { right. exists (dir ++ r), (dirnames es), (filenames es), f. split; [|split].
      - by apply os_walk_complete.
      - apply elem_of_filenames. exists b. by apply entry_elem_of.
      - unfold key_of, path_join. simpl. rewrite <- app_assoc. symmetry.
        apply relpath_below. by destruct r. }
    rewrite Hv'. f_equal.
    destruct (Hsound _ _ Hv') as (p' & b' & Hp' & Hk & ->).
    assert (get (r ++ [f]) (Dir data) = Some (File b)) as Hp by (apply get_snoc; eauto).
    pose proof (file_paths_inj _ _ _ _ _ Hwf Hp Hp' Hk) as <-.
    congruence.
Qed.


(** ** Hoare rules *)

Lemma hoare_conseq {A} (P P' : state -> Prop) (m : M A) (Q Q' : result A -> state -> Prop) :
  hoare P' m Q' -> (forall st, P st -> P' st) -> (forall r st, Q' r st -> Q r st) ->
  hoare P m Q.
Proof. intros H HP HQ st Hst. apply HQ, H, HP, Hst. Qed.

Lemma hoare_ret {A} (P : state -> Prop) (a : A) (Q : result A -> state -> Prop) :
  (forall st, P st -> Q (Ok a) st) -> hoare P (mret a) Q.
Proof. intros H st Hst. apply H, Hst. Qed.

Lemma hoare_bind {A B} (P : state -> Prop) (m : M A) (k : A -> M B)
    (R : A -> state -> Prop) (Q : result B -> state -> Prop) :
  hoare P m (then_ R Q) -> (forall a, hoare (R a) (k a) Q) -> hoare P (m ≫= k) Q.
Proof.
  intros Hm Hk st Hst. specialize (Hm st Hst). rewrite bind_eval.
  destruct (m st) as [[a|e] st']; simpl in *; [by apply Hk | done].
Qed.

Lemma hoare_exists {A X} (P : X -> state -> Prop) (m : M A) Q :
  (forall x, hoare (P x) m Q) -> hoare (fun st => exists x, P x st) m Q.
Proof. intros H st [x Hx]. by eapply H. Qed.

Lemma hoare_try_except {A} (P : state -> Prop) (body : M A) handler
    (H : exn -> state -> Prop) (Q : result A -> state -> Prop) :
  hoare P body (fun r st => match r with
                            | Ok a => Q (Ok a) st
                            | Raise e => match handler e with
                                         | Some _ => H e st
                                         | None => Q (Raise e) st
                                         end
                            end) ->
  (forall e h, handler e = Some h -> hoare (H e) h Q) ->
  hoare P (try_except body handler) Q.
Proof.
  intros Hb Hh st Hst. specialize (Hb st Hst). unfold try_except.
  destruct (body st) as [[a|e] st']; simpl in *; [done|].
  destruct (handler e) as [h|] eqn:He; [by eapply Hh | done].
Qed.

Lemma hoare_try_finally {A B} (P : state -> Prop) (body : M A) (final : M B)
    (R : result A -> state -> Prop) (Q : result A -> state -> Prop) :
  hoare P body R ->
  (forall r, hoare (R r) final (fun rf st => match rf with
                                             | Ok _ => Q r st
                                             | Raise e => Q (Raise e) st
                                             end)) ->
  hoare P (try_finally body final) Q.
Proof.
  intros Hb Hf st Hst. specialize (Hb st Hst). unfold try_finally.
  destruct (body st) as [r st']. specialize (Hf r st' Hb). simpl in *.
  destruct (final st') as [[b|e] st'']; exact Hf.
Qed.

Lemma keeps_bind {A B} I (m : M A) (k : A -> M B) :
  keeps I m -> (forall a, keeps I (k a)) -> keeps I (m ≫= k).
Proof.
  intros Hm Hk. apply hoare_bind with (R := fun _ => I); [|exact Hk].
  intros st Hst. specialize (Hm st Hst). unfold then_. by destruct (fst (m st)).
Qed.

(** ** Footprint rules *)

Lemma quiet_local {A} t (m : M A) : quiet m -> local t m.
Proof. intros H st. destruct (H st) as [H1 H2]. split; [done|]. intros k _. by rewrite H2. Qed.

Lemma quiet_ret {A} (a : A) : quiet (mret a).
Proof. by intros st. Qed.

Lemma quiet_raise {A} e : quiet (@raise A e).
Proof. by intros st. Qed.

Lemma quiet_bind {A B} (m : M A) (k : A -> M B) :
  quiet m -> (forall a, quiet (k a)) -> quiet (m ≫= k).
Proof.
  intros Hm Hk st. rewrite bind_eval. specialize (Hm st).
  destruct (m st) as [[a|e] st']; simpl in *; [|done].
  destruct (Hk a st') as [H1 H2]. destruct Hm as [H3 H4]. split; congruence.
Qed.

Lemma local_bind {A B} t (m : M A) (k : A -> M B) :
  local t m -> (forall a, local t (k a)) -> local t (m ≫= k).
Proof.
  intros Hm Hk st. rewrite bind_eval. specialize (Hm st).
  destruct (m st) as [[a|e] st']; simpl in *; [|done].
  destruct (Hk a st') as [H1 H2]. destruct Hm as [H3 H4]. split; [congruence|].
  intros k' Hk'. rewrite H2, H4; done.
Qed.

Lemma quiet_try_except {A} (body : M A) handler :
  quiet body -> (forall e h, handler e = Some h -> quiet h) ->
  quiet (try_except body handler).
Proof.
  intros Hb Hh st. unfold try_except. specialize (Hb st).
  destruct (body st) as [[a|e] st']; simpl in *; [done|].
  destruct (handler e) as [h|] eqn:He; [|done].
  destruct (Hh e h He st') as [H1 H2]. destruct Hb as [H3 H4]. split; congruence.
Qed.

Lemma quiet_foldM {A B} (body : B -> A -> M B) xs : forall acc,
  (forall acc x, quiet (body acc x)) -> quiet (foldM body acc xs).
Proof.
  induction xs as [|x xs IH]; intros acc H; simpl.
  - apply quiet_ret.
  - apply quiet_bind; [apply H | intros a; by apply IH].
Qed.

Lemma local_foldM {A B} t (body : B -> A -> M B) xs : forall acc,
  (forall acc x, local t (body acc x)) -> local t (foldM body acc xs).
Proof.
  induction xs as [|x xs IH]; intros acc H; simpl.
  - apply quiet_local, quiet_ret.
  - apply local_bind; [apply H | intros a; by apply IH].
Qed.

Lemma quiet_print o : quiet (print o).
Proof. by intros st. Qed.

Lemma quiet_get_self : quiet get_self.
Proof. by intros st. Qed.

Lemma quiet_get_fs : quiet get_fs.
Proof. by intros st. Qed.

Lemma quiet_poll E p : quiet (poll E p).
Proof. unfold poll. case_decide; [apply quiet_raise | apply quiet_ret]. Qed.

Lemma quiet_log m lv : quiet (log m lv).
Proof.
  unfold log. apply quiet_bind; [apply quiet_get_self|]. intros c.
  destruct (verbose c || shown lv); [apply quiet_print | apply quiet_ret].
Qed.

Lemma quiet_update_progress text : quiet (update_progress text).
Proof. by intros st. Qed.

Lemma quiet_print_banner : quiet print_banner.
Proof. by intros st. Qed.

Lemma quiet_subprocess_run cp : quiet (subprocess_run cp).
Proof. unfold subprocess_run. destruct (_ =? _)%Z; [apply quiet_ret | apply quiet_raise]. Qed.

Lemma quiet_os_path_exists l : quiet (os_path_exists l).
Proof. by intros st. Qed.

Lemma quiet_read_bytes l : quiet (read_bytes l).
Proof.
  unfold read_bytes. apply quiet_bind; [apply quiet_get_fs|]. intros d.
  destruct (lookup_loc d l) as [[?|?]|]; first [apply quiet_ret | apply quiet_raise].
Qed.

Lemma quiet_read_file_text E l : quiet (read_file_text E l).
Proof.
  unfold read_file_text. apply quiet_bind; [apply quiet_read_bytes|]. intros b.
  destruct (read_text E b); [apply quiet_ret | apply quiet_raise].
Qed.

Lemma quiet_walk l : quiet (walk l).
Proof. by intros st. Qed.

Lemma quiet_os_listdir l : quiet (os_listdir l).
Proof.
  unfold os_listdir. apply quiet_bind; [apply quiet_get_fs|]. intros d.
  destruct (lookup_loc d l) as [[?|?]|]; first [apply quiet_ret | apply quiet_raise].
Qed.

Lemma quiet_os_path_getsize f : quiet (os_path_getsize f).
Proof.
  unfold os_path_getsize. apply quiet_bind; [apply quiet_get_fs|]. intros d.
  destruct (outfiles d !! f); [apply quiet_ret | apply quiet_raise].
Qed.

Lemma quiet_temp_dir_join name : quiet (temp_dir_join name).
Proof.
  unfold temp_dir_join. apply quiet_bind; [apply quiet_get_self|]. intros c.
  destruct (temp_dir c); [apply quiet_ret | apply quiet_raise].
Qed.

Lemma quiet_validate_deb E f : quiet (validate_deb E f).
Proof.
  unfold validate_deb.
  destruct (negb (path_exists E f)); [apply quiet_raise|].
  destruct (negb (endswith f ".deb")); [apply quiet_raise|].
  apply quiet_try_except.
  - apply quiet_bind; [apply quiet_poll|]. intros _.
    apply quiet_bind; [apply quiet_subprocess_run|]. intros _.
    apply quiet_bind; [apply quiet_subprocess_run|]. intros _.
    apply quiet_bind; [apply quiet_log|]. intros _. apply quiet_ret.
  - intros [] h [= <-]. apply quiet_raise.
Qed.

Lemma quiet_generate_metadata E : quiet (generate_metadata E).
Proof.
  unfold generate_metadata.
  apply quiet_bind; [apply quiet_update_progress|]. intros _.
  apply quiet_bind; [apply quiet_temp_dir_join|]. intros l.
  apply quiet_bind; [apply quiet_get_self|]. intros c.
  apply quiet_foldM. intros acc x. unfold read_control.
  apply quiet_bind; [apply quiet_os_path_exists|]. intros [|]; [|apply quiet_ret].
  apply quiet_bind; [apply quiet_read_file_text|]. intros ?. apply quiet_ret.
Qed.

Lemma quiet_calculate_checksums l : quiet (calculate_checksums l).
Proof.
  unfold calculate_checksums.
  apply quiet_bind; [apply quiet_update_progress|]. intros _.
  apply quiet_bind; [apply quiet_walk|]. intros triples.
  apply quiet_foldM. intros acc x. unfold checksum_dir.
  apply quiet_foldM. intros acc' f. unfold checksum_file.
  apply quiet_bind; [apply quiet_read_bytes|]. intros ?. apply quiet_ret.
Qed.

Lemma quiet_pack E l out : quiet (pack E l out).
Proof.
  intros st. unfold pack. rewrite bind_eval, update_progress_eval, bind_eval.
  unfold poll. case_decide; [done|]. simpl.
  destruct (open_for_writing E out); [done|]. rewrite bind_eval. simpl.
  destruct (lookup_loc _ l); done.
Qed.

Lemma local_update_tree t f : local t (update_tree t f).
Proof.
  intros st. unfold update_tree. rewrite bind_eval. simpl.
  destruct (tmpdirs (fs st) !! t) as [root|]; [|done].
  destruct (f root) as [root'|e]; [|done]. simpl. split; [done|].
  intros k Hk. by rewrite lookup_insert_ne.
Qed.

Lemma local_os_makedirs l : local (fst l) (os_makedirs l).
Proof.
  intros st. unfold os_makedirs. rewrite bind_eval. simpl.
  destruct (tmpdirs (fs st) !! fst l) as [root|] eqn:Hr.
  - apply local_update_tree.
  - simpl. split; [done|]. intros k Hk. by rewrite lookup_insert_ne.
Qed.

Lemma local_shutil_move src dst : local (fst src) (shutil_move src dst).
Proof. apply local_update_tree. Qed.

Lemma local_write_file l bytes : local (fst l) (write_file l bytes).
Proof. apply local_update_tree. Qed.

(** ** The staging directory through the pipeline *)

Lemma keeps_no_temp {A} d0 (m : M A) : quiet m -> keeps (no_temp d0) m.
Proof.
  intros Hq st [H1 H2]. destruct (Hq st) as [H3 H4]. split; congruence.
Qed.

Lemma keeps_own_temp {A} d0 t (m : M A) : local t m -> keeps (own_temp d0 t) m.
Proof.
  intros Hl st (H1 & H2 & H3 & H4). destruct (Hl st) as [H5 H6].
  repeat split; [done|done|congruence|]. intros k Hk. by rewrite H6, H4.
Qed.

Lemma keeps_job_inv {A} d0 (m : M A) : quiet m -> keeps (job_inv d0) m.
Proof.
  intros Hq st [H|[t H]].
  - left. by apply (keeps_no_temp d0 m Hq).
  - right. exists t. by apply (keeps_own_temp d0 t m (quiet_local t m Hq)).
Qed.

Lemma cleanup_own_temp d0 t : keeps (own_temp d0 t) cleanup.
Proof.
  intros st (H1 & H2 & H3 & H4). unfold cleanup. rewrite bind_eval. simpl. rewrite H3.
  destruct (String.eqb_spec t ""); [done|]. simpl.
  rewrite bind_eval. simpl. unfold lookup_loc. simpl.
  destruct (tmpdirs (fs st) !! t) as [root|] eqn:Hr; simpl.
  - rewrite bind_eval. unfold shutil_rmtree. rewrite bind_eval. simpl. rewrite Hr. simpl.
    repeat split; [done..|]. intros k Hk. simpl. rewrite lookup_delete_ne; auto.
  - done.
Qed.

Lemma cleanup_job_inv d0 :
  hoare (job_inv d0) cleanup
    (fun r st => r = Ok PyNone /\ tmpdirs (fs st) = d0
                 /\ forall t, temp_dir (self st) = Some t -> tmpdirs (fs st) !! t = None).
Proof.
  intros st [[H1 H2]|(t & H1 & H2 & H3 & H4)]; unfold cleanup; rewrite bind_eval; simpl.
  - rewrite H1. simpl. repeat split; [done|]. intros t. by rewrite H1.
  - rewrite H3. destruct (String.eqb_spec t ""); [done|]. simpl.
    rewrite bind_eval. simpl. unfold lookup_loc. simpl.
    destruct (tmpdirs (fs st) !! t) as [root|] eqn:Hr; simpl.
    + rewrite bind_eval. unfold shutil_rmtree. rewrite bind_eval. simpl. rewrite Hr. simpl.
      repeat split.
      * apply map_eq. intros k. destruct (decide (k = t)) as [->|Hk].
        -- by rewrite lookup_delete_eq.
        -- rewrite lookup_delete_ne; auto.
      * intros t'. rewrite H3. intros [= <-]. by rewrite lookup_delete_eq.
    + repeat split.
      * apply map_eq. intros k. destruct (decide (k = t)) as [->|Hk]; [congruence|auto].
      * intros t'. rewrite H3. by intros [= <-].
Qed.

Lemma keeps_try_except {A} I (body : M A) handler :
  keeps I body -> (forall e h, handler e = Some h -> keeps I h) ->
  keeps I (try_except body handler).
Proof.
  intros Hb Hh. apply hoare_try_except with (H := fun _ => I); [|exact Hh].
  intros st Hst. specialize (Hb st Hst). simpl in Hb.
  destruct (fst (body st)) as [a|e]; [done|]. by destruct (handler e).
Qed.

Lemma hoare_keeps_then {A B} I (m : M A) (Q : result B -> state -> Prop) :
  keeps I m -> (forall e st, I st -> Q (Raise e) st) ->
  hoare I m (then_ (fun _ => I) Q).
Proof.
  intros Hm HQ st Hst. specialize (Hm st Hst). unfold then_.
  destruct (fst (m st)); [done | by apply HQ].
Qed.

Lemma hoare_get_self {B} P (k : converter -> M B) Q :
  (forall c, hoare (fun st => P st /\ self st = c) (k c) Q) ->
  hoare P (get_self ≫= k) Q.
Proof. intros H st Hst. rewrite bind_eval. simpl. by apply (H (self st)). Qed.

Lemma hoare_set_self {B} P c (k : unit -> M B) Q :
  hoare (fun st => exists st0, P st0 /\ st = {| self := c; fs := fs st0; tty := tty st0 |})
        (k tt) Q ->
  hoare P (set_self c ≫= k) Q.
Proof. intros H st Hst. rewrite bind_eval. simpl. apply H. eauto. Qed.

Lemma mkdtemp_staging E d0 :
  hoare (no_temp d0) (mkdtemp E)
        (then_ (B := pyvalue)
               (fun t st => t <> "" /\ d0 !! t = None /\ temp_dir (self st) = None
                            /\ tmpdirs (fs st) = <[t := Dir []]> d0)
               (fun _ => job_inv d0)).
Proof.
  intros st [Hn Hd]. unfold mkdtemp. rewrite bind_eval. simpl.
  destruct (find _ (tmp_names E)) as [name|] eqn:Hfind; simpl.
  - apply find_some in Hfind as [_ Hfree]. apply bool_decide_eq_true in Hfree.
    rewrite Hd in Hfree. rewrite Hd. done.
  - by left.
Qed.

Lemma keeps_extract_attempt E input d0 t :
  keeps (own_temp d0 t)
    (try_except
       (poll E InUnpack;; dpkg_deb_extract E input t;; mret PyNone)
       (fun e =>
          match e with
          | CalledProcessError err =>
              Some (cleanup;; raise (RuntimeError ("Failed to extract .deb: " ++ err)))
          | _ => None
          end)).
Proof.
  apply keeps_try_except.
  - apply keeps_bind; [apply keeps_own_temp, quiet_local, quiet_poll|]. intros _.
    apply keeps_bind; [|intros _; apply keeps_own_temp, quiet_local, quiet_ret].
    apply keeps_own_temp. unfold dpkg_deb_extract.
    apply local_bind; [apply local_update_tree|]. intros _.
    apply quiet_local, quiet_subprocess_run.
  - intros [] h [= <-]. apply keeps_bind; [apply cleanup_own_temp|].
    intros _. apply keeps_own_temp, quiet_local, quiet_raise.
Qed.

Lemma extract_deb_staging E input d0 :
  hoare (no_temp d0) (extract_deb E input)
        (then_ (B := pyvalue) (fun _ st => exists t, own_temp d0 t st) (fun _ => job_inv d0)).
Proof.
  unfold extract_deb.
  apply hoare_bind with (R := fun _ => no_temp d0).
  { apply hoare_keeps_then; [apply keeps_no_temp, quiet_log | intros; by left]. }
  intros _. apply hoare_bind with (R := fun _ => no_temp d0).
  { apply hoare_keeps_then; [apply keeps_no_temp, quiet_update_progress | intros; by left]. }
  intros _. apply hoare_bind with (R := fun _ => no_temp d0).
  { apply hoare_keeps_then; [apply keeps_no_temp, quiet_poll | intros; by left]. }
  intros _. eapply hoare_bind; [apply mkdtemp_staging|]. intros t.
  apply hoare_get_self. intros c. apply hoare_set_self.
  eapply hoare_conseq; [apply (keeps_extract_attempt E input d0 t)| |].
  - intros st (st0 & [(H1 & H2 & H3 & H4) Hc] & ->). repeat split; [done..|].
    intros k Hk. simpl. rewrite H4. by rewrite lookup_insert_ne.
  - intros r st H. unfold then_. destruct r; [eauto | right; eauto].
Qed.

Lemma hoare_pure {A} (P : state -> Prop) (phi : Prop) (m : M A) Q :
  (phi -> hoare P m Q) -> hoare (fun st => P st /\ phi) m Q.
Proof. intros H st [Hst Hphi]. by apply H. Qed.

Lemma temp_dir_join_staging d0 t name :
  hoare (own_temp d0 t) (temp_dir_join name)
        (then_ (B := pyvalue) (fun l st => own_temp d0 t st /\ l = (t, [name]))
               (fun _ => own_temp d0 t)).
Proof.
  intros st Hown. pose proof Hown as (_ & _ & Ht & _).
  unfold temp_dir_join. rewrite bind_eval. simpl. rewrite Ht. done.
Qed.

Lemma local_move_item src dst item : local (fst src) (move_item src dst item).
Proof.
  unfold move_item. destruct (_ && _).
  - apply (local_shutil_move (join src item)).
  - apply quiet_local, quiet_ret.
Qed.

Lemma local_write_records E l : local (fst l) (write_records E l).
Proof.
  unfold write_records.
  apply local_bind; [apply quiet_local, quiet_poll|]. intros _.
  apply local_bind; [apply (local_write_file (join l _))|]. intros _.
  apply local_bind; [apply quiet_local, quiet_generate_metadata|]. intros md.
  apply local_bind; [apply (local_write_file (join l _))|]. intros _.
  apply local_bind; [apply (local_write_file (join l _))|]. intros _.
  apply local_bind; [apply quiet_local, quiet_calculate_checksums|]. intros sums.
  apply (local_write_file (join l _)).
Qed.

Lemma restructure_staging E d0 t :
  hoare (own_temp d0 t) (restructure E)
        (then_ (B := pyvalue) (fun a st => own_temp d0 t st /\ a = (t, ["apg"]))
               (fun _ => own_temp d0 t)).
Proof.
  unfold restructure.
  apply hoare_bind with (R := fun _ => own_temp d0 t).
  { apply hoare_keeps_then; [apply keeps_own_temp, quiet_local, quiet_log | done]. }
  intros _. apply hoare_bind with (R := fun _ => own_temp d0 t).
  { apply hoare_keeps_then; [apply keeps_own_temp, quiet_local, quiet_poll | done]. }
  intros _. eapply hoare_bind; [apply temp_dir_join_staging|]. intros l.
  apply hoare_pure. intros ->. simpl.
  apply hoare_bind with (R := fun _ => own_temp d0 t).
  { apply hoare_keeps_then; [apply keeps_own_temp, (local_os_makedirs (t, _)) | done]. }
  intros _. apply hoare_bind with (R := fun _ => own_temp d0 t).
  { apply hoare_keeps_then; [apply keeps_own_temp, (local_os_makedirs (t, _)) | done]. }
  intros _. apply hoare_bind with (R := fun _ => own_temp d0 t).
  { apply hoare_keeps_then; [apply keeps_own_temp, quiet_local, quiet_os_listdir | done]. }
  intros items. apply hoare_bind with (R := fun _ => own_temp d0 t).
  { apply hoare_keeps_then; [|done]. apply keeps_own_temp. unfold for_each.
    apply local_foldM. intros _ item. apply (local_move_item (t, [])). }
  intros _. by apply hoare_ret.
Qed.

Lemma create_apg_staging E output d0 t : keeps (own_temp d0 t) (create_apg E output).
Proof.
  unfold create_apg, keeps.
  eapply hoare_bind; [apply restructure_staging|]. intros l.
  apply hoare_pure. intros ->.
  apply keeps_bind; [apply keeps_own_temp, (local_write_records E (t, _))|]. intros _.
  apply keeps_bind; [apply keeps_own_temp, quiet_local, quiet_pack|]. intros _.
  apply keeps_own_temp, quiet_local, quiet_ret.
Qed.

(** The pipeline proper, between [try:] and [except]. *)
Lemma pipeline_staging E input output d0 :
  hoare (no_temp d0)
    (print (Line "Starting conversion process:");;
     validate_deb E input;;
     extract_deb E input;;
     create_apg E output;;
     poll E InReport;;
     size ← os_path_getsize output;
     log (MsgCreated output size) success;;
     mret PyNone)
    (fun _ => job_inv d0).
Proof.
  apply hoare_bind with (R := fun _ => no_temp d0).
  { apply hoare_keeps_then; [apply keeps_no_temp, quiet_print | intros e st0 Hst; left; exact Hst]. }
  intros _. apply hoare_bind with (R := fun _ => no_temp d0).
  { apply hoare_keeps_then; [apply keeps_no_temp, quiet_validate_deb | intros e st0 Hst; left; exact Hst]. }
  intros _. eapply hoare_bind; [apply extract_deb_staging|]. intros r0. cbv beta.
  apply hoare_exists. intros t.
  eapply hoare_conseq with (Q' := fun _ => own_temp d0 t);
    [|done|intros r st H; right; eauto].
  apply keeps_bind; [apply create_apg_staging|]. intros _.
  apply keeps_bind; [apply keeps_own_temp, quiet_local, quiet_poll|]. intros _.
  apply keeps_bind; [apply keeps_own_temp, quiet_local, quiet_os_path_getsize|]. intros size.
  apply keeps_bind; [apply keeps_own_temp, quiet_local, quiet_log|]. intros _.
  apply keeps_own_temp, quiet_local, quiet_ret.
Qed.


(** ** Validation and extraction *)

Lemma poll_eval E p st : interrupt E <> Some p -> poll E p st = (Ok tt, st).
Proof. intros H. unfold poll. by case_decide. Qed.

Lemma poll_interrupted E p st : interrupt E = Some p -> poll E p st = (Raise KeyboardInterrupt, st).
Proof. intros H. unfold poll. by case_decide. Qed.

Lemma log_eval m lv st :
  log m lv st =
  (Ok tt, {| self := self st; fs := fs st;
             tty := tty st ++ (if verbose (self st) || shown lv then [Log lv m] else []) |}).
Proof.
  unfold log. rewrite bind_eval. simpl. destruct st as [c d o]. simpl.
  destruct (verbose c || shown lv); simpl; [done|]. by rewrite app_nil_r.
Qed.

Lemma subprocess_run_ok cp st : returncode cp = 0%Z -> subprocess_run cp st = (Ok tt, st).
Proof. intros H. unfold subprocess_run. by rewrite H. Qed.

Lemma subprocess_run_failed cp st :
  returncode cp <> 0%Z -> subprocess_run cp st = (Raise (CalledProcessError (stderr cp)), st).
Proof.
  intros H. unfold subprocess_run. by destruct (Z.eqb_spec (returncode cp) 0).
Qed.


Lemma mkdtemp_eval E st name :
  find (fun name => bool_decide (tmpdirs (fs st) !! tmp_path name = None)) (tmp_names E)
    = Some name ->
  mkdtemp E st =
  (Ok (tmp_path name),
   {| self := self st;
      fs := {| tmpdirs := <[tmp_path name := Dir []]> (tmpdirs (fs st));
               outfiles := outfiles (fs st) |};
      tty := tty st |}).
Proof. intros H. unfold mkdtemp. rewrite bind_eval. simpl. by rewrite H. Qed.

Lemma cleanup_eval_existing st t root :
  temp_dir (self st) = Some t -> t <> "" -> tmpdirs (fs st) !! t = Some root ->
  cleanup st =
  (Ok PyNone,
   {| self := self st;
      fs := {| tmpdirs := delete t (tmpdirs (fs st)); outfiles := outfiles (fs st) |};
      tty := tty st |}).
Proof.
  intros Ht Hne Hroot. unfold cleanup. rewrite bind_eval. simpl. rewrite Ht.
  destruct (String.eqb_spec t ""); [done|]. simpl.
  rewrite bind_eval. unfold os_path_exists. rewrite bind_eval. simpl.
  unfold lookup_loc. simpl. rewrite Hroot. simpl.
  rewrite bind_eval. unfold shutil_rmtree. rewrite bind_eval. simpl. by rewrite Hroot.
Qed.


(** ** The metadata record *)

Lemma read_control_eval E l (m : gmap string string) name st :
  read_control E l m name st =
  match lookup_loc (fs st) (join l name) with
  | None => (Ok m, st)
  | Some (File b) =>
      match read_text E b with
      | Some text => (Ok (<[name := text]> m), st)
      | None => (Raise UnicodeDecodeError, st)
      end
  | Some (Dir _) => (Raise IsADirectoryError, st)
  end.
Proof.
  unfold read_control. rewrite bind_eval. unfold os_path_exists. rewrite bind_eval. simpl.
  destruct (lookup_loc (fs st) (join l name)) as [[b|es]|] eqn:Hl; simpl; [| |done].
  - rewrite bind_eval. unfold read_file_text. rewrite bind_eval.
    rewrite (read_bytes_File _ b) by done. by destruct (read_text E b).
  - rewrite bind_eval. unfold read_file_text. rewrite bind_eval.
    unfold read_bytes. rewrite bind_eval. simpl. by rewrite Hl.
Qed.

Lemma read_controls_inv E l files : forall (m md : gmap string string) st st',
  NoDup files ->
  foldM (read_control E l) m files st = (Ok md, st') ->
  st' = st
  /\ (forall k, k ∉ files -> md !! k = m !! k)
  /\ (forall k, k ∈ files ->
        (lookup_loc (fs st) (join l k) = None /\ md !! k = m !! k)
        \/ (exists b text, lookup_loc (fs st) (join l k) = Some (File b)
                           /\ read_text E b = Some text /\ md !! k = Some text)).
Proof.
  induction files as [|x files IH]; intros m md st st' Hnd; simpl.
  - intros [= <- <-]. split; [done|]. split; [done|]. intros k Hk. by apply elem_of_nil in Hk.
  - apply NoDup_cons in Hnd as [Hx Hnd]. rewrite bind_eval, read_control_eval.
    destruct (lookup_loc (fs st) (join l x)) as [[b|es]|] eqn:Hl; [|done|].
    + destruct (read_text E b) as [text|] eqn:Htext; [|done]. intros Hrun.
      destruct (IH _ _ _ _ Hnd Hrun) as (-> & Hout & Hin). split; [done|]. split.
      * intros k [Hkx Hk]%not_elem_of_cons. rewrite (Hout k Hk).
        by rewrite lookup_insert_ne.
      * intros k [->|Hk]%elem_of_cons.
        -- right. exists b, text. rewrite (Hout x Hx), lookup_insert_eq. done.
        -- destruct (Hin k Hk) as [[H1 H2]|H]; [|by right].
           left. split; [done|]. rewrite H2. rewrite lookup_insert_ne; [done|].
           intros ->. done.
    + intros Hrun. destruct (IH _ _ _ _ Hnd Hrun) as (-> & Hout & Hin).
      split; [done|]. split.
      * intros k [Hkx Hk]%not_elem_of_cons. by apply Hout.
      * intros k [->|Hk]%elem_of_cons; [|by apply Hin].
        left. split; [done|]. by apply Hout.
Qed.

Lemma read_controls_total E l files : forall (m : gmap string string) st,
  (forall k n, k ∈ files -> lookup_loc (fs st) (join l k) = Some n ->
               exists b text, n = File b /\ read_text E b = Some text) ->
  exists md, foldM (read_control E l) m files st = (Ok md, st).
Proof.
  induction files as [|x files IH]; intros m st Hok; simpl.
  - by exists m.
  - rewrite bind_eval, read_control_eval.
    destruct (lookup_loc (fs st) (join l x)) as [n|] eqn:Hl.
    + destruct (Hok x n) as (b & text & -> & Htext); [left|done|]. rewrite Htext.
      apply IH. intros k n Hk. apply Hok. by right.
    + apply IH. intros k n Hk. apply Hok. by right.
Qed.

Lemma generate_metadata_eval E st t :
  temp_dir (self st) = Some t ->
  generate_metadata E st =
  foldM (read_control E (t, ["DEBIAN"]))
        (<["author" := "AnmiTaliDev"]>
         (<["converter" := "debtoapg"]>
          (<["converter_version" := version (self st)]>
           (<["created" := utcnow_isoformat E]> ∅))))
        control_files
        (snd (update_progress "Generating metadata" st)).
Proof.
  intros Ht. unfold generate_metadata.
  erewrite bind_Ok; [|apply update_progress_eval].
  unfold temp_dir_join. rewrite !bind_eval. simpl. rewrite Ht. reflexivity.
Qed.

Lemma not_control_file k :
  k ∈ ["created"; "converter"; "converter_version"; "author"] -> k ∉ control_files.
Proof.
  intros Hk Hc. revert Hk.
  repeat (apply elem_of_cons in Hc as [->|Hc];
          [intros Hk; repeat (apply elem_of_cons in Hk as [Hk|Hk]; [discriminate|]);
           by apply elem_of_nil in Hk|]).
  by apply elem_of_nil in Hc.
Qed.

Lemma NoDup_control_files : NoDup control_files.
Proof. apply (bool_decide_unpack _). by vm_compute. Qed.

Lemma generate_metadata_fields E st t md st' :
  temp_dir (self st) = Some t ->
  generate_metadata E st = (Ok md, st') ->
  fs st' = fs st /\ temp_dir (self st') = Some t
  /\ md !! "created" = Some (utcnow_isoformat E)
  /\ md !! "converter" = Some "debtoapg"
  /\ md !! "converter_version" = Some (version (self st))
  /\ md !! "author" = Some "AnmiTaliDev"
  /\ forall name, name ∈ control_files ->
       (is_Some (md !! name) <-> is_Some (lookup_loc (fs st) (t, ["DEBIAN"; name])))
       /\ (forall text, md !! name = Some text ->
             exists b, lookup_loc (fs st) (t, ["DEBIAN"; name]) = Some (File b)
                       /\ read_text E b = Some text).
Proof.
  intros Ht. rewrite (generate_metadata_eval E st t Ht). intros Hrun.
  destruct (read_controls_inv _ _ _ _ _ _ _ NoDup_control_files Hrun) as (-> & Hout & Hin).
  assert (forall k, k ∈ ["created"; "converter"; "converter_version"; "author"] ->
                    md !! k = (<["author" := "AnmiTaliDev"]>
                               (<["converter" := "debtoapg"]>
                                (<["converter_version" := version (self st)]>
                                 (<["created" := utcnow_isoformat E]> (∅ : gmap string string))))) !! k) as Hstamp.
  { intros k Hk. apply Hout. by apply not_control_file. }
  split; [done|]. split; [done|].
  split; [rewrite Hstamp; [done | set_solver]|].
  split; [rewrite Hstamp; [done | set_solver]|].
  split; [rewrite Hstamp; [done | set_solver]|].
  split; [rewrite Hstamp; [done | set_solver]|].
  intros name Hname.
  assert ((<["author" := "AnmiTaliDev"]>
           (<["converter" := "debtoapg"]>
            (<["converter_version" := version (self st)]>
             (<["created" := utcnow_isoformat E]> (∅ : gmap string string))))) !! name = None) as Hfresh.
  { clear -Hname.
    repeat (apply elem_of_cons in Hname as [->|Hname]; [done|]).
    by apply elem_of_nil in Hname. }
  destruct (Hin name Hname) as [[Hnone Hmd]|(b & text & Hb & Htext & Hmd)].
  - change (lookup_loc (fs st) (t, ["DEBIAN"; name]) = None) in Hnone.
    rewrite Hmd, Hfresh, Hnone. split.
    + split; intros [? ?]; done.
    + done.
  - change (lookup_loc (fs st) (t, ["DEBIAN"; name]) = Some (File b)) in Hb.
    rewrite Hmd, Hb. split.
    + split; eauto.
    + intros text' [= <-]. eauto.
Qed.

Lemma generate_metadata_total E st t :
  temp_dir (self st) = Some t ->
  (forall name n, name ∈ control_files ->
      lookup_loc (fs st) (t, ["DEBIAN"; name]) = Some n ->
      exists b text, n = File b /\ read_text E b = Some text) ->
  exists md st', generate_metadata E st = (Ok md, st').
Proof.
  intros Ht Hok. rewrite (generate_metadata_eval E st t Ht).
  destruct (read_controls_total E (t, ["DEBIAN"]) control_files
      (<["author" := "AnmiTaliDev"]>
         (<["converter" := "debtoapg"]>
          (<["converter_version" := version (self st)]>
           (<["created" := utcnow_isoformat E]> (∅ : gmap string string)))))
      (snd (update_progress "Generating metadata" st))) as [md Hmd].
  - intros k n Hk Hl. by apply (Hok k n).
  - eauto.
Qed.


(** ** Directory listings under append *)

Lemma names_app (a b : listing) : names (a ++ b) = names a ++ names b.
Proof. apply map_app. Qed.

Lemma entry_app_notin k (a b : listing) : k ∉ names a -> entry k (a ++ b) = entry k b.
Proof.
  induction a as [|[k' n] a IH]; simpl; [done|].
  intros [Hk Ha]%not_elem_of_cons.
  destruct (String.eqb_spec k' k); [congruence | by apply IH].
Qed.

Lemma entry_app_notin_r k (a b : listing) : k ∉ names b -> entry k (a ++ b) = entry k a.
Proof.
  intros Hb. induction a as [|[k' n] a IH]; simpl.
  - by apply entry_None.
  - destruct (String.eqb_spec k' k); [done | exact IH].
Qed.

Lemma entry_head k n (b : listing) : entry k ((k, n) :: b) = Some n.
Proof. simpl. by rewrite String.eqb_refl. Qed.

Lemma set_entry_notin k n (a : listing) : k ∉ names a -> set_entry k n a = a ++ [(k, n)].
Proof.
  induction a as [|[k' n'] a IH]; simpl; [done|].
  intros [Hk Ha]%not_elem_of_cons.
  destruct (String.eqb_spec k' k); [congruence | by rewrite IH].
Qed.

Lemma set_entry_app_notin k n (a b : listing) :
  k ∉ names a -> set_entry k n (a ++ b) = a ++ set_entry k n b.
Proof.
  induction a as [|[k' n'] a IH]; simpl; [done|].
  intros [Hk Ha]%not_elem_of_cons.
  destruct (String.eqb_spec k' k); [congruence | by rewrite IH].
Qed.

Lemma set_entry_head k n n' (b : listing) : set_entry k n ((k, n') :: b) = (k, n) :: b.
Proof. simpl. by rewrite String.eqb_refl. Qed.

Lemma del_entry_notin k (a : listing) : k ∉ names a -> del_entry k a = a.
Proof.
  induction a as [|[k' n'] a IH]; simpl; [done|].
  intros [Hk Ha]%not_elem_of_cons. unfold del_entry in *. simpl.
  destruct (String.eqb_spec k' k); [congruence|]. simpl. by rewrite IH.
Qed.

Lemma del_entry_app k (a b : listing) : del_entry k (a ++ b) = del_entry k a ++ del_entry k b.
Proof. apply List.filter_app. Qed.

Lemma del_entry_head k n (b : listing) : del_entry k ((k, n) :: b) = del_entry k b.
Proof. unfold del_entry. simpl. by rewrite String.eqb_refl. Qed.

(** ** One move of the restructuring loop *)

Lemma move_in_tree_payload k n (kept todo moved : listing) :
  k ∉ names kept -> k ∉ names todo -> k ∉ names moved -> k <> "apg" ->
  "apg" ∉ names kept -> "apg" ∉ names todo ->
  move_in_tree [k] ["apg"; "data"; k]
    (Dir (kept ++ (k, n) :: todo ++ [("apg", Dir [("data", Dir moved)])]))
  = Ok (Dir (kept ++ todo ++ [("apg", Dir [("data", Dir (moved ++ [(k, n)]))])])).
Proof.
  intros Hk1 Hk2 Hk3 Hk4 Ha1 Ha2.
  assert (forall x, entry "apg" (kept ++ todo ++ [("apg", x)]) = Some x) as Hapg.
  { intros x. rewrite !entry_app_notin by done. apply entry_head. }
  assert ("apg" <> k) as Hk4' by congruence.
  assert (entry k moved = None) as Hkm by by apply entry_None.
  unfold move_in_tree. simpl.
  rewrite (entry_app_notin "apg") by done. simpl.
  destruct (String.eqb_spec k "apg"); [done|].
  rewrite (entry_app_notin "apg") by done. simpl. rewrite Hkm.
  unfold rename. simpl.
  rewrite (entry_app_notin k kept) by exact Hk1. rewrite entry_head.
  rewrite del_entry_app, del_entry_head, del_entry_app.
  rewrite !del_entry_notin by done.
  assert (del_entry k [("apg", Dir [("data", Dir moved)])]
          = [("apg", Dir [("data", Dir moved)])]) as ->.
  { apply del_entry_notin. simpl. by intros ?%list_elem_of_singleton. }
  rewrite Hapg. simpl.
  rewrite !set_entry_app_notin by done. rewrite set_entry_head.
  by rewrite set_entry_notin.
Qed.

Lemma update_tree_eval t f root root' st :
  tmpdirs (fs st) !! t = Some root -> f root = Ok root' ->
  update_tree t f st =
  (Ok tt, {| self := self st;
             fs := {| tmpdirs := <[t := root']> (tmpdirs (fs st));
                      outfiles := outfiles (fs st) |};
             tty := tty st |}).
Proof.
  intros Ht Hf. unfold update_tree. rewrite bind_eval. simpl. by rewrite Ht, Hf.
Qed.

Lemma update_tree_raise t f root e st :
  tmpdirs (fs st) !! t = Some root -> f root = Raise e ->
  update_tree t f st = (Raise e, st).
Proof.
  intros Ht Hf. unfold update_tree. rewrite bind_eval. simpl. by rewrite Ht, Hf.
Qed.

(** The loop over the listing, started with [kept] already passed over,
    [todo] still to visit and [moved] already under [apg/data]. *)
Lemma move_items_eval t (todo : listing) : forall (kept moved : listing) st,
  tmpdirs (fs st) !! t
    = Some (Dir (kept ++ todo ++ [("apg", Dir [("data", Dir moved)])])) ->
  NoDup (names kept ++ names todo ++ ["apg"]) ->
  (forall k, k ∈ names moved -> k ∉ names todo) ->
  exists st',
    for_each (names todo) (move_item (t, []) (t, ["apg"; "data"])) st = (Ok tt, st')
    /\ self st' = self st /\ tty st' = tty st /\ outfiles (fs st') = outfiles (fs st)
    /\ tmpdirs (fs st')
       = <[t := Dir ((kept ++ control_part todo)
                     ++ [("apg", Dir [("data", Dir (moved ++ payload_part todo))])])]>
           (tmpdirs (fs st)).
Proof.
  induction todo as [|[k n] todo IH]; intros kept moved st Ht Hnd Hmoved.
  - exists st. simpl. rewrite !app_nil_r. repeat split; try done.
    simpl in Ht. by rewrite insert_id.
  - pose proof Hnd as Hnd0. apply NoDup_app in Hnd as (Hnd1 & Hdisj & Hnd2).
    simpl in Hnd2. apply NoDup_cons in Hnd2 as [Hk Hnd2].
    apply not_elem_of_app in Hk as [Hk2 Hk4].
    assert (k <> "apg") as Hkapg.
    { intros ->. apply Hk4. left. }
    assert (k ∉ names kept) as Hk1.
    { intros Hin. apply (Hdisj _ Hin). left. }
    assert ("apg" ∉ names kept) as Ha1.
    { intros Hin. apply (Hdisj _ Hin). right. apply elem_of_app. right. left. }
    assert ("apg" ∉ names todo) as Ha2.
    { intros Hin. apply NoDup_app in Hnd2 as (_ & Hd & _). apply (Hd _ Hin). left. }
    assert (k ∉ names moved) as Hk3.
    { intros Hin. apply (Hmoved _ Hin). left. }
    unfold for_each in *. simpl. rewrite bind_eval. unfold move_item at 1.
    destruct (String.eqb_spec k "DEBIAN") as [->|Hdeb]; simpl.
    + (* the control directory is passed over *)
      destruct (IH (kept ++ [("DEBIAN", n)]) moved st) as (st' & Hrun & H1 & H2 & H3 & H4).
      * by rewrite <- app_assoc.
      * rewrite names_app. simpl. rewrite <- app_assoc. exact Hnd0.
      * intros x Hx. specialize (Hmoved x Hx). simpl in Hmoved.
        by apply not_elem_of_cons in Hmoved as [_ ?].
      * exists st'. split; [exact Hrun|]. repeat split; try done.
        rewrite H4. unfold control_part, payload_part, is_control. simpl.
        by rewrite <- !app_assoc.
    + destruct (String.eqb_spec k "apg") as [->|_]; [done|]. simpl.
      unfold shutil_move, join, path_join. simpl.
      erewrite update_tree_eval; [|exact Ht|by apply move_in_tree_payload].
      match goal with |- context [foldM _ _ _ ?s] =>
        destruct (IH kept (moved ++ [(k, n)]) s) as (st' & Hrun & H1 & H2 & H3 & H4) end.
      * simpl. by rewrite lookup_insert_eq.
      * apply NoDup_app. split; [done|]. split; [|done].
        intros x Hx. specialize (Hdisj x Hx). simpl in Hdisj.
        by apply not_elem_of_cons in Hdisj as [_ ?].
      * intros x. rewrite names_app. intros [Hx|Hx]%elem_of_app.
        -- specialize (Hmoved x Hx). simpl in Hmoved.
           by apply not_elem_of_cons in Hmoved as [_ ?].
        -- simpl in Hx. apply list_elem_of_singleton in Hx as ->. done.
      * exists st'. split; [exact Hrun|]. repeat split; try done.
        rewrite H4. simpl. rewrite insert_insert_eq.
        unfold control_part, payload_part, is_control. simpl.
        destruct (String.eqb_spec k "DEBIAN"); [done|]. simpl.
        by rewrite <- !app_assoc.
Qed.

(** ** Restructuring *)

Lemma foldM_app {A B} (body : B -> A -> M B) (xs ys : list A) : forall acc st,
  foldM body acc (xs ++ ys) st = (foldM body acc xs ≫= fun acc' => foldM body acc' ys) st.
Proof.
  induction xs as [|x xs IH]; intros acc st; simpl.
  - reflexivity.
  - rewrite !bind_eval. destruct (body acc x st) as [[a|e] st1]; [|done].
    rewrite IH. by rewrite bind_eval.
Qed.

Lemma temp_dir_join_eval name t st :
  temp_dir (self st) = Some t -> temp_dir_join name st = (Ok (t, [name]), st).
Proof. intros Ht. unfold temp_dir_join. rewrite bind_eval. simpl. by rewrite Ht. Qed.

Lemma os_makedirs_eval t p root root' st :
  tmpdirs (fs st) !! t = Some root -> mkdirs p root = Ok root' ->
  os_makedirs (t, p) st =
  (Ok tt, {| self := self st;
             fs := {| tmpdirs := <[t := root']> (tmpdirs (fs st));
                      outfiles := outfiles (fs st) |};
             tty := tty st |}).
Proof.
  intros Ht Hm. unfold os_makedirs. rewrite bind_eval. simpl. rewrite Ht.
  by apply update_tree_eval with (root := root).
Qed.

Lemma os_makedirs_raise t p root e st :
  tmpdirs (fs st) !! t = Some root -> mkdirs p root = Raise e ->
  os_makedirs (t, p) st = (Raise e, st).
Proof.
  intros Ht Hm. unfold os_makedirs. rewrite bind_eval. simpl. rewrite Ht.
  by apply update_tree_raise with (root := root).
Qed.

Lemma os_listdir_eval t es st :
  tmpdirs (fs st) !! t = Some (Dir es) -> os_listdir (t, []) st = (Ok (names es), st).
Proof.
  intros Ht. unfold os_listdir. rewrite bind_eval. simpl. unfold lookup_loc. simpl.
  by rewrite Ht.
Qed.

(** The restructuring step on an extracted tree that has no entry
    called [apg]. *)
Lemma restructure_eval E st t es :
  temp_dir (self st) = Some t -> tmpdirs (fs st) !! t = Some (Dir es) ->
  NoDup (names es) -> "apg" ∉ names es -> interrupt E <> Some InRestructure ->
  exists st',
    restructure E st = (Ok (t, ["apg"]), st')
    /\ self st' = self st /\ outfiles (fs st') = outfiles (fs st)
    /\ tmpdirs (fs st') = <[t := restructured es]> (tmpdirs (fs st)).
Proof.
  intros Ht Hroot Hnd Hapg Hint. unfold restructure.
  erewrite bind_Ok; [|apply log_eval].
  erewrite bind_Ok; [|by apply poll_eval].
  erewrite bind_Ok; [|by apply temp_dir_join_eval].
  erewrite bind_Ok.
  2:{ eapply os_makedirs_eval; [exact Hroot|]. simpl.
      apply entry_None in Hapg. rewrite Hapg. by rewrite set_entry_notin by by apply entry_None. }
  erewrite bind_Ok.
  2:{ unfold join, path_join. simpl. eapply os_makedirs_eval.
      - simpl. by rewrite lookup_insert_eq.
      - simpl. rewrite entry_app_notin by done. rewrite entry_head. simpl.
        rewrite set_entry_app_notin by done. by rewrite set_entry_head. }
  erewrite bind_Ok.
  2:{ apply os_listdir_eval. simpl. by rewrite lookup_insert_eq. }
  rewrite names_app. simpl names at 2. unfold for_each. rewrite bind_eval, foldM_app, bind_eval.
  match goal with |- context [foldM _ _ (names es) ?s] =>
    destruct (move_items_eval t es [] [] s) as (st' & Hrun & H1 & H2 & H3 & H4) end.
  { simpl. by rewrite lookup_insert_eq. }
  { simpl. apply NoDup_app. split; [done|]. split; [|apply NoDup_singleton].
    intros x Hx ->%list_elem_of_singleton. done. }
  { intros k Hk. by apply elem_of_nil in Hk. }
  unfold for_each in Hrun. unfold join, path_join in *. simpl in *. rewrite Hrun.
  simpl. eexists. split; [reflexivity|]. simpl. rewrite H1, H3, H4. simpl.
  by rewrite !insert_insert_eq.
Qed.

(** The restructuring step on an extracted tree that has an entry
    called [apg]: [os.makedirs] refuses. *)
Lemma restructure_apg_exists E st t es :
  temp_dir (self st) = Some t -> tmpdirs (fs st) !! t = Some (Dir es) ->
  "apg" ∈ names es -> interrupt E <> Some InRestructure ->
  exists st',
    restructure E st = (Raise FileExistsError, st')
    /\ self st' = self st /\ fs st' = fs st.
Proof.
  intros Ht Hroot Hapg Hint. unfold restructure.
  erewrite bind_Ok; [|apply log_eval].
  erewrite bind_Ok; [|by apply poll_eval].
  erewrite bind_Ok; [|by apply temp_dir_join_eval].
  erewrite bind_Raise.
  2:{ eapply os_makedirs_raise; [exact Hroot|]. simpl.
      apply entry_is_Some in Hapg as [c Hc]. by rewrite Hc. }
  eexists. split; [reflexivity|]. done.
Qed.

Lemma restructure_interrupted E st :
  interrupt E = Some InRestructure ->
  fst (restructure E st) = Raise KeyboardInterrupt.
Proof.
  intros Hint. unfold restructure.
  erewrite bind_Ok; [|apply log_eval].
  erewrite bind_Raise; [|by apply poll_interrupted]. done.
Qed.

(** ** Writing the records and the archive *)

Lemma names_filter_subseteq (f : string * node -> bool) (es : listing) x :
  x ∈ names (List.filter f es) -> x ∈ names es.
Proof.
  unfold names. rewrite !list_elem_of_fmap. intros (kn & -> & Hin).
  exists kn. split; [done|]. apply list_elem_of_In. apply list_elem_of_In, filter_In in Hin.
  tauto.
Qed.

Lemma NoDup_names_filter (f : string * node -> bool) (es : listing) :
  NoDup (names es) -> NoDup (names (List.filter f es)).
Proof.
  induction es as [|[k n] es IH]; simpl; [done|].
  intros [Hk Hnd]%NoDup_cons. destruct (f (k, n)); simpl; [|by apply IH].
  apply NoDup_cons. split; [|by apply IH].
  intros Hin. apply Hk. by eapply names_filter_subseteq.
Qed.

Lemma well_formed_filter (f : string * node -> bool) (es : listing) :
  well_formed (Dir es) = true -> well_formed (Dir (List.filter f es)) = true.
Proof.
  rewrite !well_formed_Dir. intros (Hnd & Hv & Hw). split; [|split].
  - by apply NoDup_names_filter.
  - rewrite Forall_forall in *. intros x Hx. apply Hv. by eapply names_filter_subseteq.
  - rewrite Forall_forall in *. intros x Hx. apply Hw.
    apply list_elem_of_In. apply list_elem_of_In, filter_In in Hx. tauto.
Qed.

Lemma write_in_apg (ctl a : listing) k b :
  "apg" ∉ names ctl -> (forall es', entry k a <> Some (Dir es')) ->
  write_in_tree ["apg"; k] b (Dir (ctl ++ [("apg", Dir a)]))
  = Ok (Dir (ctl ++ [("apg", Dir (set_entry k (File b) a))])).
Proof.
  intros Hapg Hk. unfold write_in_tree. simpl.
  rewrite entry_app_notin by done. rewrite entry_head.
  rewrite set_entry_app_notin by done. rewrite set_entry_head.
  destruct (entry k a) as [[b'|es']|] eqn:Hka; [done| |done].
  by destruct (Hk es').
Qed.

Lemma entry_control_part (es : listing) :
  entry "DEBIAN" (control_part es) = entry "DEBIAN" es.
Proof.
  induction es as [|[k n] es IH]; [done|]. unfold control_part, is_control in *. simpl.
  destruct (String.eqb_spec k "DEBIAN") as [->|Hne]; simpl.
  - reflexivity.
  - exact IH.
Qed.

Lemma names_control_part (es : listing) x : x ∈ names (control_part es) -> x = "DEBIAN".
Proof.
  unfold names, control_part. rewrite list_elem_of_fmap. intros ([k n] & -> & Hin).
  apply list_elem_of_In, filter_In in Hin as [_ Hc]. unfold is_control in Hc. simpl in *.
  by apply String.eqb_eq in Hc.
Qed.

Lemma apg_not_control (es : listing) : "apg" ∉ names (control_part es).
Proof. intros H. by apply names_control_part in H. Qed.

(** The two records, written into a restructured tree. *)
Lemma write_records_spec E t (ctl pay : listing) st st' :
  temp_dir (self st) = Some t -> "apg" ∉ names ctl ->
  tmpdirs (fs st) !! t = Some (Dir (ctl ++ [("apg", Dir [("data", Dir pay)])])) ->
  well_formed (Dir pay) = true ->
  write_records E (t, ["apg"]) st = (Ok tt, st') ->
  exists md sums,
    temp_dir (self st') = Some t
    /\ outfiles (fs st') = outfiles (fs st)
    /\ tmpdirs (fs st') = <[t := Dir (ctl ++ [("apg", apg_tree E pay md sums)])]> (tmpdirs (fs st))
    /\ metadata_of E (version (self st)) (entry "DEBIAN" ctl) md
    /\ checksums_of pay sums.
Proof.
  intros Ht Hapg Hroot Hwf Hrun. unfold write_records in Hrun.
  rewrite bind_eval in Hrun. unfold poll in Hrun at 1.
  case_decide; [done|]. simpl in Hrun.
  unfold write_file, join, path_join in Hrun. simpl in Hrun.
  erewrite bind_Ok in Hrun.
  2:{ eapply update_tree_eval; [exact Hroot|]. by apply write_in_apg. }
  simpl set_entry in Hrun.
  rewrite bind_eval in Hrun.
  match type of Hrun with context [generate_metadata E ?s] => set (st_a := s) in * end.
  destruct (generate_metadata E st_a) as [[md|e] st_b] eqn:Hmd; [|done].
  destruct (generate_metadata_fields E st_a t md st_b Ht Hmd)
    as (Hfs_b & Ht_b & Hc1 & Hc2 & Hc3 & Hc4 & Hc5).
  erewrite bind_Ok in Hrun.
  2:{ eapply update_tree_eval.
      - rewrite Hfs_b. simpl. by rewrite lookup_insert_eq.
      - by apply write_in_apg. }
  simpl set_entry in Hrun.
  erewrite bind_Ok in Hrun.
  2:{ eapply update_tree_eval.
      - simpl. by rewrite lookup_insert_eq.
      - by apply write_in_apg. }
  simpl set_entry in Hrun.
  rewrite bind_eval in Hrun.
  match type of Hrun with context [calculate_checksums _ ?s] => set (st_c := s) in * end.
  destruct (calculate_checksums_spec t ["apg"; "data"]
              (Dir (ctl ++ [("apg", Dir [("data", Dir pay);
                                         ("metadata.json", File (json_dump E md));
                                         ("checksums.json", File "")])]))
              pay st_c) as (sums & st_d & Hsums & Hfs_d & Ht_d & Hof); [| |done|].
  { simpl. by rewrite lookup_insert_eq. }
  { simpl. rewrite entry_app_notin by done. rewrite entry_head. done. }
  rewrite Hsums in Hrun.
  erewrite update_tree_eval in Hrun.
  2:{ rewrite Hfs_d. simpl. by rewrite lookup_insert_eq. }
  2:{ by apply write_in_apg. }
  injection Hrun as <-. exists md, sums. simpl.
  split; [by rewrite Ht_d|]. rewrite Hfs_d. simpl. rewrite Hfs_b. simpl.
  split; [done|]. split.
  { rewrite !insert_insert_eq. reflexivity. }
  split; [|done].
  unfold metadata_of. do 4 (split; [done|]). intros name Hname.
  destruct (Hc5 name Hname) as [Hiff Hval].
  assert (lookup_loc (fs st_a) (t, ["DEBIAN"; name])
          = match entry "DEBIAN" ctl with Some d => get [name] d | None => None end) as Hlook.
  { unfold lookup_loc. simpl. rewrite lookup_insert_eq. simpl.
    rewrite entry_app_notin_r.
    - by destruct (entry "DEBIAN" ctl).
    - simpl. by intros ?%list_elem_of_singleton. }
  rewrite Hlook in Hiff, Hval. cbv zeta. split; [exact Hiff | exact Hval].
Qed.

Lemma pack_spec E l out st st' n :
  lookup_loc (fs st) l = Some n ->
  pack E l out st = (Ok tt, st') ->
  temp_dir (self st') = temp_dir (self st)
  /\ tmpdirs (fs st') = tmpdirs (fs st)
  /\ outfiles (fs st') = <[out := tar_xz E (tar_add n "")]> (outfiles (fs st))
  /\ interrupt E <> Some InPack /\ open_for_writing E out = None.
Proof.
  intros Hl. unfold pack. rewrite bind_eval, update_progress_eval, bind_eval.
  unfold poll. case_decide; [done|]. simpl.
  destruct (open_for_writing E out); [done|]. rewrite bind_eval. simpl.
  rewrite Hl. intros [= <-]. done.
Qed.

(** ** [create_apg], end to end *)

Lemma create_apg_spec E out st t es v st' :
  temp_dir (self st) = Some t -> tmpdirs (fs st) !! t = Some (Dir es) ->
  well_formed (Dir es) = true ->
  create_apg E out st = (Ok v, st') ->
  v = PyNone /\ ("apg" ∉ names es)
  /\ exists md sums,
       temp_dir (self st') = Some t
       /\ tmpdirs (fs st')
          = <[t := Dir (control_part es ++ [("apg", apg_tree E (payload_part es) md sums)])]>
              (tmpdirs (fs st))
       /\ outfiles (fs st')
          = <[out := tar_xz E (tar_add (apg_tree E (payload_part es) md sums) "")]>
              (outfiles (fs st))
       /\ metadata_of E (version (self st)) (entry "DEBIAN" es) md
       /\ checksums_of (payload_part es) sums.
Proof.
  intros Ht Hroot Hwf Hrun.
  pose proof Hwf as (Hnd & _ & _)%well_formed_Dir.
  unfold create_apg in Hrun. rewrite bind_eval in Hrun.
  destruct (decide (interrupt E = Some InRestructure)) as [Hint|Hint].
  { pose proof (restructure_interrupted E st Hint) as Hr.
    destruct (restructure E st) as [r st1]. simpl in Hr. by subst r. }
  destruct (decide ("apg" ∈ names es)) as [Hapg|Hapg].
  { destruct (restructure_apg_exists E st t es Ht Hroot Hapg Hint) as (st1 & Hr & _).
    by rewrite Hr in Hrun. }
  destruct (restructure_eval E st t es Ht Hroot Hnd Hapg Hint) as (st1 & Hr & Hs1 & Ho1 & Ht1).
  rewrite Hr, bind_eval in Hrun.
  destruct (write_records E (t, ["apg"]) st1) as [[[]|e] st2] eqn:Hw; [|done].
  destruct (write_records_spec E t (control_part es) (payload_part es) st1 st2)
    as (md & sums & Ht2 & Ho2 & Htmp2 & Hmd & Hsums); try done.
  { by rewrite Hs1. }
  { apply apg_not_control. }
  { rewrite Ht1. by rewrite lookup_insert_eq. }
  { by apply well_formed_filter. }
  rewrite bind_eval in Hrun.
  destruct (pack E (t, ["apg"]) out st2) as [[[]|e] st3] eqn:Hp; [|done].
  destruct (pack_spec E (t, ["apg"]) out st2 st3 (apg_tree E (payload_part es) md sums))
    as (Ht3 & Htmp3 & Ho3 & _); [|done|].
  { unfold lookup_loc. simpl. rewrite Htmp2, lookup_insert_eq. simpl.
    rewrite entry_app_notin by apply apg_not_control. by rewrite entry_head. }
  simpl in Hrun. injection Hrun as <- <-.
  split; [done|]. split; [done|]. exists md, sums.
  split; [congruence|]. split.
  { rewrite Htmp3, Htmp2, Ht1. by rewrite insert_insert_eq. }
  split; [by rewrite Ho3, Ho2, Ho1|].
  split; [|done]. rewrite Hs1, entry_control_part in Hmd. exact Hmd.
Qed.

(** ** Member names of the archive *)

Lemma elem_of_insert_by_name {A} (x y : string * A) l :
  x ∈ insert_by_name y l <-> x = y \/ x ∈ l.
Proof.
  induction l as [|z l IH]; simpl.
  - rewrite list_elem_of_singleton. split; [auto | intros [?|H]; [done | by apply elem_of_nil in H]].
  - destruct (String.leb (fst y) (fst z)).
    + by rewrite elem_of_cons.
    + rewrite !elem_of_cons, IH. tauto.
Qed.

Lemma elem_of_sort_by_name {A} (x : string * A) l : x ∈ sort_by_name l <-> x ∈ l.
Proof.
  induction l as [|y l IH]; simpl; [done|].
  by rewrite elem_of_insert_by_name, IH, elem_of_cons.
Qed.

(** The member name of the entry at path [p] below an entry added
    under [arcname]. *)
Lemma tar_add_members n : forall arcname s mb,
  well_formed n = true ->
  ((s, mb) ∈ tar_add n arcname <->
   exists p x, get p n = Some x /\ s = fold_left os_path_join p arcname /\ mb = body x).
Proof.
  induction n as [b|es IH] using node_nested_ind; intros arcname s mb Hwf.
  - simpl. rewrite list_elem_of_singleton. split.
    + intros [= -> ->]. by exists [], (File b).
    + intros (p & x & Hp & -> & ->). apply get_File_inv in Hp as [-> ->]. done.
  - pose proof Hwf as (Hnd & _ & Hw)%well_formed_Dir. rewrite Forall_forall in IH, Hw.
    simpl tar_add. rewrite elem_of_cons. split.
    + intros [[= -> ->]|Hin].
      * by exists [], (Dir es).
      * apply list_elem_of_In, in_flat_map in Hin as ([k f] & Hkf & Hin).
        apply list_elem_of_In, elem_of_sort_by_name, list_elem_of_fmap in Hkf
          as ([k' c] & [= <- ->] & Hkc).
        simpl in Hin. apply list_elem_of_In in Hin.
        apply (IH _ Hkc _ _ _ (Hw _ Hkc)) in Hin as (p & x & Hp & -> & ->).
        exists (k :: p), x. simpl. by rewrite (entry_NoDup _ _ _ Hnd Hkc).
    + intros (p & x & Hp & -> & ->). destruct p as [|k p].
      * injection Hp as <-. by left.
      * right. simpl in Hp. destruct (entry k es) as [c|] eqn:Hc; [|done].
        pose proof (entry_elem_of _ _ _ Hc) as Hkc.
        apply list_elem_of_In, in_flat_map. exists (k, tar_add c). split.
        -- apply list_elem_of_In, elem_of_sort_by_name, list_elem_of_fmap.
           by exists (k, c).
        -- simpl. apply list_elem_of_In, (IH _ Hkc _ _ _ (Hw _ Hkc)). eauto.
Qed.

Lemma endswith_String c z suffix :
  endswith (String c z) suffix = String.eqb (String c z) suffix || endswith z suffix.
Proof. reflexivity. Qed.

Lemma endswith_slash_free z : slash_free z = true -> endswith z "/" = false.
Proof.
  induction z as [|c z IH]; [done|]. rewrite slash_free_String.
  intros [Hc Hz]%andb_true_iff. rewrite endswith_String, (IH Hz), orb_false_r.
  destruct (String.eqb_spec (String c z) "/") as [[= -> ->]|]; done.
Qed.

Lemma endswith_append (a z : string) :
  z <> "" -> endswith (a +:+ z) "/" = endswith z "/".
Proof.
  intros Hz. induction a as [|c a IH]; [done|].
  rewrite append_String, endswith_String, IH.
  destruct (String.eqb_spec (String c (a +:+ z)) "/") as [[= _ H]|]; [|done].
  destruct a; [by subst | done].
Qed.

Lemma string_app_assoc (a b c : string) : (a +:+ b) +:+ c = a +:+ (b +:+ c).
Proof.
  induction a as [|x a IH]; [reflexivity|]. by rewrite !append_String, IH.
Qed.

Lemma concat_snoc (q : path) k :
  String.concat "/" (q ++ [k])
  = match q with [] => k | _ => String.concat "/" q +:+ String "/"%char k end.
Proof.
  induction q as [|x q IH]; [done|]. destruct q as [|y q]; [reflexivity|].
  change (String.concat "/" (x :: (y :: q) ++ [k])
          = String.concat "/" (x :: y :: q) +:+ String "/"%char k).
  change ((y :: q) ++ [k]) with (y :: (q ++ [k])) at 1.
  rewrite !concat_cons2.
  change (y :: q ++ [k]) with ((y :: q) ++ [k]). rewrite IH.
  rewrite string_app_assoc. reflexivity.
Qed.

Lemma concat_no_trailing_slash (q : path) :
  Forall (fun k => valid_name k = true) q -> q <> [] ->
  endswith (String.concat "/" q) "/" = false.
Proof.
  induction q as [|k q _] using rev_ind; [done|]. intros Hv _.
  apply Forall_app in Hv as [_ Hk]. apply Forall_cons in Hk as [[Hk1 Hk2]%valid_name_inv _].
  rewrite concat_snoc. destruct q.
  - by apply endswith_slash_free.
  - change (String "/"%char k) with ("/" +:+ k). rewrite <- string_app_assoc.
    rewrite endswith_append by done. by apply endswith_slash_free.
Qed.

Lemma os_path_join_valid (a k : string) :
  valid_name k = true -> endswith a "/" = false ->
  os_path_join a k = if String.eqb a "" then k else a +:+ String "/"%char k.
Proof.
  intros [Hk1 Hk2]%valid_name_inv Ha. unfold os_path_join.
  assert (startswith_slash k = false) as ->.
  { destruct k as [|c k]; [done|]. rewrite slash_free_String in Hk2.
    apply andb_true_iff in Hk2 as [Hc _]. simpl. by destruct (Ascii.eqb c "/"). }
  rewrite Ha, orb_false_r. by destruct (String.eqb_spec a "") as [->|].
Qed.

Lemma archive_name_concat (p : path) :
  Forall (fun k => valid_name k = true) p ->
  fold_left os_path_join p "" = String.concat "/" p.
Proof.
  induction p as [|k q IH] using rev_ind; [done|]. intros Hv.
  pose proof Hv as [Hq Hk]%Forall_app. apply Forall_cons in Hk as [Hk _].
  rewrite fold_left_app. simpl. rewrite (IH Hq), concat_snoc.
  destruct q as [|x q]; [by rewrite os_path_join_valid|].
  rewrite os_path_join_valid; [|done|by apply concat_no_trailing_slash].
  destruct (String.eqb_spec (String.concat "/" (x :: q)) "") as [Heq|]; [|done].
  apply concat_slash_nonempty in Heq; [done|]. by apply Forall_cons in Hq as [? _].
Qed.

Lemma archive_members n s mb :
  well_formed n = true ->
  ((s, mb) ∈ tar_add n "" <->
   exists p x, get p n = Some x /\ s = String.concat "/" p /\ mb = body x).
Proof.
  intros Hwf. rewrite (tar_add_members n "" s mb Hwf). split.
  - intros (p & x & Hp & -> & ->). exists p, x. split; [done|]. split; [|done].
    apply archive_name_concat. by destruct (well_formed_get _ _ _ Hwf Hp).
  - intros (p & x & Hp & -> & ->). exists p, x. split; [done|]. split; [|done].
    symmetry. apply archive_name_concat. by destruct (well_formed_get _ _ _ Hwf Hp).
Qed.

Lemma well_formed_apg_tree E data md sums :
  well_formed (Dir data) = true -> well_formed (apg_tree E data md sums) = true.
Proof.
  intros Hwf. unfold apg_tree. apply well_formed_Dir. split; [|split].
  - apply (bool_decide_unpack _). by vm_compute.
  - repeat constructor.
  - repeat constructor. exact Hwf.
Qed.

(** ** Inversion of successful runs *)

Lemma bind_Ok_inv {A B} (m : M A) (k : A -> M B) st b st' :
  (m ≫= k) st = (Ok b, st') ->
  exists a st1, m st = (Ok a, st1) /\ k a st1 = (Ok b, st').
Proof.
  rewrite bind_eval. destruct (m st) as [[a|e] st1]; [eauto | done].
Qed.

Lemma try_finally_Ok_inv {A B} (body : M A) (final : M B) st a st' :
  try_finally body final st = (Ok a, st') ->
  exists st1 b, body st = (Ok a, st1) /\ final st1 = (Ok b, st').
Proof.
  unfold try_finally. destruct (body st) as [r st1].
  destruct (final st1) as [[b|e] st2] eqn:Hf; [|done].
  intros [= -> <-]. eauto.
Qed.

(** C7. After a successful [create_apg] on a well-formed extracted
    tree, the file at the output path holds the archive of the members
    produced by adding the archive-root directory [apg] under the empty
    name: there is a member for a name exactly when that name is the
    slash-joined path, relative to [apg] itself, of an entry of [apg]
    (file or directory, the empty path standing for [apg]), and it
    stores that entry. [apg] holds [data], [metadata.json] and
    [checksums.json], so these are the top of the archive; no member is
    named relative to the staging root ([apg/data]). *)
Theorem create_apg_archive_rooted E out st t es v st' :
  temp_dir (self st) = Some t ->
  tmpdirs (fs st) !! t = Some (Dir es) ->
  well_formed (Dir es) = true ->
  create_apg E out st = (Ok v, st') ->
  exists apg_root members data md sums,
    lookup_loc (fs st') (t, ["apg"]) = Some apg_root
    /\ apg_root = Dir [("data", Dir data); ("metadata.json", File md);
                       ("checksums.json", File sums)]
    /\ members = tar_add apg_root ""
    /\ outfiles (fs st') !! out = Some (tar_xz E members)
    /\ (forall s mb,
          (s, mb) ∈ members <->
          exists p x, get p apg_root = Some x /\ s = String.concat "/" p /\ mb = body x)
    /\ (forall mb, ("apg/data", mb) ∉ members).
Proof.
  intros Ht Hroot Hwf Hrun.
  destruct (create_apg_spec E out st t es v st' Ht Hroot Hwf Hrun)
    as (_ & _ & md & sums & _ & Htmp & Hout & _ & _).
  assert (well_formed (apg_tree E (payload_part es) md sums) = true) as Hwa.
  { by apply well_formed_apg_tree, well_formed_filter. }
  exists (apg_tree E (payload_part es) md sums), (tar_add (apg_tree E (payload_part es) md sums) ""),
         (payload_part es), (json_dump E md), (json_dump E sums).
  split.
  { unfold lookup_loc. simpl. rewrite Htmp, lookup_insert_eq. simpl.
    rewrite entry_app_notin by apply apg_not_control. by rewrite entry_head. }
  split; [done|]. split; [done|].
  split; [by rewrite Hout, lookup_insert_eq|].
  split; [intros s mb; by apply archive_members|].
  intros mb (p & x & Hp & Hs & _)%archive_members; [|done].
  assert (p = ["apg"; "data"]) as ->.
  { symmetry. apply concat_slash_inj; [by repeat constructor| |exact Hs].
    by destruct (well_formed_get _ _ _ Hwa Hp). }
  done.
Qed.

(** C8 (as amended). [create_apg] hands nothing back: whenever it
    returns, it returns [None]. The size is obtained by the caller:
    when [convert] returns, a file exists at the output path and the
    last line printed is the success message carrying the byte size of
    that file. *)
Theorem convert_reports_size E input output :
  (forall st v st', create_apg E output st = (Ok v, st') -> v = PyNone)
  /\ (forall st v st',
        convert E input output st = (Ok v, st') ->
        exists bytes,
          outfiles (fs st') !! output = Some bytes
          /\ last (tty st')
             = Some (Log success (MsgCreated output (N.of_nat (String.length bytes))))).
Proof.
  split.
  - intros st v st' Hrun. unfold create_apg in Hrun.
    apply bind_Ok_inv in Hrun as (a & st1 & _ & Hrun).
    apply bind_Ok_inv in Hrun as (? & st2 & _ & Hrun).
    apply bind_Ok_inv in Hrun as (? & st3 & _ & Hrun).
    by injection Hrun as <- _.
  - intros st v st' Hrun. unfold convert in Hrun.
    apply bind_Ok_inv in Hrun as ([] & st0 & _ & Hrun).
    apply try_finally_Ok_inv in Hrun as (st1 & b & Hbody & Hclean).
    unfold try_except in Hbody.
    match type of Hbody with
    | match ?body st0 with _ => _ end = _ => destruct (body st0) as [[a|e] st2] eqn:Hb
    end.
    2:{ destruct (is_Exception e); [|done].
        rewrite bind_eval, log_eval in Hbody. done. }
    injection Hbody as -> ->.
    apply bind_Ok_inv in Hb as (? & s1 & _ & Hb).
    apply bind_Ok_inv in Hb as (? & s2 & _ & Hb).
    apply bind_Ok_inv in Hb as (? & s3 & _ & Hb).
    apply bind_Ok_inv in Hb as (? & s4 & _ & Hb).
    apply bind_Ok_inv in Hb as (? & s5 & _ & Hb).
    apply bind_Ok_inv in Hb as (size & s6 & Hsize & Hb).
    apply bind_Ok_inv in Hb as (? & s7 & Hlog & Hb).
    unfold os_path_getsize in Hsize. rewrite bind_eval in Hsize. simpl in Hsize.
    destruct (outfiles (fs s5) !! output) as [bytes|] eqn:Hbytes; [|done].
    rewrite log_eval in Hlog. unfold mret, M_ret in Hsize, Hb. simplify_eq.
    exists bytes. revert Hclean. unfold cleanup. rewrite bind_eval. simpl.
    rewrite orb_true_r.
    destruct (temp_dir _) as [t|]; [|intros [= _ <-]; simpl; by rewrite last_snoc].
    destruct (negb (String.eqb t "")); [|intros [= _ <-]; simpl; by rewrite last_snoc].
    rewrite bind_eval. simpl.
    destruct (lookup_loc _ _); [|intros [= _ <-]; simpl; by rewrite last_snoc].
    rewrite bind_eval. unfold shutil_rmtree. rewrite bind_eval. simpl.
    destruct (tmpdirs _ !! t); [|done]. simpl. intros [= _ <-]. simpl.
    by rewrite last_snoc.
Qed.

(** ** The layout after restructuring *)

Lemma restructure_spec E st t es a st' :
  temp_dir (self st) = Some t -> tmpdirs (fs st) !! t = Some (Dir es) ->
  NoDup (names es) ->
  restructure E st = (Ok a, st') ->
  a = (t, ["apg"]) /\ ("apg" ∉ names es)
  /\ tmpdirs (fs st') = <[t := restructured es]> (tmpdirs (fs st))
  /\ outfiles (fs st') = outfiles (fs st).
Proof.
  intros Ht Hroot Hnd Hrun.
  destruct (decide (interrupt E = Some InRestructure)) as [Hint|Hint].
  { pose proof (restructure_interrupted E st Hint) as Hr. rewrite Hrun in Hr. done. }
  destruct (decide ("apg" ∈ names es)) as [Hapg|Hapg].
  { destruct (restructure_apg_exists E st t es Ht Hroot Hapg Hint) as (st1 & Hr & _).
    rewrite Hrun in Hr. done. }
  destruct (restructure_eval E st t es Ht Hroot Hnd Hapg Hint) as (st1 & Hr & _ & Ho & Htmp).
  rewrite Hrun in Hr. injection Hr as -> ->. done.
Qed.

Lemma entry_payload_part (es : listing) k :
  entry k (payload_part es) = if String.eqb k "DEBIAN" then None else entry k es.
Proof.
  induction es as [|[k' n] es IH].
  - simpl. by destruct (String.eqb k "DEBIAN").
  - unfold payload_part, is_control in *. cbn [List.filter fst negb].
    destruct (String.eqb_spec k' "DEBIAN") as [Heq|Hne]; cbn [negb entry].
    + rewrite IH. destruct (String.eqb_spec k "DEBIAN") as [Hk|Hk]; [done|].
      destruct (String.eqb_spec k' k); [congruence | done].
    + rewrite IH. destruct (String.eqb_spec k' k) as [Hk'|Hk']; [|done].
      destruct (String.eqb_spec k "DEBIAN"); [congruence | done].
Qed.

Lemma restructured_control (es : listing) :
  get ["DEBIAN"] (restructured es) = get ["DEBIAN"] (Dir es).
Proof.
  unfold restructured. simpl.
  rewrite entry_app_notin_r by (simpl; by intros ?%list_elem_of_singleton).
  by rewrite entry_control_part.
Qed.

Lemma restructured_data (es : listing) k :
  get ["apg"; "data"; k] (restructured es)
  = if String.eqb k "DEBIAN" then None else entry k es.
Proof.
  unfold restructured. simpl.
  rewrite entry_app_notin by apply apg_not_control. rewrite entry_head. simpl.
  rewrite entry_payload_part.
  destruct (String.eqb k "DEBIAN"); [done|]. by destruct (entry k es).
Qed.

Lemma restructured_top (es : listing) k :
  k <> "DEBIAN" -> k <> "apg" -> get [k] (restructured es) = None.
Proof.
  intros Hk1 Hk2. unfold restructured. cbn [get].
  rewrite entry_app_notin by (by intros ?%names_control_part).
  cbn [entry]. destruct (String.eqb_spec "apg" k); [congruence | done].
Qed.


Lemma create_apg_apg_exists E out st t es :
  temp_dir (self st) = Some t -> tmpdirs (fs st) !! t = Some (Dir es) ->
  "apg" ∈ names es -> interrupt E <> Some InRestructure ->
  exists st', create_apg E out st = (Raise FileExistsError, st') /\ fs st' = fs st.
Proof.
  intros Ht Hroot Hapg Hint.
  destruct (restructure_apg_exists E st t es Ht Hroot Hapg Hint) as (st1 & Hr & _ & Hfs).
  exists st1. split; [|done]. unfold create_apg. by erewrite bind_Raise.
Qed.

(** C10 (as amended). On a well-formed extracted tree: when a
    top-level entry is called [apg], [create_apg] raises
    [FileExistsError] on creating the archive root, with the disk as it
    was (nothing moved, no archive written). When none is, the
    restructuring step completes, a top-level entry called [DEBIAN]
    stays where it is, no entry [DEBIAN] appears under [apg/data], and
    an archive written by [create_apg] has no member [data/DEBIAN]. *)
Theorem fixed_name_entries E out st t es :
  temp_dir (self st) = Some t ->
  tmpdirs (fs st) !! t = Some (Dir es) ->
  well_formed (Dir es) = true ->
  interrupt E <> Some InRestructure ->
  ("apg" ∈ names es ->
   exists st', create_apg E out st = (Raise FileExistsError, st') /\ fs st' = fs st)
  /\ ("apg" ∉ names es ->
      (exists st1 root,
          restructure E st = (Ok (t, ["apg"]), st1)
          /\ tmpdirs (fs st1) !! t = Some root
          /\ get ["DEBIAN"] root = get ["DEBIAN"] (Dir es)
          /\ get ["apg"; "data"; "DEBIAN"] root = None)
      /\ forall v st',
           create_apg E out st = (Ok v, st') ->
           exists members,
             outfiles (fs st') !! out = Some (tar_xz E members)
             /\ forall mb, ("data/DEBIAN", mb) ∉ members).
Proof.
  intros Ht Hroot Hwf Hint. pose proof Hwf as (Hnd & _ & _)%well_formed_Dir. split.
  - intros Hapg. by eapply create_apg_apg_exists.
  - intros Hapg. split.
    + destruct (restructure_eval E st t es Ht Hroot Hnd Hapg Hint) as (st1 & Hr & _ & _ & Htmp).
      exists st1, (restructured es). split; [done|].
      split; [by rewrite Htmp, lookup_insert_eq|].
      split; [apply restructured_control | by rewrite restructured_data].
    + intros v st' Hrun.
      destruct (create_apg_spec E out st t es v st' Ht Hroot Hwf Hrun)
        as (_ & _ & md & sums & _ & _ & Hout & _ & _).
      assert (well_formed (apg_tree E (payload_part es) md sums) = true) as Hwa.
      { by apply well_formed_apg_tree, well_formed_filter. }
      exists (tar_add (apg_tree E (payload_part es) md sums) "").
      split; [by rewrite Hout, lookup_insert_eq|].
      intros mb (p & x & Hp & Hs & _)%archive_members; [|done].
      assert (p = ["data"; "DEBIAN"]) as ->.
      { symmetry. apply concat_slash_inj; [by repeat constructor| |exact Hs].
        by destruct (well_formed_get _ _ _ Hwa Hp). }
      simpl in Hp. rewrite entry_payload_part in Hp. done.
Qed.

(** ** Exit status *)


(** ** The sample package through the program *)

Example sha256_empty :
  Sha256.hexdigest "" = "e3b0c44298fc1c149afbf4c8996fb92427ae41e4649b934ca495991b7852b855".
Proof. vm_compute. reflexivity. Qed.

Example sha256_abc :
  Sha256.hexdigest "abc" = "ba7816bf8f01cfea414140de5dae2223b00361a396177a9cb410ff61f20015ad".
Proof. vm_compute. reflexivity. Qed.

Example sha256_two_blocks :
  Sha256.hexdigest "aaaaaaaaaaaaaaaaaaaaaaaaaaaaaaaaaaaaaaaaaaaaaaaaaaaaaaaaaaaaaaaaaaaaaa"
  = "6bd5e5034855a11241f0dee8fc72850ffd9955b28347a86428b5fa19119f6ad0".
Proof. vm_compute. reflexivity. Qed.

Example sample_conversion :
  let r := main (sample_env None) (Args (Some "x.deb") (Some "out.apg") false false) empty_disk in
  fst r = 0%Z
  /\ map_to_list (tmpdirs (fs (snd r))) = []
  /\ outfiles (fs (snd r)) !! "out.apg"
     = Some ";checksums.json;data;data/usr;data/usr/bin;data/usr/bin/x;metadata.json".
Proof. vm_compute. repeat split; reflexivity. Qed.

Lemma sample_create_apg_run :
  create_apg (sample_env None) "out.apg" (extracted sample_package)
  = (Ok PyNone, snd (create_apg (sample_env None) "out.apg" (extracted sample_package))).
Proof. vm_compute. reflexivity. Defined.

Lemma sample_restructure_run :
  restructure (sample_env None) (extracted sample_package)
  = (Ok ("/tmp/tmpa", ["apg"]), snd (restructure (sample_env None) (extracted sample_package))).
Proof. vm_compute. reflexivity. Defined.

Lemma sample_convert_run :
  convert (sample_env None) "x.deb" "out.apg" (started false empty_disk)
  = (Ok PyNone, snd (convert (sample_env None) "x.deb" "out.apg" (started false empty_disk))).
Proof. vm_compute. reflexivity. Defined.

Lemma sample_package_well_formed : well_formed (Dir sample_package) = true.
Proof. vm_compute. reflexivity. Defined.

(** *** Witnesses *)






Lemma create_apg_archive_rooted_witness :
  exists members,
    outfiles (fs (snd (create_apg (sample_env None) "out.apg" (extracted sample_package))))
      !! "out.apg" = Some (names_of members)
    /\ ("data/usr/bin/x", MFile "abc") ∈ members
    /\ ("data/usr", MDir) ∈ members
    /\ forall mb, ("apg/data", mb) ∉ members.
Proof.
  destruct (create_apg_archive_rooted (sample_env None) "out.apg" (extracted sample_package)
              "/tmp/tmpa" sample_package PyNone _ eq_refl eq_refl
              sample_package_well_formed sample_create_apg_run)
    as (apg & members & data & md & sums & Hl & _ & _ & Hout & Hmem & Hno).
  vm_compute in Hl. injection Hl as <-.
  exists members. split; [exact Hout|]. split; [|split; [|exact Hno]].
  - apply Hmem. exists ["data"; "usr"; "bin"; "x"], (File "abc"). repeat split; reflexivity.
  - apply Hmem. exists ["data"; "usr"], (Dir [("bin", Dir [("x", File "abc")])]).
    repeat split; reflexivity.
Defined.

Lemma convert_reports_size_witness :
  exists bytes,
    outfiles (fs (snd (convert (sample_env None) "x.deb" "out.apg" (started false empty_disk))))
      !! "out.apg" = Some bytes
    /\ last (tty (snd (convert (sample_env None) "x.deb" "out.apg"
                               (started false empty_disk))))
       = Some (Log success (MsgCreated "out.apg" (N.of_nat (String.length bytes)))).
Proof.
  exact (proj2 (convert_reports_size (sample_env None) "x.deb" "out.apg")
               (started false empty_disk) PyNone _ sample_convert_run).
Defined.


Lemma fixed_name_entries_witness :
  (exists st',
      create_apg (sample_env None) "out.apg" (extracted package_with_apg)
      = (Raise FileExistsError, st')
      /\ fs st' = fs (extracted package_with_apg))
  /\ (exists st1 root,
        restructure (sample_env None) (extracted sample_package)
        = (Ok ("/tmp/tmpa", ["apg"]), st1)
        /\ tmpdirs (fs st1) !! "/tmp/tmpa" = Some root
        /\ get ["DEBIAN"] root = Some (Dir [("control", File "Package: x")])
        /\ get ["apg"; "data"; "DEBIAN"] root = None).
Proof.
  split.
  - refine (proj1 (fixed_name_entries (sample_env None) "out.apg" (extracted package_with_apg)
                     "/tmp/tmpa" package_with_apg eq_refl eq_refl _ _) _).
    + vm_compute. reflexivity.
    + discriminate.
    + apply (bool_decide_unpack _). vm_compute. exact I.
  - refine (proj1 (proj2 (fixed_name_entries (sample_env None) "out.apg"
                            (extracted sample_package) "/tmp/tmpa" sample_package
                            eq_refl eq_refl sample_package_well_formed _) _)).
    + discriminate.
    + apply (bool_decide_unpack _). vm_compute. exact I.
Defined.


(** *** Counterexamples to the claims as first stated *)


(** C8 as stated fails: a successful [create_apg] returns [None], not
    the size of the archive it wrote. *)
Lemma create_apg_returns_no_size :
  fst (create_apg (sample_env None) "out.apg" (extracted sample_package)) = Ok PyNone
  /\ exists bytes,
       outfiles (fs (snd (create_apg (sample_env None) "out.apg" (extracted sample_package))))
         !! "out.apg" = Some bytes
       /\ fst (create_apg (sample_env None) "out.apg" (extracted sample_package))
          <> Ok (PyInt (N.of_nat (String.length bytes))).
Proof.
  split; [vm_compute; reflexivity|].
  exists ";checksums.json;data;data/usr;data/usr/bin;data/usr/bin/x;metadata.json".
  split; [vm_compute; reflexivity|]. vm_compute. discriminate.
Qed.


(** C10 as stated fails: a payload entry called [apg] is not passed
    over in silence; the restructuring step, and [create_apg] with it,
    raises [FileExistsError]. *)
Lemma payload_apg_entry_raises :
  entry "apg" package_with_apg = Some (File "payload")
  /\ well_formed (Dir package_with_apg) = true
  /\ fst (restructure (sample_env None) (extracted package_with_apg)) = Raise FileExistsError
  /\ fst (create_apg (sample_env None) "out.apg" (extracted package_with_apg))
     = Raise FileExistsError.
Proof. repeat split; vm_compute; reflexivity. Qed.

(** * Further properties *)

(** ** Footprint of a run on the converter, the terminal and the output *)

Lemma evolves_quietly out st st' :
  self st' = self st -> tty st' = tty st ->
  (forall f, f <> out -> outfiles (fs st') !! f = outfiles (fs st) !! f) ->
  evolves out st st'.
Proof.
  intros Hs Ht Ho. unfold evolves. rewrite Hs. repeat split; try done.
  exists []. split; [by rewrite Ht, app_nil_r|]. split; [intros _|]; by constructor.
Qed.

Lemma progress_within_mono lo hi lo' hi' total o :
  lo' <= lo -> hi <= hi' -> progress_within lo hi total o -> progress_within lo' hi' total o.
Proof. intros H1 H2. destruct o; simpl; try done. lia. Qed.

Lemma evolves_trans out st1 st2 st3 :
  evolves out st1 st2 -> evolves out st2 st3 -> evolves out st1 st3.
Proof.
  intros (V1 & R1 & T1 & C1 & O1 & l1 & L1 & F1 & P1) (V2 & R2 & T2 & C2 & O2 & l2 & L2 & F2 & P2).
  repeat split; try congruence.
  - lia.
  - intros f Hf. by rewrite O2, O1.
  - exists (l1 ++ l2). split; [by rewrite L2, L1, app_assoc|]. split.
    + intros Hv. apply Forall_app. split; [by apply F1 | apply F2; congruence].
    + apply Forall_app. split.
      * eapply Forall_impl; [exact P1|]. intros o. apply progress_within_mono; lia.
      * rewrite T1 in P2. eapply Forall_impl; [exact P2|]. intros o.
        apply progress_within_mono; lia.
Qed.

Lemma ticks_silent {A} out (m : M A) : silent m -> ticks out 0 m.
Proof.
  intros Hs st. destruct (Hs st) as (H1 & H2 & H3).
  split; [|rewrite H1; split; [lia|intros; lia]].
  apply evolves_quietly; try done. intros f _. by rewrite H3.
Qed.

Lemma ticks_bind {A B} out n1 n2 (m : M A) (k : A -> M B) :
  ticks out n1 m -> (forall a, ticks out n2 (k a)) -> ticks out (n1 + n2) (m ≫= k).
Proof.
  intros Hm Hk st. rewrite bind_eval. destruct (Hm st) as (E1 & U1 & X1).
  destruct (m st) as [[a|e] st1]; simpl in *.
  - destruct (Hk a st1) as (E2 & U2 & X2). specialize (X1 a eq_refl).
    split; [by eapply evolves_trans|]. split; [lia|].
    intros b Hb. specialize (X2 b Hb). lia.
  - split; [done|]. split; [lia|done].
Qed.

Lemma ticks_bind_0 {A B} out n (m : M A) (k : A -> M B) :
  ticks out 0 m -> (forall a, ticks out n (k a)) -> ticks out n (m ≫= k).
Proof. intros Hm Hk. by apply (ticks_bind out 0 n). Qed.

Lemma ticks_ret {A} out (a : A) : ticks out 0 (mret a).
Proof. apply ticks_silent. by intros st. Qed.

Lemma ticks_raise {A} out e : ticks out 0 (@raise A e).
Proof. apply ticks_silent. by intros st. Qed.

Lemma raises_raise {A} e : raises (@raise A e).
Proof. intros st. by exists e. Qed.

Lemma raises_bind_r {A B} (m : M A) (k : A -> M B) :
  (forall a, raises (k a)) -> raises (m ≫= k).
Proof.
  intros Hk st. rewrite bind_eval. destruct (m st) as [[a|e] st1]; [apply Hk | by exists e].
Qed.

Lemma ticks_try_except {A} out n (body : M A) handler :
  ticks out n body ->
  (forall e h, handler e = Some h -> ticks out 0 h /\ raises h) ->
  ticks out n (try_except body handler).
Proof.
  intros Hb Hh st. unfold try_except. destruct (Hb st) as (E1 & U1 & X1).
  destruct (body st) as [[a|e] st1]; simpl in *; [done|].
  destruct (handler e) as [h|] eqn:He; simpl.
  - destruct (Hh e h He) as [Ht Hr]. destruct (Ht st1) as (E2 & U2 & _).
    destruct (Hr st1) as [e' He'].
    split; [by eapply evolves_trans|]. split; [lia|].
    intros a Ha. congruence.
  - done.
Qed.

Lemma ticks_try_finally {A B} out n (body : M A) (final : M B) :
  ticks out n body -> ticks out 0 final -> ticks out n (try_finally body final).
Proof.
  intros Hb Hf st. unfold try_finally. destruct (Hb st) as (E1 & U1 & X1).
  destruct (body st) as [r st1]. simpl in *.
  destruct (Hf st1) as (E2 & U2 & X2).
  destruct (final st1) as [[b|e] st2]; simpl in *.
  - split; [by eapply evolves_trans|]. split; [lia|].
    intros a ->. specialize (X1 a eq_refl). specialize (X2 b eq_refl). lia.
  - split; [by eapply evolves_trans|]. split; [lia|done].
Qed.

Lemma silent_bind {A B} (m : M A) (k : A -> M B) :
  silent m -> (forall a, silent (k a)) -> silent (m ≫= k).
Proof.
  intros Hm Hk st. rewrite bind_eval. destruct (Hm st) as (H1 & H2 & H3).
  destruct (m st) as [[a|e] st1]; simpl in *; [|done].
  destruct (Hk a st1) as (H4 & H5 & H6). repeat split; congruence.
Qed.

Lemma silent_ret {A} (a : A) : silent (mret a).
Proof. by intros st. Qed.

Lemma silent_raise {A} e : silent (@raise A e).
Proof. by intros st. Qed.

Lemma silent_get_self : silent get_self.
Proof. by intros st. Qed.

Lemma silent_poll E p : silent (poll E p).
Proof. unfold poll. case_decide; [apply silent_raise | apply silent_ret]. Qed.

Lemma silent_os_path_exists l : silent (os_path_exists l).
Proof. by intros st. Qed.

Lemma silent_update_tree t f : silent (update_tree t f).
Proof.
  intros st. unfold update_tree. rewrite bind_eval. simpl.
  destruct (tmpdirs (fs st) !! t) as [root|]; [|done]. by destruct (f root).
Qed.

Lemma silent_os_makedirs l : silent (os_makedirs l).
Proof.
  intros st. unfold os_makedirs. rewrite bind_eval. simpl.
  destruct (tmpdirs (fs st) !! fst l); [apply silent_update_tree | done].
Qed.

Lemma silent_os_listdir l : silent (os_listdir l).
Proof.
  intros st. unfold os_listdir. rewrite bind_eval. simpl.
  by destruct (lookup_loc (fs st) l) as [[?|?]|].
Qed.

Lemma silent_read_bytes l : silent (read_bytes l).
Proof.
  intros st. unfold read_bytes. rewrite bind_eval. simpl.
  by destruct (lookup_loc (fs st) l) as [[?|?]|].
Qed.

Lemma silent_read_file_text E l : silent (read_file_text E l).
Proof.
  unfold read_file_text. apply silent_bind; [apply silent_read_bytes|]. intros b.
  destruct (read_text E b); [apply silent_ret | apply silent_raise].
Qed.

Lemma silent_walk l : silent (walk l).
Proof. by intros st. Qed.

Lemma silent_shutil_rmtree t : silent (shutil_rmtree t).
Proof.
  intros st. unfold shutil_rmtree. rewrite bind_eval. simpl.
  by destruct (tmpdirs (fs st) !! t).
Qed.

Lemma silent_mkdtemp E : silent (mkdtemp E).
Proof.
  intros st. unfold mkdtemp. rewrite bind_eval. simpl. by destruct (find _ _).
Qed.

Lemma silent_os_path_getsize f : silent (os_path_getsize f).
Proof.
  intros st. unfold os_path_getsize. rewrite bind_eval. simpl.
  by destruct (outfiles (fs st) !! f).
Qed.

Lemma silent_subprocess_run cp : silent (subprocess_run cp).
Proof. unfold subprocess_run. destruct (_ =? _)%Z; [apply silent_ret | apply silent_raise]. Qed.

Lemma silent_temp_dir_join name : silent (temp_dir_join name).
Proof.
  intros st. unfold temp_dir_join. rewrite bind_eval. simpl. by destruct (temp_dir (self st)).
Qed.

Lemma silent_cleanup : silent cleanup.
Proof.
  intros st. unfold cleanup. rewrite bind_eval. simpl.
  destruct (temp_dir (self st)) as [t|]; [|done].
  destruct (negb (String.eqb t "")); [|done].
  rewrite bind_eval. simpl. destruct (lookup_loc _ _); [|done].
  rewrite bind_eval. destruct (silent_shutil_rmtree t st) as (H1 & H2 & H3).
  by destruct (shutil_rmtree t st) as [[[]|e] st1].
Qed.

Lemma ticks_print out o :
  loud o = true -> (forall s t x, o <> Progress s t x) -> ticks out 0 (print o).
Proof.
  intros Ho Hp st. simpl. split; [|split; [lia|intros; lia]].
  repeat split; try done. exists [o]. split; [done|]. split; [intros _|]; repeat constructor.
  - done.
  - destruct o; try done. by destruct (Hp step total text).
Qed.

Lemma ticks_log out m lv : ticks out 0 (log m lv).
Proof.
  intros st. rewrite log_eval. simpl. split; [|split; [lia|intros; lia]].
  repeat split; try done. eexists. split; [reflexivity|]. split.
  - intros ->. simpl. destruct lv; simpl; repeat constructor.
  - destruct (_ || _); by repeat constructor.
Qed.

Lemma ticks_update_progress out text : ticks out 1 (update_progress text).
Proof.
  intros st. rewrite update_progress_eval. simpl.
  split; [|split; [lia|intros; lia]].
  repeat split; try done; [simpl; lia|]. eexists. split; [reflexivity|].
  split; [intros _|]; repeat constructor; simpl; lia.
Qed.

Lemma ticks_validate_deb E out input_file : ticks out 0 (validate_deb E input_file).
Proof.
  unfold validate_deb.
  destruct (negb (path_exists E input_file)); [apply ticks_raise|].
  destruct (negb (endswith input_file ".deb")); [apply ticks_raise|].
  apply ticks_try_except.
  - apply ticks_bind_0; [apply ticks_silent, silent_poll | intros _].
    apply ticks_bind_0; [apply ticks_silent, silent_subprocess_run | intros _].
    apply ticks_bind_0; [apply ticks_silent, silent_subprocess_run | intros _].
    apply ticks_bind_0; [apply ticks_log | intros _]. apply ticks_ret.
  - intros e h He. destruct e; simplify_eq. split; [apply ticks_raise | apply raises_raise].
Qed.

Lemma silent_dpkg_deb_extract E input_file t : silent (dpkg_deb_extract E input_file t).
Proof.
  unfold dpkg_deb_extract.
  apply silent_bind; [apply silent_update_tree | intros _; apply silent_subprocess_run].
Qed.

Lemma ticks_set_temp_dir {B} out n t (k : M B) :
  ticks out n k ->
  ticks out n
    (c ← get_self;
     set_self {| verbose := verbose c; temp_dir := Some t; version := version c;
                 total_steps := total_steps c; current_step := current_step c |};;
     k).
Proof.
  intros Hk st. rewrite bind_eval. cbn [get_self fst snd]. rewrite bind_eval.
  cbn [set_self fst snd].
  match goal with |- context [k ?s] => destruct (Hk s) as (Ev & U & X) end.
  cbn [self fs tty current_step] in *. split; [|done].
  eapply evolves_trans; [|exact Ev].
  repeat split; try done. exists []. split; [by rewrite app_nil_r|].
  split; [intros _|]; by constructor.
Qed.

Lemma ticks_extract_deb E out input_file : ticks out 1 (extract_deb E input_file).
Proof.
  unfold extract_deb.
  apply ticks_bind_0; [apply ticks_log | intros _].
  apply (ticks_bind out 1 0); [apply ticks_update_progress | intros _].
  apply ticks_bind_0; [apply ticks_silent, silent_poll | intros _].
  apply ticks_bind_0; [apply ticks_silent, silent_mkdtemp | intros t].
  apply ticks_set_temp_dir.
  apply ticks_try_except.
  - apply ticks_bind_0; [apply ticks_silent, silent_poll | intros _].
    apply ticks_bind_0; [apply ticks_silent, silent_dpkg_deb_extract | intros _].
    apply ticks_ret.
  - intros e h He. destruct e; simplify_eq. split.
    + apply ticks_bind_0; [apply ticks_silent, silent_cleanup | intros _; apply ticks_raise].
    + apply raises_bind_r. intros _. apply raises_raise.
Qed.

Lemma silent_foldM {A B} (body : B -> A -> M B) xs : forall acc,
  (forall acc x, silent (body acc x)) -> silent (foldM body acc xs).
Proof.
  induction xs as [|x xs IH]; intros acc H; simpl.
  - apply silent_ret.
  - apply silent_bind; [apply H | intros a; by apply IH].
Qed.

Lemma silent_read_control E debian_dir metadata file :
  silent (read_control E debian_dir metadata file).
Proof.
  unfold read_control. apply silent_bind; [apply silent_os_path_exists | intros [|]].
  - apply silent_bind; [apply silent_read_file_text | intros text; apply silent_ret].
  - apply silent_ret.
Qed.

Lemma ticks_generate_metadata E out : ticks out 1 (generate_metadata E).
Proof.
  unfold generate_metadata.
  apply (ticks_bind out 1 0); [apply ticks_update_progress | intros _].
  apply ticks_silent.
  apply silent_bind; [apply silent_temp_dir_join | intros debian_dir].
  apply silent_bind; [apply silent_get_self | intros c].
  apply silent_foldM. intros acc x. apply silent_read_control.
Qed.

Lemma ticks_calculate_checksums out directory : ticks out 1 (calculate_checksums directory).
Proof.
  unfold calculate_checksums.
  apply (ticks_bind out 1 0); [apply ticks_update_progress | intros _].
  apply ticks_silent.
  apply silent_bind; [apply silent_walk | intros triples].
  apply silent_foldM. intros acc triple. unfold checksum_dir.
  apply silent_foldM. intros acc' file. unfold checksum_file.
  apply silent_bind; [apply silent_read_bytes | intros b; apply silent_ret].
Qed.

Lemma silent_move_item data_source data_dest item :
  silent (move_item data_source data_dest item).
Proof.
  unfold move_item. destruct (_ && _); [apply silent_update_tree | apply silent_ret].
Qed.

Lemma ticks_restructure E out : ticks out 0 (restructure E).
Proof.
  unfold restructure.
  apply ticks_bind_0; [apply ticks_log | intros _].
  apply ticks_silent.
  apply silent_bind; [apply silent_poll | intros _].
  apply silent_bind; [apply silent_temp_dir_join | intros apg_root].
  apply silent_bind; [apply silent_os_makedirs | intros _].
  apply silent_bind; [apply silent_os_makedirs | intros _].
  apply silent_bind; [apply silent_os_listdir | intros items].
  apply silent_bind; [|intros _; apply silent_ret].
  unfold for_each. apply silent_foldM. intros [] item. apply silent_move_item.
Qed.

Lemma ticks_write_records E out apg_root : ticks out 2 (write_records E apg_root).
Proof.
  unfold write_records.
  apply ticks_bind_0; [apply ticks_silent, silent_poll | intros _].
  apply ticks_bind_0; [apply ticks_silent, silent_update_tree | intros _].
  apply (ticks_bind out 1 1); [apply ticks_generate_metadata | intros metadata].
  apply ticks_bind_0; [apply ticks_silent, silent_update_tree | intros _].
  apply ticks_bind_0; [apply ticks_silent, silent_update_tree | intros _].
  apply (ticks_bind out 1 0); [apply ticks_calculate_checksums | intros checksums].
  apply ticks_silent, silent_update_tree.
Qed.

Lemma ticks_pack E apg_root output_file : ticks output_file 1 (pack E apg_root output_file).
Proof.
  unfold pack.
  apply (ticks_bind output_file 1 0); [apply ticks_update_progress | intros _].
  apply ticks_bind_0; [apply ticks_silent, silent_poll | intros _].
  destruct (open_for_writing E output_file); [apply ticks_raise|].
  intros st. rewrite bind_eval. cbn [get_fs fst snd].
  assert (Ev : forall b, evolves output_file st
    {| self := self st;
       fs := {| tmpdirs := tmpdirs (fs st); outfiles := <[output_file := b]> (outfiles (fs st)) |};
       tty := tty st |}).
  { intros b. apply evolves_quietly; try done.
    intros f Hf. cbn [fs outfiles]. by rewrite lookup_insert_ne. }
  destruct (lookup_loc (fs st) apg_root); simpl.
  - split; [apply Ev|]. split; [lia|intros; lia].
  - split; [apply Ev|]. split; [lia|intros; lia].
Qed.

Lemma ticks_create_apg E output_file : ticks output_file 3 (create_apg E output_file).
Proof.
  unfold create_apg.
  apply (ticks_bind output_file 0 3); [apply ticks_restructure | intros apg_root].
  apply (ticks_bind output_file 2 1); [apply ticks_write_records | intros _].
  apply (ticks_bind output_file 1 0); [apply ticks_pack | intros _]. apply ticks_ret.
Qed.

Lemma ticks_stages E input_file output_file :
  ticks output_file 4
    (print (Line "Starting conversion process:");;
     validate_deb E input_file;; extract_deb E input_file;; create_apg E output_file;;
     poll E InReport;;
     size ← os_path_getsize output_file;
     log (MsgCreated output_file size) success;; mret PyNone).
Proof.
  apply ticks_bind_0; [by apply ticks_print | intros _].
  apply ticks_bind_0; [apply ticks_validate_deb | intros _].
  apply (ticks_bind output_file 1 3); [apply ticks_extract_deb | intros _].
  apply (ticks_bind output_file 3 0); [apply ticks_create_apg | intros _].
  apply ticks_bind_0; [apply ticks_silent, silent_poll | intros _].
  apply ticks_bind_0; [apply ticks_silent, silent_os_path_getsize | intros size].
  apply ticks_bind_0; [apply ticks_log | intros _]. apply ticks_ret.
Qed.

Lemma ticks_convert E input_file output_file :
  ticks output_file 4 (convert E input_file output_file).
Proof.
  unfold convert.
  apply ticks_bind_0.
  { unfold print_banner. intros st.
    by apply (ticks_print output_file (Banner (version (self st)))). }
  intros _. apply ticks_try_finally; [|apply ticks_silent, silent_cleanup].
  apply ticks_try_except; [apply ticks_stages|].
  intros e h He. destruct (is_Exception e); simplify_eq. split.
  - apply ticks_bind_0; [apply ticks_log | intros _; apply ticks_raise].
  - apply raises_bind_r. intros _. apply raises_raise.
Qed.

(** X1. Progress accounting of [convert].  Whatever happens, [convert]
    advances the progress counter by at most four steps and never
    moves it back, and it has advanced it by exactly four when it
    returns; every progress line it prints is numbered above the
    counter it started from and at most four above it, out of the
    unchanged [total_steps].  The counter is not reset by [convert]:
    the bounds are relative to the value the converter had at the call. *)
Theorem convert_progress E input_file output_file st :
  let run := convert E input_file output_file st in
  total_steps (self (snd run)) = total_steps (self st)
  /\ current_step (self st) <= current_step (self (snd run))
  /\ current_step (self (snd run)) <= current_step (self st) + 4
  /\ (forall v, fst run = Ok v -> current_step (self (snd run)) = current_step (self st) + 4)
  /\ exists l, tty (snd run) = tty st ++ l
               /\ Forall (progress_within (current_step (self st))
                            (current_step (self st) + 4) (total_steps (self st))) l.
Proof.
  intros run. subst run.
  destruct (ticks_convert E input_file output_file st)
    as ((_ & _ & T & C & _ & l & L & _ & P) & U & X).
  split; [done|]. split; [done|]. split; [done|]. split; [done|].
  exists l. split; [done|]. eapply Forall_impl; [exact P|].
  intros o. apply progress_within_mono; lia.
Qed.

Lemma convert_progress_aux E input_file output_file st :
  current_step (self st) = 0 -> total_steps (self st) = 4 -> tty st = [] ->
  let run := convert E input_file output_file st in
  total_steps (self (snd run)) = 4
  /\ (forall v, fst run = Ok v -> current_step (self (snd run)) = 4)
  /\ Forall (progress_within 0 4 4) (tty (snd run)).
Proof.
  intros Hc Ht Hy run. subst run.
  destruct (ticks_convert E input_file output_file st)
    as ((_ & _ & T & C & _ & l & L & _ & P) & U & X).
  rewrite Hc, Ht in *. split; [done|]. split; [intros v Hv; by rewrite (X v Hv)|].
  rewrite L, Hy. simpl. eapply Forall_impl; [exact P|].
  intros o. apply progress_within_mono; lia.
Qed.

(** X2. The progress bar of the program.  In every run of [main] the
    progress lines that reach the terminal are numbered from 1 to 4 out
    of 4, so the percentage shown never passes 100; and a run that
    converts a package and exits with status 0 ends with the counter
    equal to [total_steps]. *)
Theorem main_progress_bar E args d :
  Forall (progress_within 0 4 4) (tty (snd (main E args d)))
  /\ (arg_version args = false -> fst (main E args d) = 0%Z ->
      current_step (self (snd (main E args d))) = total_steps (self (snd (main E args d)))).
Proof.
  unfold main. destruct (arg_version args); [split; [by repeat constructor | done]|].
  destruct (negb (given (arg_input args)) || negb (given (arg_output args)));
    [split; [by repeat constructor | done]|].
  destruct (convert_progress_aux E (default "" (arg_input args)) (default "" (arg_output args))
              (started (arg_verbose args) d) eq_refl eq_refl eq_refl) as (T & X & P).
  destruct (convert E _ _ _) as [[v|e] st'] eqn:Hrun; cbn [fst snd] in *.
  - split; [done|]. intros _ _. rewrite T. by rewrite (X v eq_refl).
  - assert (He : forall o, Forall (progress_within 0 4 4) [o] ->
                 Forall (progress_within 0 4 4) (tty st' ++ [o])).
    { intros o Ho. by apply Forall_app. }
    destruct e; simpl; (split; [|done]);
      try (apply He; by repeat constructor).
    apply Forall_app. split; [|by repeat constructor].
    apply He. by repeat constructor.
Qed.

(** X3. The only caller-chosen path [convert] writes is the output
    path: whatever the outcome, every other file is as it was. *)
Theorem convert_writes_only_output E input_file output_file st f :
  f <> output_file ->
  outfiles (fs (snd (convert E input_file output_file st))) !! f = outfiles (fs st) !! f.
Proof.
  intros Hf.
  destruct (ticks_convert E input_file output_file st) as ((_ & _ & _ & _ & O & _) & _).
  by apply O.
Qed.

(** X4. Without [-v], [convert] prints no [info] and no [process]
    message: the terminal keeps what it held and gains only the banner,
    the heading, progress lines and messages of level [success],
    [warning] or [error]. *)
Theorem convert_not_verbose E input_file output_file st :
  verbose (self st) = false ->
  exists l, tty (snd (convert E input_file output_file st)) = tty st ++ l
            /\ Forall (fun o => loud o = true) l.
Proof.
  intros Hv.
  destruct (ticks_convert E input_file output_file st)
    as ((_ & _ & _ & _ & _ & l & L & F & _) & _).
  exists l. split; [done | by apply F].
Qed.

(** ** [cleanup] *)

Lemma cleanup_eval st :
  cleanup st =
  (Ok PyNone,
   {| self := self st;
      fs := {| tmpdirs := match temp_dir (self st) with
                          | Some t => if String.eqb t "" then tmpdirs (fs st)
                                      else delete t (tmpdirs (fs st))
                          | None => tmpdirs (fs st)
                          end;
               outfiles := outfiles (fs st) |};
      tty := tty st |}).
Proof.
  destruct st as [c [tmp out] o]. unfold cleanup. rewrite bind_eval. cbn [get_self fst snd self].
  destruct (temp_dir c) as [t|]; [|done].
  destruct (String.eqb t ""); [done|]. cbn [negb].
  rewrite bind_eval. unfold os_path_exists. rewrite bind_eval. cbn [get_fs fst snd fs].
  unfold lookup_loc. cbn [fst snd tmpdirs].
  destruct (tmp !! t) as [root|] eqn:Ht; simpl.
  - rewrite bind_eval. unfold shutil_rmtree. rewrite bind_eval. cbn [get_fs fst snd fs tmpdirs].
    by rewrite Ht.
  - by rewrite delete_id.
Qed.


(** ** [extract_deb] *)

Lemma extract_deb_ok E input st name :
  interrupt E <> Some InMkdtemp -> interrupt E <> Some InUnpack ->
  find (fun name => bool_decide (tmpdirs (fs st) !! tmp_path name = None)) (tmp_names E)
    = Some name ->
  returncode (snd (dpkg_deb_R E input)) = 0%Z ->
  exists st',
    extract_deb E input st = (Ok PyNone, st')
    /\ tmpdirs (fs st) !! tmp_path name = None
    /\ temp_dir (self st') = Some (tmp_path name)
    /\ version (self st') = version (self st)
    /\ tmpdirs (fs st') = <[tmp_path name := Dir (fst (dpkg_deb_R E input))]> (tmpdirs (fs st))
    /\ outfiles (fs st') = outfiles (fs st)
    /\ current_step (self st') = S (current_step (self st)).
Proof.
  intros Hi1 Hi2 Hfind Hrc. unfold extract_deb.
  erewrite bind_Ok; [|apply log_eval].
  erewrite bind_Ok; [|apply update_progress_eval].
  erewrite bind_Ok; [|by apply poll_eval].
  erewrite bind_Ok; [|by apply mkdtemp_eval].
  rewrite bind_eval. simpl. rewrite bind_eval. simpl.
  pose proof Hfind as [_ Hfree%bool_decide_eq_true]%find_some.
  unfold try_except.
  erewrite bind_Ok; [|by apply poll_eval].
  erewrite bind_Ok.
  2:{ unfold dpkg_deb_extract. erewrite bind_Ok.
      - by apply subprocess_run_ok.
      - unfold update_tree. rewrite bind_eval. simpl. rewrite lookup_insert_eq. reflexivity. }
  eexists. split; [reflexivity|]. simpl. by rewrite insert_insert_eq.
Qed.

Lemma tmp_path_nonempty name : tmp_path name <> "".
Proof. done. Qed.

(** X6. When [dpkg-deb -R] exits with status 0, [extract_deb] returns
    [None] with the converter remembering a temporary directory that
    did not exist before the call (the first free candidate name), now
    holding exactly the tree the tool unpacked; every other temporary
    directory and every file at a caller-chosen path is as it was, and
    the progress counter has advanced by one. *)
Theorem extract_deb_unpacks E input st name :
  interrupt E <> Some InMkdtemp -> interrupt E <> Some InUnpack ->
  find (fun name => bool_decide (tmpdirs (fs st) !! tmp_path name = None)) (tmp_names E)
    = Some name ->
  returncode (snd (dpkg_deb_R E input)) = 0%Z ->
  exists st',
    extract_deb E input st = (Ok PyNone, st')
    /\ tmpdirs (fs st) !! tmp_path name = None
    /\ temp_dir (self st') = Some (tmp_path name)
    /\ tmpdirs (fs st') = <[tmp_path name := Dir (fst (dpkg_deb_R E input))]> (tmpdirs (fs st))
    /\ outfiles (fs st') = outfiles (fs st)
    /\ current_step (self st') = S (current_step (self st)).
Proof.
  intros Hi1 Hi2 Hfind Hrc.
  destruct (extract_deb_ok E input st name Hi1 Hi2 Hfind Hrc)
    as (st' & Hrun & Hfree & Ht & _ & Htmp & Hout & Hstep).
  by exists st'.
Qed.

(** X7. An interrupt that arrives while the package is being unpacked
    is not handled by [extract_deb]: it raises [KeyboardInterrupt] and
    leaves the temporary directory it has just created on disk, with
    the converter remembering it; removing it is left to the caller. *)
Theorem extract_deb_interrupted E input st name :
  interrupt E = Some InUnpack ->
  find (fun name => bool_decide (tmpdirs (fs st) !! tmp_path name = None)) (tmp_names E)
    = Some name ->
  exists st',
    extract_deb E input st = (Raise KeyboardInterrupt, st')
    /\ temp_dir (self st') = Some (tmp_path name)
    /\ tmpdirs (fs st') = <[tmp_path name := Dir []]> (tmpdirs (fs st))
    /\ tmpdirs (fs st) !! tmp_path name = None.
Proof.
  intros Hi Hfind. unfold extract_deb.
  erewrite bind_Ok; [|apply log_eval].
  erewrite bind_Ok; [|apply update_progress_eval].
  erewrite bind_Ok; [|apply poll_eval; congruence].
  erewrite bind_Ok; [|by apply mkdtemp_eval].
  rewrite bind_eval. simpl. rewrite bind_eval. simpl.
  pose proof Hfind as [_ Hfree%bool_decide_eq_true]%find_some.
  unfold try_except.
  erewrite bind_Raise; [|by apply poll_interrupted].
  eexists. split; [reflexivity|]. done.
Qed.

(** X8. When every candidate name [mkdtemp] tries is taken,
    [extract_deb] raises [FileExistsError]; the disk is as it was and
    the converter remembers no new directory. *)
Theorem extract_deb_no_free_name E input st :
  interrupt E <> Some InMkdtemp ->
  Forall (fun name => is_Some (tmpdirs (fs st) !! tmp_path name)) (tmp_names E) ->
  exists st',
    extract_deb E input st = (Raise FileExistsError, st')
    /\ fs st' = fs st /\ temp_dir (self st') = temp_dir (self st).
Proof.
  intros Hi Hall. unfold extract_deb.
  erewrite bind_Ok; [|apply log_eval].
  erewrite bind_Ok; [|apply update_progress_eval].
  erewrite bind_Ok; [|by apply poll_eval].
  erewrite bind_Raise.
  2:{ unfold mkdtemp. rewrite bind_eval. simpl.
      destruct (find _ _) as [name|] eqn:Hfind; [|reflexivity].
      apply find_some in Hfind as [Hin Hfree%bool_decide_eq_true].
      apply list_elem_of_In in Hin. rewrite Forall_forall in Hall.
      destruct (Hall name Hin) as [x Hx]. congruence. }
  eexists. split; [reflexivity|]. done.
Qed.

(** ** The two records, further *)


(** X10. A metadata record has no other field than the four stamps
    and the seven control-file names: whatever else the [DEBIAN]
    directory holds ([md5sums], [shlibs], ...) is left out. *)
Theorem generate_metadata_keys E st md st' k :
  generate_metadata E st = (Ok md, st') ->
  is_Some (md !! k) ->
  k ∈ ["author"; "converter"; "converter_version"; "created"] ++ control_files.
Proof.
  intros Hrun Hk. apply elem_of_app.
  destruct (decide (k ∈ control_files)) as [Hc|Hc]; [by right|]. left.
  destruct (temp_dir (self st)) as [t|] eqn:Ht.
  - rewrite (generate_metadata_eval E st t Ht) in Hrun.
    apply read_controls_inv in Hrun as (_ & Hout & _); [|apply NoDup_control_files].
    rewrite (Hout k Hc) in Hk.
    destruct (decide (k = "author")) as [->|N1]; [set_solver|].
    destruct (decide (k = "converter")) as [->|N2]; [set_solver|].
    destruct (decide (k = "converter_version")) as [->|N3]; [set_solver|].
    destruct (decide (k = "created")) as [->|N4]; [set_solver|].
    rewrite !lookup_insert_ne in Hk by done. rewrite lookup_empty in Hk. by destruct Hk.
  - unfold generate_metadata in Hrun. rewrite bind_eval, update_progress_eval in Hrun.
    cbn [fst snd] in Hrun. unfold temp_dir_join in Hrun. rewrite !bind_eval in Hrun.
    simpl in Hrun. rewrite Ht in Hrun. done.
Qed.

(** X11. The methods that work on the staging directory need
    [extract_deb] to have run: on a converter that remembers no
    temporary directory, [create_apg] and [generate_metadata] raise
    [TypeError] (from [os.path.join] on [None]) and leave the disk as
    it was. *)
Theorem staging_methods_need_extraction E out st :
  temp_dir (self st) = None -> interrupt E <> Some InRestructure ->
  (exists st', create_apg E out st = (Raise TypeError, st') /\ fs st' = fs st)
  /\ (exists st', generate_metadata E st = (Raise TypeError, st') /\ fs st' = fs st).
Proof.
  intros Ht Hint.
  assert (Hjoin : forall name s, temp_dir (self s) = None ->
                    temp_dir_join name s = (Raise TypeError, s)).
  { intros name s Hs. unfold temp_dir_join. rewrite bind_eval. simpl. by rewrite Hs. }
  split.
  - unfold create_apg. erewrite bind_Raise.
    2:{ unfold restructure. erewrite bind_Ok; [|apply log_eval].
        erewrite bind_Ok; [|by apply poll_eval].
        erewrite bind_Raise; [reflexivity|]. by apply Hjoin. }
    eexists. split; [reflexivity|]. done.
  - unfold generate_metadata. erewrite bind_Ok; [|apply update_progress_eval].
    erewrite bind_Raise; [|by apply Hjoin]. eexists. split; [reflexivity|]. done.
Qed.

(** ** What the archive says about the package *)

(** The members below [data] are the entries of the payload, under
    their own relative paths. *)
Lemma data_members E data md sums s mb :
  well_formed (Dir data) = true ->
  (("data/" +:+ s, mb) ∈ tar_add (apg_tree E data md sums) "" <->
   exists k q x, get (k :: q) (Dir data) = Some x
                 /\ s = String.concat "/" (k :: q) /\ mb = body x).
Proof.
  intros Hwf. pose proof (well_formed_apg_tree E data md sums Hwf) as Hwa.
  rewrite (archive_members _ _ _ Hwa). split.
  - intros (p & x & Hp & Hs & ->).
    destruct (well_formed_get _ _ _ Hwa Hp) as [_ Hv].
    destruct p as [|a [|k q]].
    + done.
    + apply Forall_cons in Hv as [[_ Ha]%valid_name_inv _].
      exact (False_ind _ (slash_free_no_slash a "data" s Ha (eq_sym Hs))).
    + apply Forall_cons in Hv as [[_ Ha]%valid_name_inv _].
      rewrite concat_cons2 in Hs.
      destruct (slash_split "data" a s _ eq_refl Ha Hs) as [<- ->].
      exists k, q, x. split; [|done]. exact Hp.
  - intros (k & q & x & Hp & -> & ->). exists ("data" :: k :: q), x. split; [exact Hp | done].
Qed.



(** ** The order of a listing does not reach the archive *)

Lemma leb_trans (a b c : string) :
  String.leb a b = true -> String.leb b c = true -> String.leb a c = true.
Proof.
  intros H1%Is_true_true H2%Is_true_true. apply Is_true_true.
  exact (transitivity (R := String.le) H1 H2).
Qed.

Lemma leb_false (a b : string) : String.leb a b = false -> String.leb b a = true.
Proof. intros H. destruct (String.leb_total a b); congruence. Qed.

Lemma leb_strict (a b : string) :
  a <> b -> String.leb a b = true -> String.leb b a = false.
Proof.
  intros Hne H. destruct (String.leb b a) eqn:H'; [|done].
  destruct Hne. by apply String.leb_antisym.
Qed.

Lemma insert_by_name_comm {A} (x y : string * A) l :
  fst x <> fst y ->
  insert_by_name x (insert_by_name y l) = insert_by_name y (insert_by_name x l).
Proof.
  intros Hxy.
  induction l as [|z l IH]; simpl.
  - destruct (String.leb (fst x) (fst y)) eqn:Hle.
    + by rewrite (leb_strict _ _ Hxy Hle).
    + by rewrite (leb_false _ _ Hle).
  - destruct (String.leb (fst y) (fst z)) eqn:Hyz, (String.leb (fst x) (fst z)) eqn:Hxz; simpl.
    + destruct (String.leb (fst x) (fst y)) eqn:Hle.
      * by rewrite (leb_strict _ _ Hxy Hle), Hyz.
      * by rewrite (leb_false _ _ Hle), Hxz.
    + assert (String.leb (fst x) (fst y) = false) as Hle.
      { destruct (String.leb (fst x) (fst y)) eqn:Hle; [|done].
        by rewrite (leb_trans _ _ _ Hle Hyz) in Hxz. }
      by rewrite Hle, Hxz, Hyz.
    + assert (String.leb (fst y) (fst x) = false) as Hle.
      { destruct (String.leb (fst y) (fst x)) eqn:Hle; [|done].
        by rewrite (leb_trans _ _ _ Hle Hxz) in Hyz. }
      by rewrite Hle, Hxz, Hyz.
    + by rewrite Hxz, Hyz, IH.
Qed.

Lemma sort_by_name_perm {A} (l l' : list (string * A)) :
  l ≡ₚ l' -> NoDup (map fst l) -> sort_by_name l = sort_by_name l'.
Proof.
  induction 1 as [|x l l' Hp IH|x y l|l l' l'' Hp1 IH1 Hp2 IH2]; intros Hnd.
  - done.
  - simpl. rewrite IH; [done|]. by apply NoDup_cons in Hnd as [_ ?].
  - simpl. apply insert_by_name_comm. simpl in Hnd.
    apply NoDup_cons in Hnd as [Hy _]. intros Heq. apply Hy. rewrite Heq. left.
  - rewrite IH1 by done. apply IH2. by rewrite <- Hp1.
Qed.

(** X14. The members of a directory are added in sorted name order,
    so the order in which the directory lists its (distinctly named)
    entries does not reach the archive: two listings of the same
    entries give the same sequence of members. *)
Theorem tar_add_listing_order (es es' : listing) arcname :
  es ≡ₚ es' -> NoDup (names es) ->
  tar_add (Dir es) arcname = tar_add (Dir es') arcname.
Proof.
  intros Hp Hnd. cbn [tar_add]. f_equal. f_equal.
  apply sort_by_name_perm; [by apply Permutation_map|].
  rewrite map_map. exact Hnd.
Qed.

(** ** The extension test *)

Lemma endswith_iff s suffix : endswith s suffix = true <-> exists p, s = p +:+ suffix.
Proof.
  induction s as [|c s IH].
  - cbn [endswith]. rewrite orb_false_r. destruct (String.eqb_spec "" suffix) as [<-|Hne].
    + split; [by exists "" | done].
    + split; [done|]. intros ([|c p] & Hp); simpl in Hp; [by subst | done].
  - rewrite endswith_String, orb_true_iff, IH. split.
    + intros [->%String.eqb_eq|[p ->]]; [by exists "" | by exists (String c p)].
    + intros ([|c' p] & Hp); [left; apply String.eqb_eq; exact Hp|].
      right. exists p. rewrite append_String in Hp. by injection Hp.
Qed.

(** X15. The extension test of [validate_deb] is a plain,
    case-sensitive suffix test on the path as given: an existing path
    is refused as not being a [.deb] package exactly when it is not of
    the form [p ++ ".deb"]. The name [.deb] itself passes. *)
Theorem validate_deb_extension E input st :
  path_exists E input = true ->
  (validate_deb E input st = (Raise (ValueError "Input file must be a .deb package"), st)
   <-> ~ exists p, input = p +:+ ".deb").
Proof.
  intros Hex. rewrite <- endswith_iff. unfold validate_deb. rewrite Hex. cbn [negb].
  destruct (endswith input ".deb") eqn:Hend; cbn [negb].
  - split; [|done]. intros Hrun. exfalso. revert Hrun. unfold try_except.
    rewrite bind_eval. unfold poll. case_decide; [done|]. cbn [mret M_ret fst snd].
    rewrite bind_eval. unfold subprocess_run at 1.
    destruct (Z.eqb (returncode (dpkg_deb_info E input)) 0); [|done].
    cbn [mret M_ret fst snd]. rewrite bind_eval. unfold subprocess_run.
    destruct (Z.eqb (returncode (dpkg_deb_contents E input)) 0); [|done].
    cbn [mret M_ret fst snd]. rewrite bind_eval, log_eval. done.
  - split; [done | reflexivity].
Qed.

(** ** A conversion that goes through *)

Lemma validate_deb_ok E input st :
  path_exists E input = true -> endswith input ".deb" = true ->
  interrupt E <> Some InValidate ->
  returncode (dpkg_deb_info E input) = 0%Z ->
  returncode (dpkg_deb_contents E input) = 0%Z ->
  validate_deb E input st
  = (Ok (PyBool true),
     {| self := self st; fs := fs st;
        tty := tty st ++ [Log success (Msg "Package validation successful")] |}).
Proof.
  intros Hex Hend Hint Hinfo Hcont. unfold validate_deb. rewrite Hex, Hend. cbn [negb].
  unfold try_except.
  erewrite bind_Ok; [|by apply poll_eval].
  erewrite bind_Ok; [|by apply subprocess_run_ok].
  erewrite bind_Ok; [|by apply subprocess_run_ok].
  erewrite bind_Ok; [|apply log_eval]. cbn [shown]. by rewrite orb_true_r.
Qed.

Lemma write_records_total E t (ctl pay : listing) st :
  temp_dir (self st) = Some t -> "apg" ∉ names ctl ->
  tmpdirs (fs st) !! t = Some (Dir (ctl ++ [("apg", Dir [("data", Dir pay)])])) ->
  well_formed (Dir pay) = true ->
  interrupt E <> Some InRecords ->
  (forall name n, name ∈ control_files ->
     match entry "DEBIAN" ctl with Some d => get [name] d | None => None end = Some n ->
     exists b text, n = File b /\ read_text E b = Some text) ->
  exists st', write_records E (t, ["apg"]) st = (Ok tt, st').
Proof.
  intros Ht Hapg Hroot Hwf Hint Hread. unfold write_records.
  erewrite bind_Ok; [|by apply poll_eval].
  unfold write_file, join, path_join. simpl.
  erewrite bind_Ok.
  2:{ eapply update_tree_eval; [exact Hroot|]. by apply write_in_apg. }
  simpl set_entry. rewrite bind_eval.
  match goal with |- context [generate_metadata E ?s] => set (st_a := s) in * end.
  destruct (generate_metadata_total E st_a t Ht) as (md & st_b & Hmd).
  { intros name n Hname Hl. apply (Hread name n Hname). rewrite <- Hl.
    unfold lookup_loc. simpl. rewrite lookup_insert_eq. simpl.
    rewrite entry_app_notin_r.
    - by destruct (entry "DEBIAN" ctl).
    - simpl. by intros ?%list_elem_of_singleton. }
  rewrite Hmd. cbn [fst snd].
  destruct (generate_metadata_fields E st_a t md st_b Ht Hmd) as (Hfs_b & Ht_b & _).
  erewrite bind_Ok.
  2:{ eapply update_tree_eval.
      - rewrite Hfs_b. simpl. by rewrite lookup_insert_eq.
      - by apply write_in_apg. }
  simpl set_entry.
  erewrite bind_Ok.
  2:{ eapply update_tree_eval.
      - simpl. by rewrite lookup_insert_eq.
      - by apply write_in_apg. }
  simpl set_entry. rewrite bind_eval.
  match goal with |- context [calculate_checksums _ ?s] => set (st_c := s) in * end.
  destruct (calculate_checksums_spec t ["apg"; "data"]
              (Dir (ctl ++ [("apg", Dir [("data", Dir pay);
                                         ("metadata.json", File (json_dump E md));
                                         ("checksums.json", File "")])]))
              pay st_c) as (sums & st_d & Hsums & Hfs_d & Ht_d & Hof); [| |done|].
  { simpl. by rewrite lookup_insert_eq. }
  { simpl. rewrite entry_app_notin by done. rewrite entry_head. done. }
  rewrite Hsums. cbn [fst snd].
  erewrite update_tree_eval.
  2:{ rewrite Hfs_d. simpl. by rewrite lookup_insert_eq. }
  2:{ by apply write_in_apg. }
  by eexists.
Qed.

Lemma pack_total E l out st n :
  lookup_loc (fs st) l = Some n ->
  interrupt E <> Some InPack -> open_for_writing E out = None ->
  exists st', pack E l out st = (Ok tt, st').
Proof.
  intros Hl Hint Hopen. unfold pack.
  erewrite bind_Ok; [|apply update_progress_eval].
  erewrite bind_Ok; [|by apply poll_eval].
  rewrite Hopen, bind_eval. simpl. rewrite Hl. by eexists.
Qed.

(** The control files that exist are regular files whose bytes decode. *)
Lemma create_apg_total E out st t es :
  temp_dir (self st) = Some t -> tmpdirs (fs st) !! t = Some (Dir es) ->
  well_formed (Dir es) = true -> "apg" ∉ names es ->
  interrupt E <> Some InRestructure -> interrupt E <> Some InRecords ->
  interrupt E <> Some InPack ->
  (forall name n, name ∈ control_files -> get ["DEBIAN"; name] (Dir es) = Some n ->
     exists b text, n = File b /\ read_text E b = Some text) ->
  open_for_writing E out = None ->
  exists st', create_apg E out st = (Ok PyNone, st').
Proof.
  intros Ht Hroot Hwf Hapg Hi1 Hi2 Hi3 Hread Hopen.
  pose proof Hwf as (Hnd & _ & _)%well_formed_Dir.
  destruct (restructure_eval E st t es Ht Hroot Hnd Hapg Hi1) as (st1 & Hr & Hs1 & Ho1 & Ht1).
  destruct (write_records_total E t (control_part es) (payload_part es) st1)
    as (st2 & Hw); try done.
  { by rewrite Hs1. }
  { apply apg_not_control. }
  { rewrite Ht1. by rewrite lookup_insert_eq. }
  { by apply well_formed_filter. }
  { intros name n Hname Hn. apply (Hread name n Hname). rewrite <- Hn.
    rewrite entry_control_part. cbn [get]. by destruct (entry "DEBIAN" es). }
  destruct (write_records_spec E t (control_part es) (payload_part es) st1 st2)
    as (md & sums & Ht2 & Ho2 & Htmp2 & _); try done.
  { by rewrite Hs1. }
  { apply apg_not_control. }
  { rewrite Ht1. by rewrite lookup_insert_eq. }
  { by apply well_formed_filter. }
  destruct (pack_total E (t, ["apg"]) out st2 (apg_tree E (payload_part es) md sums))
    as (st3 & Hp); try done.
  { unfold lookup_loc. simpl. rewrite Htmp2, lookup_insert_eq. simpl.
    rewrite entry_app_notin by apply apg_not_control. by rewrite entry_head. }
  exists st3. unfold create_apg.
  erewrite bind_Ok; [|exact Hr]. erewrite bind_Ok; [|exact Hw].
  erewrite bind_Ok; [|exact Hp]. done.
Qed.


(** ** A conversion that fails *)

(** The outcome of [validate_deb] is decided by the environment alone;
    when it raises, the state is the one it was called in. *)
Lemma validate_deb_outcome E input :
  exists r : result pyvalue,
    forall s, validate_deb E input s
              = match r with
                | Raise e => (Raise e, s)
                | Ok v => (Ok v, {| self := self s; fs := fs s;
                                    tty := tty s ++ [Log success (Msg "Package validation successful")] |})
                end.
Proof.
  unfold validate_deb.
  destruct (negb (path_exists E input)); [by eexists (Raise _)|].
  destruct (negb (endswith input ".deb")); [by eexists (Raise _)|].
  unfold try_except.
  destruct (decide (interrupt E = Some InValidate)) as [Hint|Hint].
  { exists (Raise KeyboardInterrupt). intros s.
    erewrite bind_Raise; [|by apply poll_interrupted]. done. }
  destruct (Z.eqb_spec (returncode (dpkg_deb_info E input)) 0) as [Hinfo|Hinfo].
  2:{ eexists (Raise _). intros s.
      erewrite bind_Ok; [|by apply poll_eval].
      erewrite bind_Raise; [|by apply subprocess_run_failed]. reflexivity. }
  destruct (Z.eqb_spec (returncode (dpkg_deb_contents E input)) 0) as [Hcont|Hcont].
  2:{ eexists (Raise _). intros s.
      erewrite bind_Ok; [|by apply poll_eval].
      erewrite bind_Ok; [|by apply subprocess_run_ok].
      erewrite bind_Raise; [|by apply subprocess_run_failed]. reflexivity. }
  exists (Ok (PyBool true)). intros s.
  erewrite bind_Ok; [|by apply poll_eval].
  erewrite bind_Ok; [|by apply subprocess_run_ok].
  erewrite bind_Ok; [|by apply subprocess_run_ok].
  erewrite bind_Ok; [|apply log_eval]. cbn [shown]. by rewrite orb_true_r.
Qed.

Lemma convert_unfold E input output st :
  convert E input output st
  = try_finally
      (try_except
         (print (Line "Starting conversion process:");;
          validate_deb E input;; extract_deb E input;; create_apg E output;;
          poll E InReport;;
          size ← os_path_getsize output;
          log (MsgCreated output size) success;; mret PyNone)
         (fun e => if is_Exception e then Some (log (MsgFailed e) error;; raise e) else None))
      cleanup
      {| self := self st; fs := fs st; tty := tty st ++ [Banner (version (self st))] |}.
Proof. unfold convert. by erewrite bind_Ok. Qed.

(** The pipeline stopped by an exception [e] raised in the state [st1]. *)
Lemma convert_stopped E input output st e st1 :
  (print (Line "Starting conversion process:");;
   validate_deb E input;; extract_deb E input;; create_apg E output;;
   poll E InReport;;
   size ← os_path_getsize output;
   log (MsgCreated output size) success;; mret PyNone)
    {| self := self st; fs := fs st; tty := tty st ++ [Banner (version (self st))] |}
  = (Raise e, st1) ->
  convert E input output st
  = (Raise e,
     snd (cleanup {| self := self st1; fs := fs st1;
                     tty := tty st1 ++ (if is_Exception e then [Log error (MsgFailed e)]
                                        else []) |})).
Proof.
  intros Hbody. rewrite convert_unfold. unfold try_finally, try_except. rewrite Hbody.
  destruct (is_Exception e) eqn:He.
  - erewrite bind_Ok; [|apply log_eval]. cbn [shown raise]. rewrite orb_true_r.
    rewrite cleanup_eval. done.
  - rewrite app_nil_r. destruct st1 as [c d o]. cbn [self fs tty]. by rewrite cleanup_eval.
Qed.

(** X17. A package that [validate_deb] refuses goes no further: on a
    converter that remembers no temporary directory, [convert] raises
    the very exception [validate_deb] raised, with the disk and the
    converter as they were (no temporary directory created, no
    progress step counted, no output written); the terminal has gained
    the banner, the heading and, unless the exception is an interrupt,
    the failure message naming that exception. *)
Theorem convert_rejects_input E input output st e :
  temp_dir (self st) = None ->
  fst (validate_deb E input st) = Raise e ->
  exists st',
    convert E input output st = (Raise e, st')
    /\ fs st' = fs st /\ self st' = self st
    /\ tty st' = tty st ++ [Banner (version (self st)); Line "Starting conversion process:"]
                 ++ (if is_Exception e then [Log error (MsgFailed e)] else []).
Proof.
  intros Ht Hv. destruct (validate_deb_outcome E input) as [r Hr].
  rewrite Hr in Hv. destruct r as [v|e']; [done|]. cbn [fst] in Hv. injection Hv as ->.
  eexists. split.
  { apply convert_stopped. erewrite bind_Ok; [|reflexivity].
    erewrite bind_Raise; [reflexivity|]. apply Hr. }
  rewrite cleanup_eval. cbn [fst snd self fs tty print]. rewrite Ht.
  split; [by destruct (fs st)|]. split; [done|]. by rewrite <- !app_assoc.
Qed.

(** The tool failing to unpack, as [extract_deb] handles it. *)
Lemma extract_deb_failed E input st name :
  interrupt E <> Some InMkdtemp -> interrupt E <> Some InUnpack ->
  find (fun name => bool_decide (tmpdirs (fs st) !! tmp_path name = None)) (tmp_names E)
    = Some name ->
  returncode (snd (dpkg_deb_R E input)) <> 0%Z ->
  exists st',
    extract_deb E input st =
    (Raise (RuntimeError ("Failed to extract .deb: " +:+ stderr (snd (dpkg_deb_R E input)))),
     st')
    /\ temp_dir (self st') = Some (tmp_path name)
    /\ tmpdirs (fs st') !! tmp_path name = None
    /\ fs st' = fs st.
Proof.
  intros Hi1 Hi2 Hfind Hrc.
  pose proof Hfind as [_ Hfree%bool_decide_eq_true]%find_some.
  unfold extract_deb.
  erewrite bind_Ok; [|apply log_eval].
  erewrite bind_Ok; [|apply update_progress_eval].
  erewrite bind_Ok; [|by apply poll_eval].
  erewrite bind_Ok; [|by apply mkdtemp_eval].
  rewrite bind_eval. cbn [get_self fst snd]. rewrite bind_eval. cbn [set_self fst snd].
  unfold try_except.
  erewrite bind_Ok; [|by apply poll_eval].
  erewrite bind_Raise.
  2:{ unfold dpkg_deb_extract. erewrite bind_Ok.
      - by apply subprocess_run_failed.
      - eapply update_tree_eval; [|reflexivity]. cbn [fs tmpdirs]. apply lookup_insert_eq. }
  cbv beta iota. erewrite bind_Ok; [|apply cleanup_eval].
  eexists. split; [reflexivity|]. cbn [self fs tty tmpdirs outfiles temp_dir].
  destruct (String.eqb_spec (tmp_path name) "") as [Heq|_];
    [by destruct (tmp_path_nonempty name)|].
  rewrite insert_insert_eq, delete_insert_eq, lookup_delete_eq.
  split; [done|]. split; [done|]. rewrite delete_id by done. by destruct (fs st).
Qed.



(** ** What a whole run leaves on disk *)

Lemma convert_keeps_tmpdirs E input output st :
  temp_dir (self st) = None ->
  tmpdirs (fs (snd (convert E input output st))) = tmpdirs (fs st).
Proof.
  intros Hnone. set (d0 := tmpdirs (fs st)).
  assert (hoare (no_temp d0) (convert E input output)
            (fun _ st' => tmpdirs (fs st') = d0)) as H.
  { unfold convert.
    apply hoare_bind with (R := fun _ => no_temp d0).
    { apply hoare_keeps_then; [apply keeps_no_temp, quiet_print_banner|].
      by intros e st0 [H1 H2]. }
    intros _. apply hoare_try_finally with (R := fun _ => job_inv d0).
    - apply hoare_try_except with (H := fun _ => job_inv d0).
      + eapply hoare_conseq; [apply pipeline_staging|done|].
        intros r st0 H. destruct r as [a|e]; [done|]. simpl. by destruct (is_Exception e).
      + intros e h. destruct (is_Exception e); [|done]. intros [= <-].
        apply keeps_bind; [apply keeps_job_inv, quiet_log|]. intros _.
        apply keeps_job_inv, quiet_raise.
    - intros r. eapply hoare_conseq; [apply cleanup_job_inv|done|].
      by intros rf st0 (-> & H1 & H2). }
  apply H. by split.
Qed.


(** ** Digests as text *)

Lemma length_rounds l : forall s,
  List.length s = 8 -> List.length (fold_left Sha256.round l s) = 8.
Proof. induction l as [|kw l IH]; intros s Hs; [done|]. simpl. by apply IH. Qed.

Lemma length_compress h block :
  List.length h = 8 -> List.length (Sha256.compress h block) = 8.
Proof.
  intros Hh. unfold Sha256.compress. rewrite length_map, length_combine.
  rewrite length_rounds by done. by rewrite Hh.
Qed.

Lemma length_digest_words msg : List.length (Sha256.digest_words msg) = 8.
Proof.
  unfold Sha256.digest_words.
  assert (forall blocks h, List.length h = 8 ->
            List.length (fold_left Sha256.compress blocks h) = 8) as H.
  { induction blocks as [|b blocks IH]; intros h Hh; [done|].
    simpl. apply IH. by apply length_compress. }
  by apply H.
Qed.

Lemma hex_digit_is_hex d : (d < 16)%N -> is_hex (Sha256.hex_digit d) = true.
Proof.
  intros Hd.
  assert (forallb (fun n => is_hex (Sha256.hex_digit (N.of_nat n))) (seq 0 16) = true) as H
    by (vm_compute; reflexivity).
  rewrite forallb_forall in H. specialize (H (N.to_nat d)).
  rewrite N2Nat.id in H. apply H. apply in_seq. lia.
Qed.

Lemma hex_word_spec n x :
  List.length (Sha256.hex_word n x) = n
  /\ forallb is_hex (Sha256.hex_word n x) = true.
Proof.
  induction n as [|n [IH1 IH2]]; [done|]. cbn [Sha256.hex_word length forallb].
  rewrite IH1, IH2, andb_true_r. split; [done|].
  apply hex_digit_is_hex. by apply N.mod_lt.
Qed.

Lemma hex_words_spec ws :
  List.length (flat_map (Sha256.hex_word 8) ws) = 8 * List.length ws
  /\ forallb is_hex (flat_map (Sha256.hex_word 8) ws) = true.
Proof.
  induction ws as [|w ws [IH1 IH2]]; [done|]. cbn [flat_map].
  rewrite length_app, forallb_app, IH1, IH2.
  destruct (hex_word_spec 8 w) as [-> ->]. split; [simpl; lia | done].
Qed.

Lemma length_string_of_list l : String.length (string_of_list_ascii l) = List.length l.
Proof. induction l as [|c l IH]; [done|]. simpl. by rewrite IH. Qed.

Lemma hexdigest_shape data :
  String.length (Sha256.hexdigest data) = 64
  /\ forallb is_hex (list_ascii_of_string (Sha256.hexdigest data)) = true.
Proof.
  unfold Sha256.hexdigest. rewrite length_string_of_list, list_ascii_of_string_of_list_ascii.
  destruct (hex_words_spec (Sha256.digest_words
              (map N_of_ascii (list_ascii_of_string data)))) as [-> ->].
  by rewrite length_digest_words.
Qed.

(** X21. Every checksum is a digest in text form: the map returned by
    [calculate_checksums] for a well-formed directory binds each key to
    a string of exactly 64 characters, all of them lowercase
    hexadecimal digits. *)
Theorem calculate_checksums_hex (t : string) (dir : path) root data st :
  tmpdirs (fs st) !! t = Some root ->
  get dir root = Some (Dir data) ->
  well_formed (Dir data) = true ->
  exists sums,
    fst (calculate_checksums (t, dir) st) = Ok sums
    /\ forall key digest,
         sums !! key = Some digest ->
         String.length digest = 64
         /\ forallb is_hex (list_ascii_of_string digest) = true.
Proof.
  intros Ht Hdir Hwf.
  destruct (calculate_checksums_spec t dir root data st Ht Hdir Hwf)
    as (sums & st' & Hrun & _ & _ & Hsums).
  exists sums. rewrite Hrun. split; [done|].
  intros key digest (p & b & _ & _ & ->)%Hsums. apply hexdigest_shape.
Qed.

(** ** What a whole run prints *)

(** The terminal after [convert]: the banner first, and the failure
    message last when an exception other than an interrupt comes out. *)
Lemma convert_ends E input output st :
  exists l,
    tty (snd (convert E input output st)) = tty st ++ Banner (version (self st)) :: l
    /\ forall e, fst (convert E input output st) = Raise e -> is_Exception e = true ->
                 exists l', l = l' ++ [Log error (MsgFailed e)].
Proof.
  rewrite convert_unfold. unfold try_finally, try_except.
  match goal with |- context [(print ?o ≫= ?k) ?s] =>
    destruct (ticks_stages E input output s) as ((_ & _ & _ & _ & _ & l1 & Hl1 & _) & _);
    destruct ((print o ≫= k) s) as [[v|e0] st1] end; cbn [fst snd tty] in Hl1.
  - rewrite cleanup_eval. cbn [fst snd tty]. exists l1. split; [|done].
    by rewrite Hl1, <- app_assoc.
  - destruct (is_Exception e0) eqn:He0.
    + erewrite bind_Ok; [|apply log_eval]. cbn [raise shown]. rewrite orb_true_r.
      rewrite cleanup_eval. cbn [fst snd tty]. exists (l1 ++ [Log error (MsgFailed e0)]).
      split; [by rewrite Hl1, <- !app_assoc|]. intros e [= <-] _. by exists l1.
    + rewrite cleanup_eval. cbn [fst snd tty]. exists l1.
      split; [by rewrite Hl1, <- app_assoc|]. intros e [= <-]. congruence.
Qed.



(** *** Witnesses of the further properties *)

Lemma sample_main_run :
  main (sample_env None) (Args (Some "x.deb") (Some "out.apg") false false) empty_disk
  = (0%Z, snd (main (sample_env None) (Args (Some "x.deb") (Some "out.apg") false false)
                    empty_disk)).
Proof. vm_compute. reflexivity. Defined.

Lemma main_progress_bar_witness :
  let run := main (sample_env None) (Args (Some "x.deb") (Some "out.apg") false false)
                  empty_disk in
  current_step (self (snd run)) = total_steps (self (snd run)).
Proof.
  intros run.
  exact (proj2 (main_progress_bar (sample_env None)
                  (Args (Some "x.deb") (Some "out.apg") false false) empty_disk)
               eq_refl (f_equal fst sample_main_run)).
Defined.

Lemma convert_writes_only_output_witness :
  let d := {| tmpdirs := ∅; outfiles := {[ "notes.txt" := "keep" ]} |} in
  outfiles (fs (snd (convert (sample_env None) "x.deb" "out.apg" (started false d))))
    !! "notes.txt" = Some "keep".
Proof.
  intros d.
  exact (convert_writes_only_output (sample_env None) "x.deb" "out.apg" (started false d)
           "notes.txt" ltac:(discriminate)).
Defined.

Lemma convert_not_verbose_witness :
  exists l,
    tty (snd (convert (sample_env None) "x.deb" "out.apg" (started false empty_disk))) = [] ++ l
    /\ Forall (fun o => loud o = true) l.
Proof.
  exact (convert_not_verbose (sample_env None) "x.deb" "out.apg" (started false empty_disk)
           eq_refl).
Defined.

Lemma extract_deb_unpacks_witness :
  exists st',
    extract_deb (sample_env None) "x.deb" (started false empty_disk) = (Ok PyNone, st')
    /\ temp_dir (self st') = Some "/tmp/tmpa"
    /\ tmpdirs (fs st') = <["/tmp/tmpa" := Dir sample_package]> ∅.
Proof.
  destruct (extract_deb_unpacks (sample_env None) "x.deb" (started false empty_disk) "a")
    as (st' & Hrun & _ & Ht & Htmp & _).
  - discriminate.
  - discriminate.
  - vm_compute. reflexivity.
  - reflexivity.
  - exists st'. split; [exact Hrun|]. split; [exact Ht | exact Htmp].
Defined.

Lemma extract_deb_interrupted_witness :
  exists st',
    extract_deb (sample_env (Some InUnpack)) "x.deb" (started false empty_disk)
    = (Raise KeyboardInterrupt, st')
    /\ temp_dir (self st') = Some "/tmp/tmpa"
    /\ tmpdirs (fs st') = <["/tmp/tmpa" := Dir []]> ∅.
Proof.
  destruct (extract_deb_interrupted (sample_env (Some InUnpack)) "x.deb"
              (started false empty_disk) "a")
    as (st' & Hrun & Ht & Htmp & _).
  - reflexivity.
  - vm_compute. reflexivity.
  - exists st'. split; [exact Hrun|]. split; [exact Ht | exact Htmp].
Defined.

Lemma extract_deb_no_free_name_witness :
  let d := {| tmpdirs := {[ "/tmp/tmpa" := Dir []; "/tmp/tmpb" := Dir [] ]}; outfiles := ∅ |} in
  exists st',
    extract_deb (sample_env None) "x.deb" (started false d) = (Raise FileExistsError, st')
    /\ fs st' = d.
Proof.
  intros d.
  destruct (extract_deb_no_free_name (sample_env None) "x.deb" (started false d))
    as (st' & Hrun & Hfs & _).
  - discriminate.
  - repeat constructor; by eexists.
  - exists st'. split; [exact Hrun | exact Hfs].
Defined.


Lemma sample_metadata_run :
  generate_metadata (sample_env None) (extracted sample_package)
  = (Ok (match fst (generate_metadata (sample_env None) (extracted sample_package)) with
         | Ok md => md
         | Raise _ => ∅
         end),
     snd (generate_metadata (sample_env None) (extracted sample_package))).
Proof. vm_compute. reflexivity. Defined.

Lemma generate_metadata_keys_witness :
  exists md,
    fst (generate_metadata (sample_env None) (extracted sample_package)) = Ok md
    /\ md !! "control" = Some "Package: x"
    /\ "control" ∈ ["author"; "converter"; "converter_version"; "created"] ++ control_files.
Proof.
  eexists. split; [exact (f_equal fst sample_metadata_run)|].
  split; [vm_compute; reflexivity|].
  refine (generate_metadata_keys (sample_env None) (extracted sample_package) _ _ "control"
            sample_metadata_run _).
  vm_compute. by eexists.
Defined.

Lemma staging_methods_need_extraction_witness :
  (exists st', create_apg (sample_env None) "out.apg" (started false empty_disk)
               = (Raise TypeError, st') /\ fs st' = empty_disk)
  /\ (exists st', generate_metadata (sample_env None) (started false empty_disk)
                  = (Raise TypeError, st') /\ fs st' = empty_disk).
Proof.
  exact (staging_methods_need_extraction (sample_env None) "out.apg" (started false empty_disk)
           eq_refl ltac:(discriminate)).
Defined.



Lemma tar_add_listing_order_witness :
  tar_add (Dir [("b", File "y"); ("a", File "x")]) ""
  = tar_add (Dir [("a", File "x"); ("b", File "y")]) "".
Proof.
  apply tar_add_listing_order.
  - apply perm_swap.
  - apply (bool_decide_unpack _). vm_compute. exact I.
Defined.

Lemma validate_deb_extension_witness :
  let st := started false empty_disk in
  validate_deb (sample_env None) "notes.txt" st
  = (Raise (ValueError "Input file must be a .deb package"), st)
  <-> ~ exists p, "notes.txt" = p +:+ ".deb".
Proof.
  intros st. exact (validate_deb_extension (sample_env None) "notes.txt" st eq_refl).
Defined.


Lemma convert_rejects_input_witness :
  let st := started false empty_disk in
  exists st',
    convert (sample_env None) "missing.deb" "out.apg" st
    = (Raise (ValueError "Input file does not exist"), st')
    /\ fs st' = empty_disk /\ self st' = self st
    /\ tty st' = [Banner "1.0.0"; Line "Starting conversion process:";
                  Log error (MsgFailed (ValueError "Input file does not exist"))].
Proof.
  intros st.
  exact (convert_rejects_input (sample_env None) "missing.deb" "out.apg" st
           (ValueError "Input file does not exist") eq_refl eq_refl).
Defined.


Lemma sample_bad_run :
  convert (sample_env None) "bad.deb" "out.apg" (started false empty_disk)
  = (Raise (ValueError ("Invalid or corrupted .deb package: "
                        +:+ "dpkg-deb: error: not a Debian format archive")),
     snd (convert (sample_env None) "bad.deb" "out.apg" (started false empty_disk))).
Proof. vm_compute. reflexivity. Defined.


Lemma calculate_checksums_hex_witness :
  exists sums,
    fst (calculate_checksums ("/tmp/tmpa", ["apg"; "data"]) (extracted sample_restructured))
    = Ok sums
    /\ forall key digest,
         sums !! key = Some digest ->
         String.length digest = 64
         /\ forallb is_hex (list_ascii_of_string digest) = true.
Proof.
  refine (calculate_checksums_hex "/tmp/tmpa" ["apg"; "data"] (Dir sample_restructured)
            (payload_part sample_package) (extracted sample_restructured)
            eq_refl eq_refl _).
  vm_compute. reflexivity.
Defined.


Lemma convert_progress_witness :
  current_step (self (snd (convert (sample_env None) "x.deb" "out.apg"
                                   (started false empty_disk)))) = 4.
Proof.
  exact (proj1 (proj2 (proj2 (proj2 (convert_progress (sample_env None) "x.deb" "out.apg"
                                       (started false empty_disk)))))
               PyNone (f_equal fst sample_convert_run)).
Defined.


